(** * story.js: the interactive-fiction player

    A shallow embedding of the two scripts held by [src/story.js] (the
    20-second script, lines 1-888, and the 60-second script, lines
    889-1771) and the properties of the story graph, the choice timer, the
    pause overlay and the voice monitor.

    The browser is modelled as far as the scripts use it:
    - the event loop holds the active [setInterval] callbacks of
      [startTimer] (each with its closure variable [timeLeft]), those of the
      recognition heartbeat of the 60 s script, and the pending [setTimeout]
      callbacks; a handler runs to completion before the next event is
      taken;
    - timer handles are positive numbers handed out by one counter, never
      reused;
    - the document holds the story text, the choice buttons with the
      target captured by their [onclick] closure, the timer display and the
      screens appended to the body together with the listeners wired on
      their buttons;
    - the speech recognizer is the environment: its [onstart], [onend],
      [onresult] and [onerror] callbacks are events, and calls of
      [recognition.start()] and [recognition.stop()] are counted.
    Fade animations, style sheets and the 5 s removal of an alert are
    presentation and are left out, and so is the clean-up on
    [beforeunload], after which nothing runs. So are [currentNodeKey] and [currentChapter], which are only ever
    assigned their initial values, and [selectChoice] and
    [handleVoiceCommand], which nothing calls. *)

From Stdlib Require Import ZArith Ascii String.
From stdpp Require Import gmap strings list fin_maps.

Local Open Scope string_scope.
Local Open Scope Z_scope.

(** ** JavaScript strings *)

Module JsString.

(** "\n" *)
Definition nl : string := String (ascii_of_nat 10) EmptyString.

(** A string literal with "\n" escapes, given by its pieces. *)
Fixpoint lines (l : list string) : string :=
  match l with
  | [] => ""
  | [x] => x
  | x :: r => x ++ nl ++ lines r
  end.

(** [Array.prototype.join('')] *)
Definition join (l : list string) : string := foldr String.append "" l.

Definition is_upper (c : ascii) : bool :=
  (65 <=? nat_of_ascii c)%nat && (nat_of_ascii c <=? 90)%nat.

Definition lower_char (c : ascii) : ascii :=
  if is_upper c then ascii_of_nat (nat_of_ascii c + 32) else c.

(** [String.prototype.toLowerCase], on the ASCII letters. A transcript is
    held as its UTF-8 bytes; bytes above 127 stay as they are, and no
    character outside ASCII lower-cases to one of s, t, o, p. *)
Fixpoint toLowerCase (s : string) : string :=
  match s with
  | EmptyString => EmptyString
  | String c r => String (lower_char c) (toLowerCase r)
  end.

(** White space removed by [trim]: tab, line feed, vertical tab, form
    feed, carriage return, space. *)
Definition is_space (c : ascii) : bool :=
  let n := nat_of_ascii c in
  ((9 <=? n)%nat && (n <=? 13)%nat) || (n =? 32)%nat.

Fixpoint trimStart (s : string) : string :=
  match s with
  | EmptyString => EmptyString
  | String c r => if is_space c then trimStart r else s
  end.

Fixpoint trimEnd (s : string) : string :=
  match s with
  | EmptyString => EmptyString
  | String c r =>
      match trimEnd r with
      | EmptyString => if is_space c then EmptyString else String c EmptyString
      | r' => String c r'
      end
  end.

(** [String.prototype.trim] *)
Definition trim (s : string) : string := trimEnd (trimStart s).

(** [p] is a prefix of [s]. *)
Fixpoint startsWith (p s : string) : bool :=
  match p, s with
  | EmptyString, _ => true
  | String a p', String b s' => if Ascii.eqb a b then startsWith p' s' else false
  | String _ _, EmptyString => false
  end.

(** [String.prototype.includes]: [p] occurs somewhere in [s]. *)
Fixpoint includes (p s : string) : bool :=
  startsWith p s ||
  match s with
  | EmptyString => false
  | String _ r => includes p r
  end.

(** No character of [p] is white space. *)
Fixpoint noSpace (p : string) : bool :=
  match p with
  | EmptyString => true
  | String c r => negb (is_space c) && noSpace r
  end.

End JsString.
Import JsString.

(** ** The story graph *)

(** A value of [storyNodes]. Plain nodes have [text] and [choices]; ending
    nodes have [text], [ending: true] and [showEnding: true] and no
    [choices] property. An absent flag reads as [undefined], which is
    falsy. *)
Record Node := {
  text : string;
  choices : option (list (string * string));
  ending : bool;
  showEnding : bool
}.

(** The object literal [storyNodes], in source order. Both scripts hold the
    same literal (lines 238-601 and 1163-1526). *)
Definition storyNodes_literal : list (string * Node) := [
  ("start",
   {| text := lines ["( BANDERSNATCH )"; "8th July 1984"; ""; "You are Stefan Butler, a young programmer adapting a choose-your-own-adventure novel into a video game. Your first choice of the day awaits..."];
      choices := Some [("Sugar Puffs", "breakfast");
                  ("Frosties", "breakfast")];
      ending := false;
      showEnding := false |});
  ("breakfast",
   {| text := "While eating your cereal, the Thomson Twins play on TV. Your father asks if you're heading to Tuckersoft today for the game development opportunity. Movie ratings flash across the screen. This could be your big break.";
      choices := Some [("YES", "tuckersoft-memory");
                  ("NO", "therapy-session")];
      ending := false;
      showEnding := false |});
  ("tuckersoft-memory",
   {| text := "As you prepare to leave, a sudden memory flashes - the buffer error that corrupted your game. The frustration, the late nights... The code seems to be affecting your mind. Maybe Dr. Haynes should know about this.";
      choices := Some [("Continue", "therapy-session")];
      ending := false;
      showEnding := false |});
  ("therapy-session",
   {| text := lines ["1st Therapy Session"; ""; "Dr. Haynes sits across from you in her office. 'How have you been sleeping?' she asks. The rabbit toy from your childhood sits on her desk. Your mother's death weighs heavily on your mind. The train, the delay, the choice that changed everything..."];
      choices := Some [("Talk about past trauma", "talk-trauma");
                  ("Don't talk about it", "dont-talk")];
      ending := false;
      showEnding := false |});
  ("talk-trauma",
   {| text := "The words pour out. You tell Dr. Haynes about that morning - how you made your mother late for the 8:45 train. How you couldn't find your rabbit toy. How that delay meant she took the later train - the one that derailed. The guilt has haunted you ever since.";
      choices := Some [("Continue", "record-store")];
      ending := false;
      showEnding := false |});
  ("dont-talk",
   {| text := "Dr. Haynes notices your hesitation. 'Stefan, bottling things up won't help. Would you like to talk about what's troubling you?' Her eyes drift to the rabbit toy, a reminder of that fateful morning.";
      choices := Some [("Talk", "talk-trauma");
                  ("Don't talk", "record-store")];
      ending := false;
      showEnding := false |});
  ("record-store",
   {| text := "At the record store, you browse through albums. Two catch your eye - 'Phaedra' by Tangerine Dream and 'The Bermuda Triangle' by Isao Tomita. Something about the music feels significant to your game.";
      choices := Some [("Phaedra", "pour-tea");
                  ("The Bermuda Triangle", "bermuda-path")];
      ending := false;
      showEnding := false |});
  ("pour-tea",
   {| text := "Pour Tea on computer";
      choices := Some [("Continue", "ending-1")];
      ending := false;
      showEnding := false |});
  ("bermuda-path",
   {| text := lines ["17th July 1984 → 2nd August → 20th August"; ""; "The music inspires you, but your game keeps crashing at startup. The frustration builds as each attempt fails. Your father watches with growing concern as you become more obsessed. The code seems to mock you with each error."];
      choices := Some [("Shout at Dad", "shout-dad")];
      ending := false;
      showEnding := false |});
  ("shout-dad",
   {| text := "Your anger explodes. 'Stop watching me!' you scream. Your father backs away, hurt and concerned. In the silence that follows, two paths lie before you: seek help or follow Colin's mysterious invitation.";
      choices := Some [("Follow Colin", "follow-colin");
                  ("Meet Dr. Haynes", "therapy-two")];
      ending := false;
      showEnding := false |});
  ("follow-colin",
   {| text := "Colin's apartment is filled with code printouts and strange diagrams. 'Reality is a construct,' he explains, opening your mind to new possibilities. His theories about control and choice seem increasingly compelling. He offers you LSD, claiming it will help you see the truth.";
      choices := Some [("Take LSD", "take-lsd");
                  ("Refuse", "refuse-lsd")];
      ending := false;
      showEnding := false |});
  ("refuse-lsd",
   {| text := "You decline, but Colin smirks knowingly. 'Choice is an illusion,' he says, dropping the acid into your tea when you're not looking. The world begins to shift around you...";
      choices := Some [("Continue", "colin-jumps")];
      ending := false;
      showEnding := false |});
  ("take-lsd",
   {| text := "The acid takes hold. Reality bends and fractures. On Colin's balcony, the city seems to pulse with hidden meaning. 'One of us must jump,' Colin states matter-of-factly. 'A sacrifice for the program.' The ground below seems both distant and inviting.";
      choices := Some [("Stefan jumps off the roof", "ending-1");
                  ("Colin jumps off", "colin-jumps")];
      ending := false;
      showEnding := false |});
  ("colin-jumps",
   {| text := "Kitty's scream pierces the air as Colin steps off the balcony. You wake up in your father's car, gasping. Was it real? Kitty's later denial suggests otherwise, but Colin is nowhere to be found. The line between reality and fantasy blurs further.";
      choices := Some [("Continue", "therapy-two")];
      ending := false;
      showEnding := false |});
  ("therapy-two",
   {| text := lines ["2nd Therapy Session"; ""; "Dr. Haynes notices your agitation immediately. 'You seem different, Stefan.' The walls feel closer, the air thicker. Someone or something seems to be controlling your actions. Your body twitches with nervous energy."];
      choices := Some [("Bite nails", "bite-nails");
                  ("Pull on earlobe", "pull-earlobe")];
      ending := false;
      showEnding := false |});
  ("bite-nails",
   {| text := "Your teeth tear at your nails as Dr. Haynes watches. 'Someone's making you do this?' she asks. She increases your medication dosage, but you feel a strange resistance to her authority. The pills sit heavily in your hand.";
      choices := Some [("Take pills", "take-pills");
                  ("Flush pills", "flush-pills");
                  ("Throw pills away", "throw-pills")];
      ending := false;
      showEnding := false |});
  ("pull-earlobe",
   {| text := "Your fingers find your earlobe, pulling rhythmically. Dr. Haynes leans forward, concerned. 'These compulsions... they're getting stronger?' She writes a new prescription, but something feels wrong about the whole situation.";
      choices := Some [("Take pills", "take-pills");
                  ("Flush pills", "flush-pills");
                  ("Throw pills away", "throw-pills")];
      ending := false;
      showEnding := false |});
  ("take-pills",
   {| text := lines ["12 Sept 1984 → 12 Sept 1984"; ""; "The medication clouds your mind, but the game keeps crashing. During the delivery date preparation, everything falls apart. Colin's mysterious tape appears, containing impossible knowledge about your situation."];
      choices := Some [("Continue", "morning-after")];
      ending := false;
      showEnding := false |});
  ("throw-pills",
   {| text := "Something's deeply wrong. The pills fly across the room as your reality fractures. The world spins, and suddenly you're on the roof. The ground below promises an escape from this controlled existence.";
      choices := Some [("Continue", "morning-after")];
      ending := false;
      showEnding := false |});
  ("morning-after",
   {| text := "Next morning, the game crashes again. Your mind races with conspiracy theories. Colin's words echo in your head. The code seems alive, mocking you. Your computer screen flickers with malevolent purpose.";
      choices := Some [("Destroy Computer", "destroy-computer");
                  ("Hit Desk", "hit-desk")];
      ending := false;
      showEnding := false |});
  ("hit-desk",
   {| text := "Your fist slams into the desk. The pain centers you momentarily. Two objects catch your eye: a family photo from before your mother's death, and a mysterious book about government control.";
      choices := Some [("Pick up family photo", "family-photo");
                  ("Pick up book", "pick-book")];
      ending := false;
      showEnding := false |});
  ("family-photo",
   {| text := lines ["Wakes up at night"; "Sees that the phone"; "game back to over and"; "over again. Realizes"; "wakes up over and over"; "making new timelines"];
      choices := Some [("Throw tea over computer", "netflix-path");
                  ("Destroy computer", "binary-path");
                  ("P.A.C.S", "pacs-path")];
      ending := false;
      showEnding := false |});
  ("pick-book",
   {| text := "The book reveals different code combinations. Each seems significant: JFD (Jerome F. Davies), PAX (Peace), PAC (Program and Control), or TOY (your childhood rabbit). Which will unlock the truth?";
      choices := Some [("JFD", "jfd-path");
                  ("PAX", "pax-path");
                  ("PAC", "pac-path");
                  ("TOY", "toy-path")];
      ending := false;
      showEnding := false |});
  ("jfd-path",
   {| text := "Wrong password. Jerome F. Davies' story feels connected to yours, but this isn't the right path.";
      choices := Some [("Try again", "pick-book")];
      ending := false;
      showEnding := false |});
  ("pax-path",
   {| text := "Wrong password. Peace seems far away now, as your grip on reality loosens.";
      choices := Some [("Try again", "pick-book")];
      ending := false;
      showEnding := false |});
  ("pac-path",
   {| text := "Wrong password. Program and Control... the words echo in your mind. There must be more to this.";
      choices := Some [("Try again", "pick-book");
                  ("Get angry", "pacs-path")];
      ending := false;
      showEnding := false |});
  ("toy-path",
   {| text := "The password triggers memories of your childhood. The toy rabbit, your mother, that fateful morning... Do you want to face these memories?";
      choices := Some [("Don't go", "ending-5");
                  ("Go with Mum", "ending-7")];
      ending := false;
      showEnding := false |});
  ("pacs-path",
   {| text := "You discover P.A.C.S files in your father's study. A keypad requires a code. The numbers seem to hold significance.";
      choices := Some [("2-0-5-4-1", "code-path");
                  ("Any other combination", "pick-book")];
      ending := false;
      showEnding := false |});
  ("code-path",
   {| text := "The truth unravels. Your father's surveillance, the therapy sessions, the train ticket - it all connects. Your game isn't just a game anymore.";
      choices := Some [("Continue", "kill-dad")];
      ending := false;
      showEnding := false |});
  ("kill-dad",
   {| text := "The truth about your father's control becomes too much. In a moment of rage, you've killed him. What now?";
      choices := Some [("Bury body", "bury-body");
                  ("Chop-up body", "chop-body");
                  ("Back Off", "back-off")];
      ending := false;
      showEnding := false |});
  ("bury-body",
   {| text := "Tucker calls about the game delivery while you're burying the body. Time is running out.";
      choices := Some [("Tell truth", "ending-4");
                  ("Lie", "ending-6")];
      ending := false;
      showEnding := false |});
  ("chop-body",
   {| text := "You make the grim choice to dispose of the evidence piece by piece. There's no going back now.";
      choices := Some [("Continue", "ending-4")];
      ending := false;
      showEnding := false |});
  ("back-off",
   {| text := "You step away from the body, horrified at what almost happened. Maybe there's still a chance to finish the game without losing yourself.";
      choices := Some [("Continue", "ending-3")];
      ending := false;
      showEnding := false |});
  ("binary-path",
   {| text := "Binary branch symbol";
      choices := Some [("Try to explain", "ending-8")];
      ending := false;
      showEnding := false |});
  ("netflix-path",
   {| text := "Netflix path begins";
      choices := Some [("Give more info", "more-info");
                  ("Stop", "stop-info")];
      ending := false;
      showEnding := false |});
  ("more-info",
   {| text := "Stefan gets deep into his theory";
      choices := Some [("Continue", "therapy-fight")];
      ending := false;
      showEnding := false |});
  ("therapy-fight",
   {| text := lines ["3rd Therapy Session"; "fight sequence begins"];
      choices := Some [("Yeah", "yeah-fight");
                  ("FUCK 'EM", "fight-em")];
      ending := false;
      showEnding := false |});
  ("yeah-fight",
   {| text := "Fight sequence";
      choices := Some [("Jump out the window", "ending-8");
                  ("Fight her", "karate-fight")];
      ending := false;
      showEnding := false |});
  ("karate-fight",
   {| text := "Karate fight scene";
      choices := Some [("Karate chop dad", "ending-9");
                  ("Kill dad", "kill-dad")];
      ending := false;
      showEnding := false |});
  ("ending-1",
   {| text := lines ["#1"; "FRUSTRATION TAKES ITS TOLL"; ""; "ALL OF STEFAN'S WORK IS LOST AND PRESUMABLY HE DROPS OUT."; "The pressure of game development and haunting memories prove too much. Your journey ends here, the game unfinished, your story incomplete."; "THE END"];
      choices := None;
      ending := true;
      showEnding := true |});
  ("ending-2",
   {| text := lines ["#2"; "THE ULTIMATE SACRIFICE"; ""; "5/5 (AVERAGE)"; "GAME IS RELEASED."; "STEFAN IS DEAD."; "Your masterpiece is complete, but at what cost? The lines between reality and game blur until the final choice. Critics praise your work, unaware of the true price paid."; "THE END"];
      choices := None;
      ending := true;
      showEnding := true |});
  ("ending-3",
   {| text := lines ["#3"; "PERFECT BALANCE"; ""; "5/5 (AVERAGE)"; "GAME IS RELEASED"; "NOBODY DIES"; "You navigate the complexities of game development while maintaining your sanity. Bandersnatch becomes a success, and you find peace with your past."; "THE END"];
      choices := None;
      ending := true;
      showEnding := true |});
  ("ending-4",
   {| text := lines ["#4"; "THE PRICE OF TRUTH"; ""; "2.5/5 (AVERAGE)"; "GAME IS RELEASED"; "STEFAN GOES TO JAIL"; "DAD IS DEAD"; "The dark path you chose led to tragedy. The game releases, but your actions have consequences that will follow you forever."; "THE END"];
      choices := None;
      ending := true;
      showEnding := true |});
  ("ending-5",
   {| text := lines ["#5"; "REALITY BREAKS"; ""; "STEFAN IS TOO STRESSED??"; "DROPS OUT??"; "INCONCLUSIVE."; "The boundaries between reality and fiction collapse. Your grip on reality slips away as the game consumes your mind."; "THE END"];
      choices := None;
      ending := true;
      showEnding := true |});
  ("ending-6",
   {| text := lines ["#6"; "THE PERFECT CRIME"; ""; "5/5 (Best)"; "GAME IS RELEASED"; "STEFAN ESCAPED JAIL"; "DAD IS DEAD"; "Post credits:"; "PEARL RITMAN DECIDES TO REMAKE THE GAME AND LIKE STEFAN GOES MAD"; "Your masterpiece is complete, but its dark influence lives on, claiming new victims in an endless cycle."; "THE END"];
      choices := None;
      ending := true;
      showEnding := true |});
  ("ending-7",
   {| text := lines ["#7"; "THE TRUTH REVEALED"; ""; "STEFAN REMEMBERS HIS MOTHER'S DEATH FROM 1ST THERAPY SESSION"; "The past comes rushing back. The weight of your choices, both past and present, becomes clear. Some memories are better left buried."; "THE END"];
      choices := None;
      ending := true;
      showEnding := true |});
  ("ending-8",
   {| text := lines ["#8"; "META BREAKTHROUGH"; ""; "THE GREATEST FOURTH WALL BREAK EVER. HANDS DOWN."; "Reality itself breaks down as you realize the truth about your existence. The audience watches, but who's really in control?"; "THE END"];
      choices := None;
      ending := true;
      showEnding := true |});
  ("ending-9",
   {| text := lines ["#9"; "DESCENT INTO MADNESS"; ""; "STEFAN TOTALLY LOSES IT."; "PROGRAM GETS SENT TO THE ARCHIVES."; "The pressure becomes too much. Your grip on reality slips away completely, and your work becomes a cautionary tale."; "THE END"];
      choices := None;
      ending := true;
      showEnding := true |});
  ("ending-10",
   {| text := lines ["#10"; "TOTAL COLLAPSE"; ""; "THE GAME NEVER GETS RELEASED."; "TUCKERSOFT TANKS."; "STEFAN ARRESTED FOR MURDER."; "Everything falls apart. The game, the company, your life - all destroyed by the choices made along the way."; "THE END"];
      choices := None;
      ending := true;
      showEnding := true |})
].

Definition storyNodes : gmap string Node := list_to_map storyNodes_literal.

(** The node at a key of the graph; a node without text where there is
    none. *)
Definition nodeAt (key : string) : Node :=
  default {| text := ""; choices := None; ending := false; showEnding := false |}
    (storyNodes !! key).

(** The two scripts of [story.js]. *)
Inductive Script :=
  | Script20   (* lines 1-888 *)
  | Script60.  (* lines 889-1771 *)

(** [const CHOICE_TIME] (lines 6 and 893), in seconds. *)
Definition CHOICE_TIME (sc : Script) : Z :=
  match sc with
  | Script20 => 20
  | Script60 => 60
  end.

(** [const MAX_RESTART_ATTEMPTS] (line 905). *)
Definition MAX_RESTART_ATTEMPTS : Z := 5.

(** *** Property access [storyNodes[key]] *)

(** The members every object literal inherits from [Object.prototype]. *)
Definition Object_prototype : list string :=
  ["constructor"; "hasOwnProperty"; "isPrototypeOf"; "propertyIsEnumerable";
   "toLocaleString"; "toString"; "valueOf"; "__defineGetter__";
   "__defineSetter__"; "__lookupGetter__"; "__lookupSetter__"; "__proto__"].

(** What [storyNodes[key]] evaluates to when it is not [undefined]: a node of
    the literal, or an inherited member. An inherited member is truthy and
    has no [text], [choices] or [ending] property. *)
Inductive JsValue :=
  | Own (n : Node)
  | Inherited (name : string).

(** [nodes[key]]; [None] is [undefined]. *)
Definition js_get (nodes : gmap string Node) (key : string) : option JsValue :=
  match nodes !! key with
  | Some n => Some (Own n)
  | None => if bool_decide (key ∈ Object_prototype) then Some (Inherited key) else None
  end.

Definition truthy (v : option JsValue) : bool :=
  match v with
  | Some _ => true
  | None => false
  end.

(** ** The page *)

(** The listeners the scripts wire on the buttons of a screen. *)
Inductive Handler :=
  | TryAgain      (* remove the screen; restartGame() *)
  | ReturnMenu    (* window.location.href = 'index.html' *)
  | Resume        (* pause screen, #resumeBtn *)
  | PauseRestart  (* pause screen, #restartBtn, behind confirm() *)
  | PauseMenu.    (* pause screen, #menuBtn, behind confirm() *)

Inductive ScreenKind :=
  | PauseScreen
  | TimeUpScreen
  | EndingScreen (shown : string)
  | ErrorScreen.

(** A screen appended to [document.body]: the buttons of its markup, by
    element id, and the listeners the script adds on them. *)
Record Screen := {
  kind : ScreenKind;
  buttons : list string;
  listeners : list (string * Handler)
}.

(** Modelled from the spec: the page with the templates that the 60 s script
    clones ([pause-template], [time-up-template], [ending-template],
    [error-template]) is not under src/. Section 4.4 of the spec gives the
    time-up and the ending screen the same retry/return pair and the pause
    overlay resume, restart and menu; these are the buttons the 20 s script
    writes in its own markup (lines 131-133, 678-679, 708-709, 861) and the
    ids both scripts look up. *)
Definition buttonsOf (k : ScreenKind) : list string :=
  match k with
  | PauseScreen => ["resumeBtn"; "restartBtn"; "menuBtn"]
  | TimeUpScreen => ["tryAgainBtn"; "returnMenuBtn"]
  | EndingScreen _ => ["tryAgainBtn"; "returnMenuBtn"]
  | ErrorScreen => ["returnMenuBtn"]
  end.

Definition timeUpScreen : Screen :=
  {| kind := TimeUpScreen;
     buttons := buttonsOf TimeUpScreen;
     listeners := [("tryAgainBtn", TryAgain); ("returnMenuBtn", ReturnMenu)] |}.

Definition endingScreen (shown : string) : Screen :=
  {| kind := EndingScreen shown;
     buttons := buttonsOf (EndingScreen shown);
     listeners := [("tryAgainBtn", TryAgain); ("returnMenuBtn", ReturnMenu)] |}.

Definition pauseScreen : Screen :=
  {| kind := PauseScreen;
     buttons := buttonsOf PauseScreen;
     listeners := [("resumeBtn", Resume); ("restartBtn", PauseRestart);
                   ("menuBtn", PauseMenu)] |}.

Definition errorScreen : Screen :=
  {| kind := ErrorScreen;
     buttons := buttonsOf ErrorScreen;
     listeners := [("returnMenuBtn", ReturnMenu)] |}.

(** Pending [setTimeout] callbacks. *)
Inductive Task :=
  | DisplayTask (node : option JsValue)  (* updateDisplay, 300 ms *)
  | RestartTask                          (* recognition.onend, 1000 ms *)
  | NetworkRetryTask                     (* recognition.onerror, 2000 ms *)
  | StallRestartTask.                    (* heartbeat, 1000 ms *)

(** One-shot [click] listeners on [document.body]. *)
Inductive BodyListener :=
  | FirstSetup    (* window.onload *)
  | Reconnect     (* recognitionRestartAttempts = 0; setupVoiceRecognition() *)
  | StartOrSetup  (* resume, 60 s script: recognition.start(), else setup *)
  | SetupAgain.   (* pause restart, 60 s script: setupVoiceRecognition() *)

(** Script variables, event loop, document and the calls made to the
    environment. *)
Record State := {
  (* script variables *)
  timer : option nat;
  isPaused : bool;
  recognition : bool;
  isListening : bool;
  recognitionRestartAttempts : Z;
  lastRecognitionTime : Z;
  recognitionHeartbeat : option nat;     (* window.recognitionHeartbeat *)
  (* event loop *)
  nextHandle : nat;
  intervals : gmap nat Z;
  timeouts : gmap nat Task;
  heartbeats : gset nat;
  bodyListeners : list BodyListener;
  (* document *)
  storyText : option string;
  choiceButtons : list (string * string);
  timerDisplay : option Z;
  screens : list Screen;
  alerts : list string;
  (* environment *)
  startCalls : nat;
  stopCalls : nat;
  uncaught : nat;
  navigated : bool
}.

Definition set_timer (v : option nat) (s : State) : State :=
  {| timer := v; isPaused := isPaused s; recognition := recognition s;
     isListening := isListening s; recognitionRestartAttempts :=
     recognitionRestartAttempts s; lastRecognitionTime :=
     lastRecognitionTime s; recognitionHeartbeat := recognitionHeartbeat s;
     nextHandle := nextHandle s; intervals := intervals s; timeouts :=
     timeouts s; heartbeats := heartbeats s; bodyListeners := bodyListeners
     s; storyText := storyText s; choiceButtons := choiceButtons s;
     timerDisplay := timerDisplay s; screens := screens s; alerts := alerts
     s; startCalls := startCalls s; stopCalls := stopCalls s; uncaught :=
     uncaught s; navigated := navigated s |}.

Definition set_isPaused (v : bool) (s : State) : State :=
  {| timer := timer s; isPaused := v; recognition := recognition s;
     isListening := isListening s; recognitionRestartAttempts :=
     recognitionRestartAttempts s; lastRecognitionTime :=
     lastRecognitionTime s; recognitionHeartbeat := recognitionHeartbeat s;
     nextHandle := nextHandle s; intervals := intervals s; timeouts :=
     timeouts s; heartbeats := heartbeats s; bodyListeners := bodyListeners
     s; storyText := storyText s; choiceButtons := choiceButtons s;
     timerDisplay := timerDisplay s; screens := screens s; alerts := alerts
     s; startCalls := startCalls s; stopCalls := stopCalls s; uncaught :=
     uncaught s; navigated := navigated s |}.

Definition set_recognition (v : bool) (s : State) : State :=
  {| timer := timer s; isPaused := isPaused s; recognition := v; isListening
     := isListening s; recognitionRestartAttempts :=
     recognitionRestartAttempts s; lastRecognitionTime :=
     lastRecognitionTime s; recognitionHeartbeat := recognitionHeartbeat s;
     nextHandle := nextHandle s; intervals := intervals s; timeouts :=
     timeouts s; heartbeats := heartbeats s; bodyListeners := bodyListeners
     s; storyText := storyText s; choiceButtons := choiceButtons s;
     timerDisplay := timerDisplay s; screens := screens s; alerts := alerts
     s; startCalls := startCalls s; stopCalls := stopCalls s; uncaught :=
     uncaught s; navigated := navigated s |}.

Definition set_isListening (v : bool) (s : State) : State :=
  {| timer := timer s; isPaused := isPaused s; recognition := recognition s;
     isListening := v; recognitionRestartAttempts :=
     recognitionRestartAttempts s; lastRecognitionTime :=
     lastRecognitionTime s; recognitionHeartbeat := recognitionHeartbeat s;
     nextHandle := nextHandle s; intervals := intervals s; timeouts :=
     timeouts s; heartbeats := heartbeats s; bodyListeners := bodyListeners
     s; storyText := storyText s; choiceButtons := choiceButtons s;
     timerDisplay := timerDisplay s; screens := screens s; alerts := alerts
     s; startCalls := startCalls s; stopCalls := stopCalls s; uncaught :=
     uncaught s; navigated := navigated s |}.

Definition set_recognitionRestartAttempts (v : Z) (s : State) : State :=
  {| timer := timer s; isPaused := isPaused s; recognition := recognition s;
     isListening := isListening s; recognitionRestartAttempts := v;
     lastRecognitionTime := lastRecognitionTime s; recognitionHeartbeat :=
     recognitionHeartbeat s; nextHandle := nextHandle s; intervals :=
     intervals s; timeouts := timeouts s; heartbeats := heartbeats s;
     bodyListeners := bodyListeners s; storyText := storyText s;
     choiceButtons := choiceButtons s; timerDisplay := timerDisplay s;
     screens := screens s; alerts := alerts s; startCalls := startCalls s;
     stopCalls := stopCalls s; uncaught := uncaught s; navigated :=
     navigated s |}.

Definition set_lastRecognitionTime (v : Z) (s : State) : State :=
  {| timer := timer s; isPaused := isPaused s; recognition := recognition s;
     isListening := isListening s; recognitionRestartAttempts :=
     recognitionRestartAttempts s; lastRecognitionTime := v;
     recognitionHeartbeat := recognitionHeartbeat s; nextHandle :=
     nextHandle s; intervals := intervals s; timeouts := timeouts s;
     heartbeats := heartbeats s; bodyListeners := bodyListeners s; storyText
     := storyText s; choiceButtons := choiceButtons s; timerDisplay :=
     timerDisplay s; screens := screens s; alerts := alerts s; startCalls :=
     startCalls s; stopCalls := stopCalls s; uncaught := uncaught s;
     navigated := navigated s |}.

Definition set_recognitionHeartbeat (v : option nat) (s : State) : State :=
  {| timer := timer s; isPaused := isPaused s; recognition := recognition s;
     isListening := isListening s; recognitionRestartAttempts :=
     recognitionRestartAttempts s; lastRecognitionTime :=
     lastRecognitionTime s; recognitionHeartbeat := v; nextHandle :=
     nextHandle s; intervals := intervals s; timeouts := timeouts s;
     heartbeats := heartbeats s; bodyListeners := bodyListeners s; storyText
     := storyText s; choiceButtons := choiceButtons s; timerDisplay :=
     timerDisplay s; screens := screens s; alerts := alerts s; startCalls :=
     startCalls s; stopCalls := stopCalls s; uncaught := uncaught s;
     navigated := navigated s |}.

Definition set_nextHandle (v : nat) (s : State) : State :=
  {| timer := timer s; isPaused := isPaused s; recognition := recognition s;
     isListening := isListening s; recognitionRestartAttempts :=
     recognitionRestartAttempts s; lastRecognitionTime :=
     lastRecognitionTime s; recognitionHeartbeat := recognitionHeartbeat s;
     nextHandle := v; intervals := intervals s; timeouts := timeouts s;
     heartbeats := heartbeats s; bodyListeners := bodyListeners s; storyText
     := storyText s; choiceButtons := choiceButtons s; timerDisplay :=
     timerDisplay s; screens := screens s; alerts := alerts s; startCalls :=
     startCalls s; stopCalls := stopCalls s; uncaught := uncaught s;
     navigated := navigated s |}.

Definition set_intervals (v : gmap nat Z) (s : State) : State :=
  {| timer := timer s; isPaused := isPaused s; recognition := recognition s;
     isListening := isListening s; recognitionRestartAttempts :=
     recognitionRestartAttempts s; lastRecognitionTime :=
     lastRecognitionTime s; recognitionHeartbeat := recognitionHeartbeat s;
     nextHandle := nextHandle s; intervals := v; timeouts := timeouts s;
     heartbeats := heartbeats s; bodyListeners := bodyListeners s; storyText
     := storyText s; choiceButtons := choiceButtons s; timerDisplay :=
     timerDisplay s; screens := screens s; alerts := alerts s; startCalls :=
     startCalls s; stopCalls := stopCalls s; uncaught := uncaught s;
     navigated := navigated s |}.

Definition set_timeouts (v : gmap nat Task) (s : State) : State :=
  {| timer := timer s; isPaused := isPaused s; recognition := recognition s;
     isListening := isListening s; recognitionRestartAttempts :=
     recognitionRestartAttempts s; lastRecognitionTime :=
     lastRecognitionTime s; recognitionHeartbeat := recognitionHeartbeat s;
     nextHandle := nextHandle s; intervals := intervals s; timeouts := v;
     heartbeats := heartbeats s; bodyListeners := bodyListeners s; storyText
     := storyText s; choiceButtons := choiceButtons s; timerDisplay :=
     timerDisplay s; screens := screens s; alerts := alerts s; startCalls :=
     startCalls s; stopCalls := stopCalls s; uncaught := uncaught s;
     navigated := navigated s |}.

Definition set_heartbeats (v : gset nat) (s : State) : State :=
  {| timer := timer s; isPaused := isPaused s; recognition := recognition s;
     isListening := isListening s; recognitionRestartAttempts :=
     recognitionRestartAttempts s; lastRecognitionTime :=
     lastRecognitionTime s; recognitionHeartbeat := recognitionHeartbeat s;
     nextHandle := nextHandle s; intervals := intervals s; timeouts :=
     timeouts s; heartbeats := v; bodyListeners := bodyListeners s;
     storyText := storyText s; choiceButtons := choiceButtons s;
     timerDisplay := timerDisplay s; screens := screens s; alerts := alerts
     s; startCalls := startCalls s; stopCalls := stopCalls s; uncaught :=
     uncaught s; navigated := navigated s |}.

Definition set_bodyListeners (v : list BodyListener) (s : State) : State :=
  {| timer := timer s; isPaused := isPaused s; recognition := recognition s;
     isListening := isListening s; recognitionRestartAttempts :=
     recognitionRestartAttempts s; lastRecognitionTime :=
     lastRecognitionTime s; recognitionHeartbeat := recognitionHeartbeat s;
     nextHandle := nextHandle s; intervals := intervals s; timeouts :=
     timeouts s; heartbeats := heartbeats s; bodyListeners := v; storyText
     := storyText s; choiceButtons := choiceButtons s; timerDisplay :=
     timerDisplay s; screens := screens s; alerts := alerts s; startCalls :=
     startCalls s; stopCalls := stopCalls s; uncaught := uncaught s;
     navigated := navigated s |}.

Definition set_storyText (v : option string) (s : State) : State :=
  {| timer := timer s; isPaused := isPaused s; recognition := recognition s;
     isListening := isListening s; recognitionRestartAttempts :=
     recognitionRestartAttempts s; lastRecognitionTime :=
     lastRecognitionTime s; recognitionHeartbeat := recognitionHeartbeat s;
     nextHandle := nextHandle s; intervals := intervals s; timeouts :=
     timeouts s; heartbeats := heartbeats s; bodyListeners := bodyListeners
     s; storyText := v; choiceButtons := choiceButtons s; timerDisplay :=
     timerDisplay s; screens := screens s; alerts := alerts s; startCalls :=
     startCalls s; stopCalls := stopCalls s; uncaught := uncaught s;
     navigated := navigated s |}.

Definition set_choiceButtons (v : list (string * string)) (s : State) : State :=
  {| timer := timer s; isPaused := isPaused s; recognition := recognition s;
     isListening := isListening s; recognitionRestartAttempts :=
     recognitionRestartAttempts s; lastRecognitionTime :=
     lastRecognitionTime s; recognitionHeartbeat := recognitionHeartbeat s;
     nextHandle := nextHandle s; intervals := intervals s; timeouts :=
     timeouts s; heartbeats := heartbeats s; bodyListeners := bodyListeners
     s; storyText := storyText s; choiceButtons := v; timerDisplay :=
     timerDisplay s; screens := screens s; alerts := alerts s; startCalls :=
     startCalls s; stopCalls := stopCalls s; uncaught := uncaught s;
     navigated := navigated s |}.

Definition set_timerDisplay (v : option Z) (s : State) : State :=
  {| timer := timer s; isPaused := isPaused s; recognition := recognition s;
     isListening := isListening s; recognitionRestartAttempts :=
     recognitionRestartAttempts s; lastRecognitionTime :=
     lastRecognitionTime s; recognitionHeartbeat := recognitionHeartbeat s;
     nextHandle := nextHandle s; intervals := intervals s; timeouts :=
     timeouts s; heartbeats := heartbeats s; bodyListeners := bodyListeners
     s; storyText := storyText s; choiceButtons := choiceButtons s;
     timerDisplay := v; screens := screens s; alerts := alerts s; startCalls
     := startCalls s; stopCalls := stopCalls s; uncaught := uncaught s;
     navigated := navigated s |}.

Definition set_screens (v : list Screen) (s : State) : State :=
  {| timer := timer s; isPaused := isPaused s; recognition := recognition s;
     isListening := isListening s; recognitionRestartAttempts :=
     recognitionRestartAttempts s; lastRecognitionTime :=
     lastRecognitionTime s; recognitionHeartbeat := recognitionHeartbeat s;
     nextHandle := nextHandle s; intervals := intervals s; timeouts :=
     timeouts s; heartbeats := heartbeats s; bodyListeners := bodyListeners
     s; storyText := storyText s; choiceButtons := choiceButtons s;
     timerDisplay := timerDisplay s; screens := v; alerts := alerts s;
     startCalls := startCalls s; stopCalls := stopCalls s; uncaught :=
     uncaught s; navigated := navigated s |}.

Definition set_alerts (v : list string) (s : State) : State :=
  {| timer := timer s; isPaused := isPaused s; recognition := recognition s;
     isListening := isListening s; recognitionRestartAttempts :=
     recognitionRestartAttempts s; lastRecognitionTime :=
     lastRecognitionTime s; recognitionHeartbeat := recognitionHeartbeat s;
     nextHandle := nextHandle s; intervals := intervals s; timeouts :=
     timeouts s; heartbeats := heartbeats s; bodyListeners := bodyListeners
     s; storyText := storyText s; choiceButtons := choiceButtons s;
     timerDisplay := timerDisplay s; screens := screens s; alerts := v;
     startCalls := startCalls s; stopCalls := stopCalls s; uncaught :=
     uncaught s; navigated := navigated s |}.

Definition set_startCalls (v : nat) (s : State) : State :=
  {| timer := timer s; isPaused := isPaused s; recognition := recognition s;
     isListening := isListening s; recognitionRestartAttempts :=
     recognitionRestartAttempts s; lastRecognitionTime :=
     lastRecognitionTime s; recognitionHeartbeat := recognitionHeartbeat s;
     nextHandle := nextHandle s; intervals := intervals s; timeouts :=
     timeouts s; heartbeats := heartbeats s; bodyListeners := bodyListeners
     s; storyText := storyText s; choiceButtons := choiceButtons s;
     timerDisplay := timerDisplay s; screens := screens s; alerts := alerts
     s; startCalls := v; stopCalls := stopCalls s; uncaught := uncaught s;
     navigated := navigated s |}.

Definition set_stopCalls (v : nat) (s : State) : State :=
  {| timer := timer s; isPaused := isPaused s; recognition := recognition s;
     isListening := isListening s; recognitionRestartAttempts :=
     recognitionRestartAttempts s; lastRecognitionTime :=
     lastRecognitionTime s; recognitionHeartbeat := recognitionHeartbeat s;
     nextHandle := nextHandle s; intervals := intervals s; timeouts :=
     timeouts s; heartbeats := heartbeats s; bodyListeners := bodyListeners
     s; storyText := storyText s; choiceButtons := choiceButtons s;
     timerDisplay := timerDisplay s; screens := screens s; alerts := alerts
     s; startCalls := startCalls s; stopCalls := v; uncaught := uncaught s;
     navigated := navigated s |}.

Definition set_uncaught (v : nat) (s : State) : State :=
  {| timer := timer s; isPaused := isPaused s; recognition := recognition s;
     isListening := isListening s; recognitionRestartAttempts :=
     recognitionRestartAttempts s; lastRecognitionTime :=
     lastRecognitionTime s; recognitionHeartbeat := recognitionHeartbeat s;
     nextHandle := nextHandle s; intervals := intervals s; timeouts :=
     timeouts s; heartbeats := heartbeats s; bodyListeners := bodyListeners
     s; storyText := storyText s; choiceButtons := choiceButtons s;
     timerDisplay := timerDisplay s; screens := screens s; alerts := alerts
     s; startCalls := startCalls s; stopCalls := stopCalls s; uncaught := v;
     navigated := navigated s |}.

Definition set_navigated (v : bool) (s : State) : State :=
  {| timer := timer s; isPaused := isPaused s; recognition := recognition s;
     isListening := isListening s; recognitionRestartAttempts :=
     recognitionRestartAttempts s; lastRecognitionTime :=
     lastRecognitionTime s; recognitionHeartbeat := recognitionHeartbeat s;
     nextHandle := nextHandle s; intervals := intervals s; timeouts :=
     timeouts s; heartbeats := heartbeats s; bodyListeners := bodyListeners
     s; storyText := storyText s; choiceButtons := choiceButtons s;
     timerDisplay := timerDisplay s; screens := screens s; alerts := alerts
     s; startCalls := startCalls s; stopCalls := stopCalls s; uncaught :=
     uncaught s; navigated := v |}.

(** The state once the script has been evaluated: [timer = null], nothing
    scheduled, an empty page. Handles start at 1. *)
Definition initial : State :=
  {| timer := None; isPaused := false; recognition := false;
     isListening := false; recognitionRestartAttempts := 0;
     lastRecognitionTime := 0; recognitionHeartbeat := None;
     nextHandle := 1; intervals := ∅; timeouts := ∅; heartbeats := ∅;
     bodyListeners := []; storyText := None;
     choiceButtons := []; timerDisplay := None; screens := [];
     alerts := []; startCalls := 0; stopCalls := 0; uncaught := 0;
     navigated := false |}.

(** What the environment answers when [setupVoiceRecognition] runs. *)
Inductive SetupEnv :=
  | EnvOk
  | EnvUnsupported   (* no speech recognition in window *)
  | EnvDenied        (* getUserMedia rejects with NotAllowedError *)
  | EnvStartThrows.  (* recognition.start() throws *)

Inductive ClickTarget :=
  | OnChoice (i : nat)                    (* i-th button of #choices *)
  | OnScreen (i : nat) (button : string)  (* a button of the i-th screen *)
  | OnRestartBtn                          (* #restart-btn *)
  | OnMenuBtn                             (* #menu-btn *)
  | Elsewhere.

Inductive Event :=
  | Load                                  (* window.onload *)
  | Tick (h : nat)                        (* interval h fires *)
  | Fire (h : nat) (startThrows : bool)   (* timeout h fires *)
  | Beat (h : nat) (now : Z)              (* heartbeat h fires at Date.now() *)
  | Click (target : ClickTarget) (confirmed : bool) (env : SetupEnv)
  | RecStart (now : Z)                    (* recognition.onstart *)
  | RecEnd                                (* recognition.onend *)
  | RecResult (now : Z) (resultIndex : nat) (results : list string)
  | RecError (error : string).            (* recognition.onerror *)

Definition dquote : string := String (ascii_of_nat 34) EmptyString.

Section Player.

Context (nodes : gmap string Node) (choiceTime : Z) (script : Script).

(** *** Timers of the event loop *)

(** A handle is truthy when it is a non-zero number; [null] is falsy. *)
Definition truthy_handle (t : option nat) : bool :=
  match t with
  | Some (S _) => true
  | _ => false
  end.

(** [clearInterval(t)] for the timers of the game: the handle leaves the
    countdowns and the timeouts, whichever it names; [null] and stale
    handles do nothing. *)
Definition clearInterval (t : option nat) (s : State) : State :=
  match t with
  | Some h =>
      set_timeouts (delete h (timeouts s))
        (set_intervals (delete h (intervals s)) s)
  | None => s
  end.

(** [clearInterval(window.recognitionHeartbeat)]. The heartbeats are kept
    in a table of their own: [window.recognitionHeartbeat] only ever holds
    a handle that [setInterval] gave to a heartbeat and handles are not
    reused, so the call can only find a heartbeat ([heartbeat_handle_apart]
    below shows that no other timer goes by that handle). *)
Definition clearHeartbeat (s : State) : State :=
  match recognitionHeartbeat s with
  | Some h =>
      if truthy_handle (Some h) then set_heartbeats (heartbeats s ∖ {[h]}) s else s
  | None => s
  end.

Definition setTimeout (task : Task) (s : State) : State :=
  set_nextHandle (S (nextHandle s))
    (set_timeouts (<[nextHandle s := task]> (timeouts s)) s).

Definition showAlert (message : string) (s : State) : State :=
  set_alerts (alerts s ++ [message]) s.

Definition addBodyListener (l : BodyListener) (s : State) : State :=
  set_bodyListeners (bodyListeners s ++ [l]) s.

Definition appendScreen (sc : Screen) (s : State) : State :=
  set_screens (screens s ++ [sc]) s.

Definition removeScreen (i : nat) (s : State) : State :=
  set_screens (delete i (screens s)) s.

(** *** Timer (lines 604-667 and 1529-1582) *)

Definition updateTimerDisplay (seconds : Z) (s : State) : State :=
  set_timerDisplay (Some seconds) s.

Definition showTimeUpScreen (s : State) : State := appendScreen timeUpScreen s.

Definition startTimer (s : State) : State :=
  let timeLeft := choiceTime in
  let s :=
    if truthy_handle (timer s)
    then set_timerDisplay None (clearInterval (timer s) s)
    else s in
  let s := updateTimerDisplay timeLeft s in
  let h := nextHandle s in
  set_timer (Some h)
    (set_nextHandle (S h) (set_intervals (<[h := timeLeft]> (intervals s)) s)).

(** The callback given to [setInterval], for the interval with handle [h];
    [timeLeft] is the variable of its closure. A cleared interval does not
    fire. *)
Definition timerCallback (h : nat) (s : State) : State :=
  match intervals s !! h with
  | None => s
  | Some timeLeft =>
      let timeLeft := timeLeft - 1 in
      let s := set_intervals (<[h := timeLeft]> (intervals s)) s in
      let s := updateTimerDisplay timeLeft s in
      if timeLeft <=? 0
      then showTimeUpScreen (set_timerDisplay None (clearInterval (timer s) s))
      else s
  end.

(** *** Display (lines 699-805 and 1599-1691) *)

(** [showEndingScreen(text)]. The 60 s script sets the text of the cloned
    template with [textContent]; the 20 s script writes it between the tags
    of the screen's [innerHTML], where it reads as written as long as it
    holds no markup. No text of the literal does ([storyNodes_node_plain]
    below), and the properties of ending screens are stated for those. *)
Definition showEndingScreen (shown : string) (s : State) : State :=
  appendScreen (endingScreen shown) s.

(** [updateDisplay(node)] fades out and defers the rest by 300 ms. *)
Definition updateDisplay (node : option JsValue) (s : State) : State :=
  setTimeout (DisplayTask node) s.

(** The buttons made by the [forEach] over [Object.entries(node.choices)]:
    an entry whose target reads falsy in the graph is skipped. *)
Definition rendered (cs : list (string * string)) : list (string * string) :=
  filter (λ c, truthy (js_get nodes c.2) = true) cs.

(** An uncaught exception ends the running callback. *)
Definition throw (s : State) : State := set_uncaught (S (uncaught s)) s.

(** The deferred part of [updateDisplay]. *)
Definition displayCallback (node : option JsValue) (s : State) : State :=
  match node with
  | None => throw s                        (* undefined.text *)
  | Some (Inherited _) =>
      (* text is undefined, ending is falsy, Object.entries(undefined) *)
      throw (set_choiceButtons [] (set_storyText None s))
  | Some (Own n) =>
      let s := set_choiceButtons [] (set_storyText (Some (text n)) s) in
      if ending n then showEndingScreen (text n) s
      else
        match choices n with
        | None => throw s                  (* Object.entries(undefined) *)
        | Some cs => startTimer (set_choiceButtons (rendered cs) s)
        end
  end.

(** [btn.onclick] of the button made for [(choice, nextNode)]. *)
Definition choiceClick (nextNode : string) (s : State) : State :=
  updateDisplay (js_get nodes nextNode) (clearInterval (timer s) s).

Definition restartGame (s : State) : State :=
  updateDisplay (js_get nodes "start") (clearInterval (timer s) s).

Definition navigate (s : State) : State := set_navigated true s.

(** *** Pause (lines 120-167 and 1086-1160) *)

Definition showPausePopup (s : State) : State :=
  if isPaused s then s
  else
    let s := set_isPaused true s in
    match script with
    | Script20 => clearInterval (timer s) (appendScreen pauseScreen s)
    | Script60 =>
        let s := clearHeartbeat s in
        let s :=
          if recognition s
          then set_stopCalls (S (stopCalls s)) (set_isListening false s)
          else s in
        appendScreen pauseScreen (clearInterval (timer s) s)
    end.

(** The listener [h] of the [i]-th screen; [confirmed] is the answer to
    [confirm()]. *)
Definition runHandler (h : Handler) (i : nat) (confirmed : bool) (s : State) : State :=
  match h with
  | TryAgain => restartGame (removeScreen i s)
  | ReturnMenu => navigate s
  | Resume =>
      let s := startTimer (set_isPaused false (removeScreen i s)) in
      match script with
      | Script20 => s
      | Script60 =>
          addBodyListener StartOrSetup
            (showAlert "Click anywhere to enable voice commands"
               (set_recognitionRestartAttempts 0 s))
      end
  | PauseRestart =>
      if confirmed then
        let s := restartGame (set_isPaused false (removeScreen i s)) in
        match script with
        | Script20 => s
        | Script60 =>
            addBodyListener SetupAgain
              (showAlert "Click anywhere to enable voice commands"
                 (set_recognitionRestartAttempts 0 s))
        end
      else s
  | PauseMenu => if confirmed then navigate s else s
  end.

Definition handlerOf (button : string) (sc : Screen) : option Handler :=
  snd <$> find (λ l, String.eqb l.1 button) (listeners sc).

Definition screenClick (i : nat) (button : string) (confirmed : bool) (s : State) : State :=
  match screens s !! i with
  | Some sc =>
      match handlerOf button sc with
      | Some h => runHandler h i confirmed s
      | None => s
      end
  | None => s
  end.

(** *** Voice monitor (lines 16-94 and 908-1066) *)

(** [setupVoiceRecognition()]. The 20 s script asks for the microphone
    first and only tells the user when it fails; the 60 s script arms a
    click listener to try again. A recognizer made here is new, so its
    [start()] does not throw. *)
Definition setupVoiceRecognition (env : SetupEnv) (s : State) : State :=
  let started := set_startCalls (S (startCalls s)) (set_recognition true s) in
  match script, env with
  | Script20, EnvUnsupported =>
      showAlert "Voice recognition is only supported in Chrome and Edge browsers." s
  | Script20, EnvDenied =>
      showAlert "Please allow microphone access to use voice commands." s
  | Script60, EnvUnsupported =>
      addBodyListener Reconnect
        (showAlert "Could not start voice recognition. Click to try again." s)
  | _, _ => started
  end.

Definition disconnectedNotice : string :=
  "Voice commands disconnected. Click anywhere to reconnect.".

(** The notice and the one-shot click listener that resets the counter
    and sets recognition up again. *)
Definition disconnect (s : State) : State :=
  addBodyListener Reconnect (showAlert disconnectedNotice s).

(** [setupRecognitionHeartbeat()] (lines 1027-1058): the heartbeat at hand
    is cleared and a new one is set, every 5 s. *)
Definition setupRecognitionHeartbeat (s : State) : State :=
  let s := clearHeartbeat s in
  let h := nextHandle s in
  set_recognitionHeartbeat (Some h)
    (set_nextHandle (S h) (set_heartbeats ({[h]} ∪ heartbeats s) s)).

Definition TIMEOUT_THRESHOLD : Z := 15000.

(** The callback of the heartbeat with handle [h], run at time [now]: a
    recognizer that listens and has been silent for more than 15 s is
    stopped, and started again 1 s later. A cleared heartbeat does not
    fire. *)
Definition heartbeatCallback (h : nat) (now : Z) (s : State) : State :=
  if bool_decide (h ∈ heartbeats s) then
    if isPaused s then s
    else
      let timeSinceLastActivity := now - lastRecognitionTime s in
      if isListening s && (TIMEOUT_THRESHOLD <? timeSinceLastActivity)
      then setTimeout StallRestartTask (set_stopCalls (S (stopCalls s)) s)
      else s
  else s.

(** [recognition.onstart] *)
Definition onstart (now : Z) (s : State) : State :=
  let s := set_isListening true s in
  match script with
  | Script20 => s
  | Script60 =>
      setupRecognitionHeartbeat
        (set_lastRecognitionTime now
           (showAlert ("Voice commands enabled (say " ++ dquote ++ "stop" ++ dquote ++ " to pause)") s))
  end.

(** [recognition.onend] *)
Definition onend (s : State) : State :=
  match script with
  | Script20 =>
      if isListening s then set_startCalls (S (startCalls s)) s else s
  | Script60 =>
      let s := set_isListening false s in
      if negb (isPaused s) && (recognitionRestartAttempts s <? MAX_RESTART_ATTEMPTS)
      then setTimeout RestartTask
             (set_recognitionRestartAttempts (recognitionRestartAttempts s + 1) s)
      else if MAX_RESTART_ATTEMPTS <=? recognitionRestartAttempts s
      then disconnect s
      else s
  end.

Definition heardStop (transcript : string) : bool := includes "stop" transcript.

(** The [for] loop of the 60 s [onresult]: the first result that holds
    the keyword pauses and ends the loop. *)
Fixpoint scanResults (results : list string) (s : State) : State :=
  match results with
  | [] => s
  | r :: rest =>
      if heardStop (trim (toLowerCase r)) then showPausePopup s
      else scanResults rest s
  end.

(** [recognition.onresult]; [results] holds [result[0].transcript] of
    every result of the event. *)
Definition onresult (now : Z) (resultIndex : nat) (results : list string) (s : State) : State :=
  match script with
  | Script20 =>
      if isPaused s then s
      else if heardStop (toLowerCase (join results)) then showPausePopup s
      else s
  | Script60 =>
      scanResults (drop resultIndex results)
        (set_lastRecognitionTime now (set_recognitionRestartAttempts 0 s))
  end.

(** [handleVoiceError] of the 20 s script. *)
Definition handleVoiceError (error : string) (s : State) : State :=
  showAlert
    (if String.eqb error "not-allowed" then "Please allow microphone access to use voice commands."
     else if String.eqb error "no-speech" then "No speech was detected. Please try again."
     else if String.eqb error "network" then "Network error occurred. Please check your connection."
     else "Voice recognition error: " ++ error)
    s.

(** [recognition.onerror] *)
Definition onerror (error : string) (s : State) : State :=
  match script with
  | Script20 => handleVoiceError error s
  | Script60 =>
      let s := set_isListening false s in
      if String.eqb error "not-allowed"
      then addBodyListener Reconnect
             (showAlert "Click anywhere to enable voice commands" s)
      else if String.eqb error "network" then setTimeout NetworkRetryTask s
      else s
  end.

(** A one-shot listener of the body. [env] answers the set-up; with
    [EnvStartThrows] a [start()] on the recognizer at hand throws. *)
Definition runBodyListener (env : SetupEnv) (l : BodyListener) (s : State) : State :=
  match l with
  | FirstSetup =>
      match script with
      | Script20 => if isListening s then s else setupVoiceRecognition env s
      | Script60 => setupVoiceRecognition env s
      end
  | Reconnect => setupVoiceRecognition env (set_recognitionRestartAttempts 0 s)
  | StartOrSetup =>
      let s := set_startCalls (S (startCalls s)) s in
      match env with
      | EnvStartThrows => setupVoiceRecognition env s
      | _ => s
      end
  | SetupAgain => setupVoiceRecognition env s
  end.

(** A click reaches the body after its target: the listeners registered by
    then run once and are gone. *)
Definition bodyClick (env : SetupEnv) (s : State) : State :=
  foldl (λ s l, runBodyListener env l s) (set_bodyListeners [] s) (bodyListeners s).

(** *** The event loop *)

Definition runTask (task : Task) (startThrows : bool) (s : State) : State :=
  match task with
  | DisplayTask node => displayCallback node s
  | RestartTask =>
      let s := set_startCalls (S (startCalls s)) s in
      if startThrows then disconnect s else s
  | NetworkRetryTask =>
      if isPaused s then s else set_startCalls (S (startCalls s)) s
  | StallRestartTask =>
      (* start() is outside any try: when it throws, nothing catches *)
      if isPaused s then s
      else
        let s := set_startCalls (S (startCalls s)) s in
        if startThrows then throw s else s
  end.

Definition fire (h : nat) (startThrows : bool) (s : State) : State :=
  match timeouts s !! h with
  | Some task => runTask task startThrows (set_timeouts (delete h (timeouts s)) s)
  | None => s
  end.

(** [window.onload] (lines 807-850 and 1693-1735). *)
Definition onload (s : State) : State :=
  if truthy (js_get nodes "start") then
    let notice :=
      match script with
      | Script20 =>
          "Click anywhere to enable voice commands (say " ++ dquote ++ "stop" ++ dquote ++ " to pause)"
      | Script60 => "Click anywhere to enable voice commands"
      end in
    updateDisplay (js_get nodes "start")
      (addBodyListener FirstSetup (showAlert notice s))
  else
    let s := appendScreen errorScreen s in
    match script with
    | Script20 => s
    | Script60 => updateDisplay (js_get nodes "start") s
    end.

Definition targetClick (target : ClickTarget) (confirmed : bool) (s : State) : State :=
  match target with
  | OnChoice i =>
      match choiceButtons s !! i with
      | Some (_, nextNode) => choiceClick nextNode s
      | None => s
      end
  | OnScreen i button => screenClick i button confirmed s
  | OnRestartBtn => if confirmed then restartGame s else s
  | OnMenuBtn => if confirmed then navigate s else s
  | Elsewhere => s
  end.

(** One turn of the event loop. Once the page is left nothing runs. *)
Definition step (e : Event) (s : State) : State :=
  if navigated s then s
  else
    match e with
    | Load => onload s
    | Tick h => timerCallback h s
    | Fire h startThrows => fire h startThrows s
    | Beat h now => heartbeatCallback h now s
    | Click target confirmed env => bodyClick env (targetClick target confirmed s)
    | RecStart now => onstart now s
    | RecEnd => onend s
    | RecResult now resultIndex results => onresult now resultIndex results s
    | RecError error => onerror error s
    end.

Definition run (es : list Event) (s : State) : State :=
  foldl (λ s e, step e s) s es.

(** The states the player can be in. *)
Definition reachable (s : State) : Prop := ∃ es, s = run es initial.

(** [n] firings of the interval [h] in a row, and firings of a list of
    intervals. *)
Definition ticks (n : nat) (h : nat) (s : State) : State :=
  Nat.iter n (timerCallback h) s.

Definition tickAll (hs : list nat) (s : State) : State :=
  foldl (λ s h, timerCallback h s) s hs.

(** [n] recognition-end events in a row. *)
Definition ends (n : nat) (s : State) : State := Nat.iter n onend s.

(** The timer discipline: an active interval is the one [timer] names,
    [timer] names a handle that has been handed out, and handles are
    positive. *)
Record Inv (s : State) : Prop := {
  inv_single : ∀ h timeLeft, intervals s !! h = Some timeLeft → timer s = Some h;
  inv_handle : ∀ h, timer s = Some h → (0 < h < nextHandle s)%nat;
  inv_fresh : (0 < nextHandle s)%nat
}.

(** [s'] differs from [s] in the variables of the voice monitor at most:
    script timer, event loop timers, page and pause flag are the same. *)
Definition voiceOnly (s s' : State) : Prop :=
  timer s' = timer s ∧ isPaused s' = isPaused s ∧
  nextHandle s' = nextHandle s ∧ intervals s' = intervals s ∧
  timeouts s' = timeouts s ∧ storyText s' = storyText s ∧
  choiceButtons s' = choiceButtons s ∧ timerDisplay s' = timerDisplay s ∧
  screens s' = screens s ∧ uncaught s' = uncaught s ∧
  navigated s' = navigated s.

(** *** Walking the graph *)

(** The choices the node at [key] declares, and the buttons on the page
    once the node at [key] has been displayed from state [s]. *)
Definition declared (key : string) : list (string * string) :=
  match nodes !! key with
  | Some n => default [] (choices n)
  | None => []
  end.

Definition buttonsShown (key : string) (s : State) : list (string * string) :=
  match nodes !! key with
  | Some n => choiceButtons (displayCallback (Some (Own n)) s)
  | None => []
  end.

(** How the player picks a button: by its label, or the first one. *)
Inductive Pick :=
  | ByLabel (label : string)
  | FirstListed.

Definition buttonIndex (p : Pick) (bs : list (string * string)) : option nat :=
  match p with
  | ByLabel label => fst <$> list_find (λ b, b.1 = label) bs
  | FirstListed => match bs with [] => None | _ => Some 0%nat end
  end.

(** The click on the picked button followed by the deferred display it
    schedules. *)
Definition choose (p : Pick) (s : State) : State :=
  match buttonIndex p (choiceButtons s) with
  | Some i =>
      step (Fire (nextHandle s) false) (step (Click (OnChoice i) false EnvOk) s)
  | None => s
  end.

(** The key captured by the picked button of the node at [key]. *)
Definition pick (key : string) (p : Pick) : option string :=
  n ← nodes !! key;
  cs ← choices n;
  i ← buttonIndex p (rendered cs);
  snd <$> rendered cs !! i.

(** The keys visited from [key] by a list of picks. *)
Fixpoint follow (key : string) (picks : list Pick) : list string :=
  match picks with
  | [] => [key]
  | p :: rest =>
      key :: match pick key p with
             | Some next => follow next rest
             | None => []
             end
  end.

(** A node as the object literal writes them: an ending node without
    choices or a plain node with choices, and no target named like a
    member of [Object.prototype]. *)
Definition wellFormed (n : Node) : bool :=
  match choices n with
  | None => ending n
  | Some cs =>
      negb (ending n) && forallb (λ c, negb (bool_decide (c.2 ∈ Object_prototype))) cs
  end.

End Player.

(** ** The shipped players at work *)

(** The 20 s player once the start node is on the page. *)
Definition opened20 : State :=
  run storyNodes (CHOICE_TIME Script20) Script20 [Load; Fire 1 false] initial.

(** The 60 s player, listening, with the start node on the page. *)
Definition listening60 : State :=
  run storyNodes (CHOICE_TIME Script60) Script60
    [Load; Fire 1 false; Click Elsewhere false EnvOk; RecStart 1000] initial.

(** The 20 s player three ticks into the countdown of the start node. *)
Definition ticking20 : State :=
  run storyNodes (CHOICE_TIME Script20) Script20 [Tick 2; Tick 2; Tick 2] opened20.




(** The 20 s player when the countdown of the start node has run out. *)
Definition expired20 : State :=
  run storyNodes (CHOICE_TIME Script20) Script20 (repeat (Tick 2) 20) opened20.

(** The 60 s player paused by the keyword. *)
Definition paused60 : State :=
  step storyNodes (CHOICE_TIME Script60) Script60 (RecResult 2000 0 ["stop"]) listening60.

(** The 20 s player paused by the keyword between the click on Sugar Puffs
    and the display of breakfast. *)
Definition pausedInTransition20 : State :=
  run storyNodes (CHOICE_TIME Script20) Script20
    [Click (OnChoice 0) false EnvOk; RecResult 0 0 ["stop"]] opened20.

(** The 20 s player, listening, with the start node on the page. *)
Definition listening20 : State :=
  run storyNodes (CHOICE_TIME Script20) Script20
    [Load; Fire 1 false; Click Elsewhere false EnvOk; RecStart 1000] initial.

(** Five rounds of the recognizer of the 60 s player from [listening60]:
    it ends, the restart that the end handler has scheduled fires, and it
    starts again. *)
Definition fiveRounds : list Event :=
  [RecEnd; Fire 4 false; RecStart 2000;
   RecEnd; Fire 6 false; RecStart 3000;
   RecEnd; Fire 8 false; RecStart 4000;
   RecEnd; Fire 10 false; RecStart 5000;
   RecEnd; Fire 12 false; RecStart 6000].

(** A graph of one node whose one choice leads to a key that is missing
    from the graph and names a member of Object.prototype, and the 20 s
    player that has opened it. *)
Definition inheritedGraph : gmap string Node :=
  {[ "start" := {| text := "A door."; choices := Some [("Open", "constructor")];
                   ending := false; showEnding := false |} ]}.

Definition openedInherited : State :=
  run inheritedGraph 20 Script20 [Load; Fire 1 false] initial.

(** ** Notions for the properties of the whole player *)

(** [s'] has the game of [s]: script timer, countdown, page, pause flag and
    uncaught exceptions are the same; only the voice monitor and what it
    has scheduled may differ. *)
Definition gameUntouched (s s' : State) : Prop :=
  timer s' = timer s ∧ isPaused s' = isPaused s ∧
  intervals s' = intervals s ∧ storyText s' = storyText s ∧
  choiceButtons s' = choiceButtons s ∧ timerDisplay s' = timerDisplay s ∧
  screens s' = screens s ∧ uncaught s' = uncaught s ∧
  navigated s' = navigated s.

(** The page shows the plain node at [key]: its text and the buttons of its
    choices. *)
Definition showing (nodes : gmap string Node) (key : string) (s : State) : Prop :=
  ∃ n cs, nodes !! key = Some n ∧ ending n = false ∧ choices n = Some cs ∧
          storyText s = Some (text n) ∧ choiceButtons s = rendered nodes cs.

Definition isPauseScreen (sc : Screen) : bool :=
  match kind sc with
  | PauseScreen => true
  | _ => false
  end.

(** The pause screens on the page. *)
Definition pauseScreens (s : State) : list Screen := filter (λ sc, isPauseScreen sc = true) (screens s).

(** The screens the scripts make. *)
Definition scripted (sc : Screen) : Prop :=
  sc = pauseScreen ∨ sc = timeUpScreen ∨ sc = errorScreen ∨ ∃ shown, sc = endingScreen shown.

(** The countdown is in step: a running interval has between 1 and
    [choiceTime] seconds left, and the display shows them. *)
Definition inStep (choiceTime : Z) (s : State) : Prop :=
  ∀ h timeLeft, intervals s !! h = Some timeLeft →
    1 ≤ timeLeft ≤ choiceTime ∧ timerDisplay s = Some timeLeft.

(** The pause flag and the pause screen go together. *)
Definition pauseInStep (s : State) : Prop :=
  Forall scripted (screens s) ∧
  pauseScreens s = if isPaused s then [pauseScreen] else [].

(** The keys a play can come to from the keys of [seen], one pick on. *)
Definition successors (nodes : gmap string Node) (key : string) : list string :=
  match nodes !! key with
  | Some n => (rendered nodes (default [] (choices n))).*2
  | None => []
  end.

(** [seen] is closed under picks. *)
Definition closedUnderPicks (nodes : gmap string Node) (seen : list string) : bool :=
  forallb (λ key, forallb (λ next, bool_decide (next ∈ seen)) (successors nodes key)) seen.

(** The keys of the shipped graph that a play from start can come to. *)
Definition playable : list string :=
  filter (λ key, key ≠ "ending-2" ∧ key ≠ "ending-10") storyNodes_literal.*1.

(** A play of the shipped graph is under way: nothing was thrown, the
    screens on the page are ending screens of playable nodes, and the page
    shows a playable plain node with at least one button, or an ending has
    taken the buttons away. *)
Definition inPlay (sc : Script) (s : State) : Prop :=
  reachable storyNodes (CHOICE_TIME sc) sc s ∧
  navigated s = false ∧
  uncaught s = 0%nat ∧
  Forall (λ screen, ∃ key, key ∈ playable ∧ ending (nodeAt key) = true ∧
                           screen = endingScreen (text (nodeAt key)))
    (screens s) ∧
  ((∃ key, key ∈ playable ∧ showing storyNodes key s ∧ choiceButtons s ≠ []) ∨
   (choiceButtons s = [] ∧ screens s ≠ [])).


(** *** Handles *)

(** Handles are kept apart: every handle in use has been handed out, a
    handle names a timer of one kind only, [timer] names no timeout and no
    heartbeat, and [window.recognitionHeartbeat] names no countdown and no
    timeout. *)
Record Apart (s : State) : Prop := {
  apart_bound : ∀ h,
    timer s = Some h ∨ recognitionHeartbeat s = Some h ∨ is_Some (intervals s !! h) ∨
    is_Some (timeouts s !! h) ∨ h ∈ heartbeats s →
    (h < nextHandle s)%nat;
  apart_tables : ∀ h,
    (is_Some (intervals s !! h) → timeouts s !! h = None ∧ h ∉ heartbeats s) ∧
    (is_Some (timeouts s !! h) → h ∉ heartbeats s);
  apart_timer : ∀ h, timer s = Some h → timeouts s !! h = None ∧ h ∉ heartbeats s;
  apart_heartbeat : ∀ h,
    recognitionHeartbeat s = Some h → intervals s !! h = None ∧ timeouts s !! h = None
}.

(** *** Counting the calls of [recognition.start()] *)

(** A timeout whose callback calls [recognition.start()]. *)
Definition callsStart (task : Task) : bool :=
  match task with
  | DisplayTask _ => false
  | RestartTask | NetworkRetryTask | StallRestartTask => true
  end.

Definition starters (m : gmap nat Task) : nat :=
  size (filter (λ kv : nat * Task, callsStart kv.2 = true) m).

(** The restarts that are pending. *)
Definition pendingStarts (s : State) : nat := starters (timeouts s).

(** The attempts that the counter of the 60 s script has left. *)
Definition attemptsLeft (s : State) : nat :=
  Z.to_nat (MAX_RESTART_ATTEMPTS - recognitionRestartAttempts s).

(** The calls of [start()] made, pending and still allowed by the counter. *)
Definition startBudget (s : State) : nat :=
  (startCalls s + pendingStarts s + attemptsLeft s)%nat.

(** An event that is neither a result of the recognizer nor a click. *)
Definition unattended (e : Event) : bool :=
  match e with
  | RecResult _ _ _ | Click _ _ _ => false
  | _ => true
  end.

(** The restarts that an event can schedule past the counter: one by a
    network error, one by a firing of the heartbeat. *)
Definition uncounted (e : Event) : nat :=
  match e with
  | RecError error => if String.eqb error "network" then 1 else 0
  | Beat _ _ => 1
  | _ => 0
  end.

(** [s'] has the calls of [start()] and the counter of [s], and no more
    restarts pending. *)
Definition noStart (s s' : State) : Prop :=
  startCalls s' = startCalls s ∧
  recognitionRestartAttempts s' = recognitionRestartAttempts s ∧
  (pendingStarts s' ≤ pendingStarts s)%nat.

(** * Properties *)

Local Open Scope list_scope.

(** ** Facts on the string functions *)

Module JsStringFacts.

Lemma append_cons (x : ascii) (a b : string) :
  (String x a ++ b = String x (a ++ b))%string.
Proof. reflexivity. Qed.

Lemma append_assoc (a b c : string) : ((a ++ b) ++ c = a ++ (b ++ c))%string.
Proof.
  induction a as [|x a IH]; [reflexivity|].
  rewrite !append_cons. f_equal. exact IH.
Qed.

(** [startsWith] holds exactly of the strings that begin with [p]. *)
Lemma startsWith_spec (p s : string) :
  startsWith p s = true ↔ ∃ r, s = (p ++ r)%string.
Proof.
  revert s. induction p as [|a p IH]; intros s; simpl.
  - split; [intros _; now exists s | reflexivity].
  - destruct s as [|b s].
    + split; [discriminate | intros [r Hr]; rewrite append_cons in Hr; discriminate].
    + destruct (Ascii.eqb_spec a b) as [->|Hne].
      * rewrite IH. split; intros [r Hr]; exists r.
        -- rewrite append_cons. congruence.
        -- rewrite append_cons in Hr. congruence.
      * split; [discriminate | intros [r Hr]; rewrite append_cons in Hr; congruence].
Qed.

(** [includes] holds exactly of the strings that hold [p] somewhere. *)
Lemma includes_spec (p s : string) :
  includes p s = true ↔ ∃ a b, s = (a ++ p ++ b)%string.
Proof.
  induction s as [|c s IH].
  - cbn [includes]. rewrite orb_false_r, startsWith_spec. split.
    + intros [r Hr]. now exists ""%string, r.
    + intros [a [b Hab]]. destruct a; [now exists b|].
      rewrite append_cons in Hab. discriminate.
  - cbn [includes]. rewrite orb_true_iff, startsWith_spec, IH. split.
    + intros [[r Hr] | [a [b Hab]]].
      * now exists ""%string, r.
      * exists (String c a), b. rewrite append_cons. now rewrite Hab.
    + intros [a [b Hab]]. destruct a as [|x a].
      * left. now exists b.
      * right. exists a, b. rewrite append_cons in Hab. congruence.
Qed.

Lemma includes_app_l (p a b : string) :
  includes p a = true → includes p (a ++ b) = true.
Proof.
  rewrite !includes_spec. intros [x [y ->]].
  exists x, (y ++ b)%string. now rewrite !append_assoc.
Qed.

Lemma includes_app_r (p a b : string) :
  includes p b = true → includes p (a ++ b) = true.
Proof.
  rewrite !includes_spec. intros [x [y ->]].
  exists (a ++ x)%string, y. now rewrite !append_assoc.
Qed.

Lemma toLowerCase_app (a b : string) :
  toLowerCase (a ++ b) = (toLowerCase a ++ toLowerCase b)%string.
Proof.
  induction a as [|x a IH]; [reflexivity|].
  rewrite append_cons. cbn [toLowerCase]. rewrite append_cons. f_equal. exact IH.
Qed.

(** A result that holds the keyword puts it into the joined transcript. *)
Lemma includes_join (p : string) (results : list string) (i : nat) (t : string) :
  results !! i = Some t →
  includes p (toLowerCase t) = true →
  includes p (toLowerCase (join results)) = true.
Proof.
  revert i. induction results as [|r results IH]; intros i Hi Ht; [discriminate|].
  cbn [join foldr]. rewrite toLowerCase_app. destruct i as [|i].
  - injection Hi as ->. now apply includes_app_l.
  - apply includes_app_r. exact (IH i Hi Ht).
Qed.

Lemma startsWith_trimEnd (p s : string) :
  noSpace p = true → startsWith p (trimEnd s) = startsWith p s.
Proof.
  revert p. induction s as [|c s IH]; intros p Hp; [reflexivity|].
  destruct p as [|a p]; [now destruct (trimEnd (String c s))|].
  cbn [noSpace] in Hp. apply andb_true_iff in Hp as [Ha Hp].
  specialize (IH p Hp). cbn [trimEnd].
  destruct (trimEnd s) as [|x r'] eqn:Hr.
  - destruct (is_space c) eqn:Hc; cbn [startsWith].
    + destruct (Ascii.eqb_spec a c) as [->|_]; [|reflexivity].
      rewrite Hc in Ha. discriminate.
    + now rewrite IH.
  - cbn [startsWith]. now rewrite IH.
Qed.

Lemma includes_trimEnd (p s : string) :
  noSpace p = true → includes p (trimEnd s) = includes p s.
Proof.
  intros Hp. induction s as [|c s IH]; [reflexivity|].
  assert (Hstep : includes p (trimEnd (String c s))
                  = startsWith p (trimEnd (String c s)) || includes p (trimEnd s)).
  { cbn [trimEnd]. destruct (trimEnd s) as [|x r'] eqn:Hr.
    - destruct (is_space c); cbn [includes]; [|reflexivity].
      now destruct (startsWith p "").
    - reflexivity. }
  rewrite Hstep, startsWith_trimEnd, IH by assumption. reflexivity.
Qed.

Lemma includes_trimStart (p s : string) :
  noSpace p = true → includes p (trimStart s) = includes p s.
Proof.
  intros Hp. induction s as [|c s IH]; [reflexivity|].
  cbn [trimStart]. destruct (is_space c) eqn:Hc; [|reflexivity].
  rewrite IH. cbn [includes]. destruct p as [|a p].
  - now destruct s.
  - cbn [startsWith noSpace] in *. destruct (Ascii.eqb_spec a c) as [->|_]; [|reflexivity].
    rewrite Hc in Hp. discriminate.
Qed.

(** Trimming does not change whether the keyword is heard. *)
Lemma heardStop_trim (s : string) : heardStop (trim s) = heardStop s.
Proof.
  unfold heardStop, trim.
  rewrite includes_trimEnd, includes_trimStart by reflexivity. reflexivity.
Qed.

End JsStringFacts.
Import JsStringFacts.

(** ** The timer discipline *)

Section TimerDiscipline.

Context (nodes : gmap string Node) (choiceTime : Z).

Lemma Inv_initial : Inv initial.
Proof. split; cbn; [intros h t H; rewrite lookup_empty in H; discriminate | discriminate | lia]. Qed.

(** A handler that leaves [timer] and the intervals alone and does not
    take handles back keeps the discipline. *)
Lemma Inv_frame (s s' : State) :
  timer s' = timer s → intervals s' = intervals s →
  (nextHandle s ≤ nextHandle s')%nat → Inv s → Inv s'.
Proof.
  intros Ht Hi Hn [H1 H2 H3]. split.
  - intros h t. rewrite Hi, Ht. apply H1.
  - intros h. rewrite Ht. intros H. specialize (H2 h H). lia.
  - lia.
Qed.

Ltac framed s :=
  apply (Inv_frame s); [reflexivity | reflexivity | cbn; lia | assumption].

Lemma clearInterval_timer (t : option nat) (s : State) :
  timer (clearInterval t s) = timer s.
Proof. now destruct t. Qed.

Lemma clearInterval_nextHandle (t : option nat) (s : State) :
  nextHandle (clearInterval t s) = nextHandle s.
Proof. now destruct t. Qed.

Lemma clearInterval_screens (t : option nat) (s : State) :
  screens (clearInterval t s) = screens s.
Proof. now destruct t. Qed.

Lemma clearInterval_isPaused (t : option nat) (s : State) :
  isPaused (clearInterval t s) = isPaused s.
Proof. now destruct t. Qed.

Lemma Inv_clearInterval (s : State) : Inv s → Inv (clearInterval (timer s) s).
Proof.
  intros [H1 H2 H3]. split.
  - intros h t. rewrite clearInterval_timer.
    unfold clearInterval. destruct (timer s); cbn; [|apply H1].
    intros Hl. apply lookup_delete_Some in Hl as [_ Hl]. eauto.
  - intros h. rewrite clearInterval_timer, clearInterval_nextHandle. apply H2.
  - now rewrite clearInterval_nextHandle.
Qed.

(** The heartbeat is no timer of the game: clearing it and setting it up
    change the table of heartbeats, [window.recognitionHeartbeat] and the
    handle counter only. *)
Lemma clearHeartbeat_eq (s : State) :
  clearHeartbeat s = set_heartbeats (heartbeats (clearHeartbeat s)) s.
Proof.
  unfold clearHeartbeat. destruct (recognitionHeartbeat s) as [[|h]|]; cbn;
    now destruct s.
Qed.

Lemma setupRecognitionHeartbeat_eq (s : State) :
  setupRecognitionHeartbeat s
  = set_recognitionHeartbeat (Some (nextHandle s))
      (set_nextHandle (S (nextHandle s))
         (set_heartbeats (heartbeats (setupRecognitionHeartbeat s)) s)).
Proof.
  unfold setupRecognitionHeartbeat, clearHeartbeat.
  destruct (recognitionHeartbeat s) as [[|h]|]; reflexivity.
Qed.

Lemma Inv_clearHeartbeat (s : State) : Inv s → Inv (clearHeartbeat s).
Proof. intros HI. rewrite clearHeartbeat_eq. framed s. Qed.

Lemma Inv_setupRecognitionHeartbeat (s : State) :
  Inv s → Inv (setupRecognitionHeartbeat s).
Proof. intros HI. rewrite setupRecognitionHeartbeat_eq. framed s. Qed.

(** Under the discipline, clearing [timer] leaves no interval active. *)
Lemma clearInterval_empty (s : State) :
  Inv s → intervals (clearInterval (timer s) s) = ∅.
Proof.
  intros [H1 _ _]. apply map_eq. intros h. rewrite lookup_empty.
  unfold clearInterval. destruct (timer s) as [h0|] eqn:Ht; cbn.
  - destruct (decide (h0 = h)) as [->|Hne].
    + apply lookup_delete_eq.
    + rewrite lookup_delete_ne by done.
      destruct (intervals s !! h) eqn:Hl; [|done].
      apply H1 in Hl. congruence.
  - destruct (intervals s !! h) eqn:Hl; [|done]. apply H1 in Hl. congruence.
Qed.

Lemma truthy_handle_Inv (s : State) :
  Inv s → truthy_handle (timer s) = false → timer s = None.
Proof.
  intros [_ H2 _] Hf. destruct (timer s) as [[|h]|] eqn:Ht; [|discriminate|reflexivity].
  specialize (H2 0%nat eq_refl). lia.
Qed.

(** Starting the timer leaves exactly the new interval, at full time. *)
Lemma startTimer_intervals (s : State) :
  Inv s → intervals (startTimer choiceTime s) = {[ nextHandle s := choiceTime ]}.
Proof.
  intros HI. unfold startTimer.
  destruct (truthy_handle (timer s)) eqn:Htr; cbn.
  - rewrite clearInterval_empty, clearInterval_nextHandle by assumption. reflexivity.
  - apply truthy_handle_Inv in Htr; [|assumption].
    pose proof (clearInterval_empty s HI) as He. rewrite Htr in He. cbn in He.
    now rewrite He.
Qed.

Lemma startTimer_timer (s : State) :
  timer (startTimer choiceTime s) = Some (nextHandle s).
Proof.
  unfold startTimer. destruct (truthy_handle (timer s)); cbn; [|reflexivity].
  now rewrite clearInterval_nextHandle.
Qed.

Lemma startTimer_nextHandle (s : State) :
  nextHandle (startTimer choiceTime s) = S (nextHandle s).
Proof.
  unfold startTimer. destruct (truthy_handle (timer s)); cbn; [|reflexivity].
  now rewrite clearInterval_nextHandle.
Qed.

Lemma startTimer_timerDisplay (s : State) :
  timerDisplay (startTimer choiceTime s) = Some choiceTime.
Proof. unfold startTimer. now destruct (truthy_handle (timer s)). Qed.

Lemma Inv_startTimer (s : State) : Inv s → Inv (startTimer choiceTime s).
Proof.
  intros HI. split.
  - intros h t. rewrite startTimer_intervals, startTimer_timer by assumption.
    intros Hl. apply lookup_singleton_Some in Hl as [-> _]. reflexivity.
  - intros h. rewrite startTimer_timer, startTimer_nextHandle.
    intros [= <-]. destruct HI as [_ _ H3]. lia.
  - rewrite startTimer_nextHandle. lia.
Qed.

Lemma Inv_timerCallback (h : nat) (s : State) : Inv s → Inv (timerCallback h s).
Proof.
  intros HI. unfold timerCallback.
  destruct (intervals s !! h) as [timeLeft|] eqn:Hl; [|assumption].
  pose proof (inv_single s HI h timeLeft Hl) as Ht.
  assert (HI' : Inv (updateTimerDisplay (timeLeft - 1)
                       (set_intervals (<[h:=timeLeft - 1]> (intervals s)) s))).
  { destruct HI as [H1 H2 H3]. split; cbn; [|assumption|assumption].
    intros h' t Hl'. apply lookup_insert_Some in Hl' as [[<- _]|[_ Hl']]; eauto. }
  destruct (timeLeft - 1 <=? 0); [|assumption].
  unfold showTimeUpScreen, appendScreen.
  match goal with |- Inv (set_screens _ (set_timerDisplay _ ?x)) =>
    apply (Inv_frame x); [reflexivity | reflexivity | cbn; lia |] end.
  apply (Inv_clearInterval _ HI').
Qed.

Lemma Inv_setTimeout (task : Task) (s : State) : Inv s → Inv (setTimeout task s).
Proof. intros HI. framed s. Qed.

Lemma Inv_updateDisplay (node : option JsValue) (s : State) :
  Inv s → Inv (updateDisplay node s).
Proof. apply Inv_setTimeout. Qed.

Lemma Inv_choiceClick (nextNode : string) (s : State) :
  Inv s → Inv (choiceClick nodes nextNode s).
Proof. intros HI. apply Inv_updateDisplay, Inv_clearInterval, HI. Qed.

Lemma Inv_restartGame (s : State) : Inv s → Inv (restartGame nodes s).
Proof. intros HI. apply Inv_updateDisplay, Inv_clearInterval, HI. Qed.

Lemma Inv_displayCallback (node : option JsValue) (s : State) :
  Inv s → Inv (displayCallback nodes choiceTime node s).
Proof.
  intros HI. unfold displayCallback.
  destruct node as [[n|name]|]; [|framed s|framed s].
  destruct (ending n); [framed s|].
  destruct (choices n) as [cs|]; [|framed s].
  apply Inv_startTimer. framed s.
Qed.

Lemma Inv_showPausePopup (script : Script) (s : State) : Inv s → Inv (showPausePopup script s).
Proof.
  intros HI. unfold showPausePopup. destruct (isPaused s); [assumption|].
  destruct script.
  - apply (Inv_clearInterval (appendScreen pauseScreen (set_isPaused true s))).
    framed s.
  - match goal with |- Inv (appendScreen _ ?x) =>
      apply (Inv_frame x); [reflexivity | reflexivity | cbn; lia |] end.
    match goal with |- Inv (clearInterval (timer ?x) ?x) =>
      apply (Inv_clearInterval x) end.
    assert (H0 : Inv (clearHeartbeat (set_isPaused true s)))
      by (apply Inv_clearHeartbeat; framed s).
    revert H0. generalize (clearHeartbeat (set_isPaused true s)). intros s0 H0.
    destruct (recognition s0); [framed s0 | assumption].
Qed.

(** What the 60 s script adds to Resume and Restart of the pause screen. *)
Lemma Inv_rearm (l : BodyListener) (s : State) :
  Inv s →
  Inv (addBodyListener l
         (showAlert "Click anywhere to enable voice commands"
            (set_recognitionRestartAttempts 0 s))).
Proof. intros HI. framed s. Qed.

Lemma Inv_runHandler (script : Script) (h : Handler) (i : nat) (confirmed : bool) (s : State) :
  Inv s → Inv (runHandler nodes choiceTime script h i confirmed s).
Proof.
  intros HI.
  assert (Hrm : Inv (set_isPaused false (removeScreen i s))) by framed s.
  assert (Hrm' : Inv (removeScreen i s)) by framed s.
  destruct h; cbn [runHandler].
  - now apply Inv_restartGame.
  - framed s.
  - apply (Inv_startTimer _) in Hrm.
    destruct script; [assumption | now apply Inv_rearm].
  - destruct confirmed; [|assumption].
    apply Inv_restartGame in Hrm.
    destruct script; [assumption | now apply Inv_rearm].
  - destruct confirmed; [framed s | assumption].
Qed.

Lemma Inv_targetClick (script : Script) (target : ClickTarget) (confirmed : bool) (s : State) :
  Inv s → Inv (targetClick nodes choiceTime script target confirmed s).
Proof.
  intros HI. destruct target as [i|i button| | |]; cbn [targetClick].
  - destruct (choiceButtons s !! i) as [[label nextNode]|]; [|assumption].
    now apply Inv_choiceClick.
  - unfold screenClick. destruct (screens s !! i) as [sc|]; [|assumption].
    destruct (handlerOf button sc); [|assumption]. now apply Inv_runHandler.
  - destruct confirmed; [now apply Inv_restartGame | assumption].
  - destruct confirmed; [framed s | assumption].
  - assumption.
Qed.

(** The voice monitor touches neither [timer] nor the intervals. *)
Lemma Inv_setupVoiceRecognition (script : Script) (env : SetupEnv) (s : State) :
  Inv s → Inv (setupVoiceRecognition script env s).
Proof. intros HI. unfold setupVoiceRecognition. destruct script, env; framed s. Qed.

Lemma Inv_runBodyListener (script : Script) (env : SetupEnv) (l : BodyListener) (s : State) :
  Inv s → Inv (runBodyListener script env l s).
Proof.
  intros HI. destruct l; cbn [runBodyListener].
  - destruct script; [destruct (isListening s); [assumption|]|];
      now apply Inv_setupVoiceRecognition.
  - apply Inv_setupVoiceRecognition. framed s.
  - assert (Inv (set_startCalls (S (startCalls s)) s)) by framed s.
    destruct env; try assumption. now apply Inv_setupVoiceRecognition.
  - now apply Inv_setupVoiceRecognition.
Qed.

Lemma Inv_bodyClick (script : Script) (env : SetupEnv) (s : State) :
  Inv s → Inv (bodyClick script env s).
Proof.
  intros HI. unfold bodyClick.
  assert (H0 : Inv (set_bodyListeners [] s)) by framed s.
  revert H0. generalize (set_bodyListeners [] s).
  induction (bodyListeners s) as [|l ls IH]; intros s0 H0; [assumption|].
  cbn [foldl]. apply IH. now apply Inv_runBodyListener.
Qed.

Lemma Inv_scanResults (script : Script) (results : list string) (s : State) :
  Inv s → Inv (scanResults script results s).
Proof.
  intros HI. induction results as [|r rest IH]; [assumption|].
  cbn [scanResults]. destruct (heardStop _); [now apply Inv_showPausePopup | assumption].
Qed.

Lemma Inv_step (script : Script) (e : Event) (s : State) :
  Inv s → Inv (step nodes choiceTime script e s).
Proof.
  intros HI. unfold step. destruct (navigated s); [assumption|].
  destruct e as [|h|h startThrows|h now|target confirmed env|now| |now idx results|error].
  - unfold onload. destruct (truthy _).
    + apply Inv_updateDisplay. framed s.
    + destruct script; [framed s|]. apply Inv_updateDisplay. framed s.
  - now apply Inv_timerCallback.
  - unfold fire. destruct (timeouts s !! h) as [task|]; [|assumption].
    assert (H0 : Inv (set_timeouts (delete h (timeouts s)) s)) by framed s.
    revert H0. generalize (set_timeouts (delete h (timeouts s)) s). intros s0 H0.
    destruct task; cbn [runTask].
    + now apply Inv_displayCallback.
    + destruct startThrows; framed s0.
    + destruct (isPaused s0); [assumption | framed s0].
    + destruct (isPaused s0); [assumption|]. destruct startThrows; framed s0.
  - unfold heartbeatCallback. destruct (bool_decide _); [|assumption].
    destruct (isPaused s); [assumption|]. destruct (_ && _); [framed s | assumption].
  - now apply Inv_bodyClick, Inv_targetClick.
  - unfold onstart. destruct script; [framed s|].
    apply Inv_setupRecognitionHeartbeat. framed s.
  - unfold onend. destruct script.
    + destruct (isListening s); [framed s | assumption].
    + destruct (_ && _); [framed s|]. destruct (_ <=? _); framed s.
  - unfold onresult. destruct script.
    + destruct (isPaused s); [assumption|].
      destruct (heardStop _); [now apply Inv_showPausePopup | assumption].
    + apply Inv_scanResults. framed s.
  - unfold onerror, handleVoiceError. destruct script; [framed s|].
    destruct (String.eqb error "not-allowed"); [framed s|].
    destruct (String.eqb error "network"); framed s.
Qed.

Lemma run_snoc (script : Script) (es : list Event) (e : Event) (s : State) :
  run nodes choiceTime script (es ++ [e]) s
  = step nodes choiceTime script e (run nodes choiceTime script es s).
Proof. unfold run. now rewrite foldl_app. Qed.

Lemma run_app (script : Script) (es es' : list Event) (s : State) :
  run nodes choiceTime script (es ++ es') s
  = run nodes choiceTime script es' (run nodes choiceTime script es s).
Proof. unfold run. now rewrite foldl_app. Qed.

(** Every state of the player keeps the timer discipline. *)
Lemma reachable_Inv (script : Script) (s : State) : reachable nodes choiceTime script s → Inv s.
Proof.
  intros [es ->]. induction es as [|e es IH] using rev_ind.
  - apply Inv_initial.
  - rewrite run_snoc. now apply Inv_step.
Qed.

Lemma reachable_step (script : Script) (e : Event) (s : State) :
  reachable nodes choiceTime script s →
  reachable nodes choiceTime script (step nodes choiceTime script e s).
Proof. intros [es ->]. exists (es ++ [e]). now rewrite run_snoc. Qed.

Lemma reachable_initial (script : Script) :
  reachable nodes choiceTime script initial.
Proof. now exists []. Qed.

Lemma reachable_run (script : Script) (es : list Event) (s : State) :
  reachable nodes choiceTime script s →
  reachable nodes choiceTime script (run nodes choiceTime script es s).
Proof. intros [es0 ->]. exists (es0 ++ es). now rewrite run_app. Qed.


End TimerDiscipline.

(** ** Handles of the event loop *)

Section HandlesApart.

Context (nodes : gmap string Node) (choiceTime : Z).

Lemma Apart_initial : Apart initial.
Proof.
  split; cbn.
  - intros h [H|[H|[H|[H|H]]]]; try discriminate;
      try (rewrite lookup_empty in H; now destruct H); set_solver.
  - intros h. rewrite !lookup_empty. split; intros [? ?]; discriminate.
  - discriminate.
  - discriminate.
Qed.

Lemma Apart_frame (s s' : State) :
  timer s' = timer s → recognitionHeartbeat s' = recognitionHeartbeat s →
  intervals s' = intervals s → timeouts s' = timeouts s →
  heartbeats s' = heartbeats s → (nextHandle s ≤ nextHandle s')%nat →
  Apart s → Apart s'.
Proof.
  intros Ht Hb Hi Ho Hh Hn [A1 A2 A3 A4]. split.
  - intros h. rewrite Ht, Hb, Hi, Ho, Hh. intros H. specialize (A1 h H). lia.
  - intros h. rewrite Hi, Ho, Hh. apply A2.
  - intros h. rewrite Ht, Ho, Hh. apply A3.
  - intros h. rewrite Hb, Hi, Ho. apply A4.
Qed.

Ltac bound A h :=
  let B := fresh "B" in
  assert (B : (h < nextHandle _)%nat) by (apply A; eauto 7); cbn in B |- *; lia.

Ltac stale A x :=
  let B := fresh "B" in
  exfalso; assert (B : (nextHandle x < nextHandle x)%nat) by (apply A; eauto 7); lia.

Ltac apart s :=
  apply (Apart_frame s);
    [reflexivity | reflexivity | reflexivity | reflexivity | reflexivity | cbn; lia | assumption].

(** Taking timers away keeps the handles apart. *)
Lemma Apart_shrink (s s' : State) :
  timer s' = timer s → recognitionHeartbeat s' = recognitionHeartbeat s →
  intervals s' ⊆ intervals s → timeouts s' ⊆ timeouts s →
  heartbeats s' ⊆ heartbeats s → nextHandle s' = nextHandle s →
  Apart s → Apart s'.
Proof.
  intros Ht Hb Hi Ho Hh Hn [A1 A2 A3 A4].
  assert (Ii : ∀ h, is_Some (intervals s' !! h) → is_Some (intervals s !! h)).
  { intros h [x Hx]. exists x. eapply lookup_weaken; eassumption. }
  assert (Io : ∀ h, is_Some (timeouts s' !! h) → is_Some (timeouts s !! h)).
  { intros h [x Hx]. exists x. eapply lookup_weaken; eassumption. }
  assert (Ni : ∀ h, intervals s !! h = None → intervals s' !! h = None).
  { intros h Hx. destruct (intervals s' !! h) eqn:E; [|done].
    destruct (Ii h (mk_is_Some _ _ E)) as [y Hy]. congruence. }
  assert (No : ∀ h, timeouts s !! h = None → timeouts s' !! h = None).
  { intros h Hx. destruct (timeouts s' !! h) eqn:E; [|done].
    destruct (Io h (mk_is_Some _ _ E)) as [y Hy]. congruence. }
  split.
  - intros h. rewrite Ht, Hb, Hn. intros [H|[H|[H|[H|H]]]]; apply A1; auto 6.
  - intros h. destruct (A2 h) as [B1 B2]. split.
    + intros H. destruct (B1 (Ii h H)) as [C1 C2]. split; [auto|].
      intros Hin. apply C2. revert Hin. apply elem_of_subseteq, Hh.
    + intros H. specialize (B2 (Io h H)).
      intros Hin. apply B2. revert Hin. apply elem_of_subseteq, Hh.
  - intros h. rewrite Ht. intros H. destruct (A3 h H) as [C1 C2]. split; [auto|].
    intros Hin. apply C2. revert Hin. apply elem_of_subseteq, Hh.
  - intros h. rewrite Hb. intros H. destruct (A4 h H). auto.
Qed.

Lemma Apart_clearInterval (t : option nat) (s : State) : Apart s → Apart (clearInterval t s).
Proof.
  intros HA. destruct t as [h|]; [|assumption].
  apply (Apart_shrink s); try reflexivity; try assumption; cbn; apply delete_subseteq.
Qed.

Lemma Apart_clearHeartbeat (s : State) : Apart s → Apart (clearHeartbeat s).
Proof.
  intros HA. unfold clearHeartbeat. destruct (recognitionHeartbeat s) as [[|h]|]; cbn;
    try assumption.
  apply (Apart_shrink s); try reflexivity; try assumption. cbn.
  apply elem_of_subseteq. intros x Hx. apply elem_of_difference in Hx. tauto.
Qed.

Lemma Apart_setTimeout (task : Task) (s : State) : Apart s → Apart (setTimeout task s).
Proof.
  intros [A1 A2 A3 A4].
  assert (F : ∀ h, (h < nextHandle s)%nat → h ≠ nextHandle s) by (intros; lia).
  split; cbn.
  - intros h [H|[H|[H|[H|H]]]].
    + bound A1 h.
    + bound A1 h.
    + bound A1 h.
    + apply lookup_insert_is_Some in H as [<-|[_ H]]; [lia|]. bound A1 h.
    + bound A1 h.
  - intros h. destruct (A2 h) as [B1 B2]. split.
    + intros H. destruct (B1 H) as [C1 C2]. split; [|exact C2].
      rewrite lookup_insert_ne; [exact C1|]. apply not_eq_sym, F, A1. auto.
    + intros H. apply lookup_insert_is_Some in H as [<-|[_ H]]; [|auto].
      intros Hin. stale A1 s.
  - intros h H. destruct (A3 h H) as [C1 C2]. split; [|exact C2].
    rewrite lookup_insert_ne; [exact C1|]. apply not_eq_sym, F, A1. auto.
  - intros h H. destruct (A4 h H) as [C1 C2]. split; [exact C1|].
    rewrite lookup_insert_ne; [exact C2|]. apply not_eq_sym, F, A1. auto.
Qed.

(** A new countdown goes by a handle nothing else has. *)
Lemma Apart_setInterval (timeLeft : Z) (s : State) :
  Apart s →
  Apart (set_timer (Some (nextHandle s))
           (set_nextHandle (S (nextHandle s))
              (set_intervals (<[nextHandle s := timeLeft]> (intervals s)) s))).
Proof.
  intros [A1 A2 A3 A4].
  assert (F : ∀ h, (h < nextHandle s)%nat → h ≠ nextHandle s) by (intros; lia).
  assert (N1 : timeouts s !! nextHandle s = None).
  { destruct (timeouts s !! nextHandle s) eqn:E; [|done]. stale A1 s. }
  assert (N2 : nextHandle s ∉ heartbeats s) by (intros Hin; stale A1 s).
  split; cbn.
  - intros h [H|[H|[H|[H|H]]]].
    + injection H as <-. lia.
    + bound A1 h.
    + apply lookup_insert_is_Some in H as [<-|[_ H]]; [lia|]. bound A1 h.
    + bound A1 h.
    + bound A1 h.
  - intros h. destruct (A2 h) as [B1 B2]. split; [|exact B2].
    intros H. apply lookup_insert_is_Some in H as [<-|[_ H]]; [now split | auto].
  - intros h [= <-]. now split.
  - intros h H. destruct (A4 h H) as [C1 C2]. split; [|exact C2].
    rewrite lookup_insert_ne; [exact C1|]. apply not_eq_sym, F, A1. auto.
Qed.

Lemma Apart_startTimer (s : State) : Apart s → Apart (startTimer choiceTime s).
Proof.
  intros HA. unfold startTimer.
  assert (H0 : Apart (updateTimerDisplay choiceTime
                        (if truthy_handle (timer s)
                         then set_timerDisplay None (clearInterval (timer s) s)
                         else s))).
  { destruct (truthy_handle (timer s)).
    - pose proof (Apart_clearInterval (timer s) s HA) as H1.
      revert H1. generalize (clearInterval (timer s) s). intros s1 H1. apart s1.
    - apart s. }
  revert H0. generalize (updateTimerDisplay choiceTime
                        (if truthy_handle (timer s)
                         then set_timerDisplay None (clearInterval (timer s) s)
                         else s)).
  intros s1 H1. now apply Apart_setInterval.
Qed.

(** A new heartbeat goes by a handle nothing else has. *)
Lemma Apart_setupRecognitionHeartbeat (s : State) :
  Apart s → Apart (setupRecognitionHeartbeat s).
Proof.
  intros HA. unfold setupRecognitionHeartbeat.
  pose proof (Apart_clearHeartbeat s HA) as H1.
  revert H1. generalize (clearHeartbeat s). intros s1 [A1 A2 A3 A4].
  assert (N1 : timeouts s1 !! nextHandle s1 = None).
  { destruct (timeouts s1 !! nextHandle s1) eqn:E; [|done]. stale A1 s1. }
  assert (N2 : intervals s1 !! nextHandle s1 = None).
  { destruct (intervals s1 !! nextHandle s1) eqn:E; [|done]. stale A1 s1. }
  split; cbn.
  - intros h [H|[H|[H|[H|H]]]].
    + bound A1 h.
    + injection H as <-. lia.
    + bound A1 h.
    + bound A1 h.
    + apply elem_of_union in H as [H|H].
      * apply elem_of_singleton in H as ->. lia.
      * bound A1 h.
  - intros h. destruct (A2 h) as [B1 B2]. split.
    + intros H. destruct (B1 H) as [C1 C2]. split; [exact C1|].
      intros Hin. apply elem_of_union in Hin as [Hin|Hin]; [|auto].
      apply elem_of_singleton in Hin as ->. destruct H as [x Hx]. congruence.
    + intros H Hin. apply elem_of_union in Hin as [Hin|Hin]; [|now apply (B2 H)].
      apply elem_of_singleton in Hin as ->. destruct H as [x Hx]. congruence.
  - intros h H. destruct (A3 h H) as [C1 C2]. split; [exact C1|].
    intros Hin. apply elem_of_union in Hin as [Hin|Hin]; [|auto].
    apply elem_of_singleton in Hin as ->. stale A1 s1.
  - intros h [= <-]. now split.
Qed.

Lemma Apart_timerCallback (h : nat) (s : State) : Apart s → Apart (timerCallback h s).
Proof.
  intros HA. unfold timerCallback.
  destruct (intervals s !! h) as [timeLeft|] eqn:Hl; [|assumption].
  assert (H0 : Apart (updateTimerDisplay (timeLeft - 1)
                        (set_intervals (<[h:=timeLeft - 1]> (intervals s)) s))).
  { destruct HA as [A1 A2 A3 A4]. split; cbn.
    - intros h' [H|[H|[H|[H|H]]]]; try (apply A1; auto 6; fail).
      apply lookup_insert_is_Some in H as [<-|[_ H]]; apply A1; eauto 6.
    - intros h'. destruct (A2 h') as [B1 B2]. split; [|exact B2].
      intros H. apply lookup_insert_is_Some in H as [<-|[_ H]]; [|auto].
      apply (A2 h). eauto.
    - exact A3.
    - intros h' H. destruct (A4 h' H) as [C1 C2]. split; [|exact C2].
      rewrite lookup_insert_ne; [exact C1|]. intros <-. congruence. }
  destruct (timeLeft - 1 <=? 0); [|assumption].
  revert H0. generalize (updateTimerDisplay (timeLeft - 1)
                        (set_intervals (<[h:=timeLeft - 1]> (intervals s)) s)).
  intros s1 H1. unfold showTimeUpScreen, appendScreen.
  pose proof (Apart_clearInterval (timer s1) s1 H1) as H2.
  revert H2. generalize (clearInterval (timer s1) s1). intros s2 H2. apart s2.
Qed.

Lemma Apart_updateDisplay (node : option JsValue) (s : State) :
  Apart s → Apart (updateDisplay node s).
Proof. apply Apart_setTimeout. Qed.

Lemma Apart_restartGame (s : State) : Apart s → Apart (restartGame nodes s).
Proof. intros HA. now apply Apart_updateDisplay, Apart_clearInterval. Qed.

Lemma Apart_choiceClick (nextNode : string) (s : State) :
  Apart s → Apart (choiceClick nodes nextNode s).
Proof. intros HA. now apply Apart_updateDisplay, Apart_clearInterval. Qed.

Lemma Apart_displayCallback (node : option JsValue) (s : State) :
  Apart s → Apart (displayCallback nodes choiceTime node s).
Proof.
  intros HA. unfold displayCallback.
  destruct node as [[n|name]|]; [|apart s|apart s].
  destruct (ending n); [apart s|].
  destruct (choices n) as [cs|]; [|apart s].
  apply Apart_startTimer. apart s.
Qed.

Lemma Apart_showPausePopup (script : Script) (s : State) :
  Apart s → Apart (showPausePopup script s).
Proof.
  intros HA. unfold showPausePopup. destruct (isPaused s); [assumption|].
  assert (H0 : Apart (set_isPaused true s)) by apart s.
  revert H0. generalize (set_isPaused true s). intros s0 H0.
  destruct script.
  - apply Apart_clearInterval. apart s0.
  - apply Apart_clearHeartbeat in H0.
    revert H0. generalize (clearHeartbeat s0). intros s1 H1.
    assert (H2 : Apart (if recognition s1
                        then set_stopCalls (S (stopCalls s1)) (set_isListening false s1)
                        else s1))
      by (destruct (recognition s1); [apart s1 | assumption]).
    revert H2. generalize (if recognition s1
                        then set_stopCalls (S (stopCalls s1)) (set_isListening false s1)
                        else s1).
    intros s2 H2. apply (Apart_clearInterval (timer s2)) in H2.
    revert H2. generalize (clearInterval (timer s2) s2). intros s3 H3.
    unfold appendScreen. apart s3.
Qed.

Lemma Apart_rearm (l : BodyListener) (s : State) :
  Apart s →
  Apart (addBodyListener l
           (showAlert "Click anywhere to enable voice commands"
              (set_recognitionRestartAttempts 0 s))).
Proof. intros HA. apart s. Qed.

Lemma Apart_runHandler (script : Script) (h : Handler) (i : nat) (confirmed : bool) (s : State) :
  Apart s → Apart (runHandler nodes choiceTime script h i confirmed s).
Proof.
  intros HA.
  assert (Hrm : Apart (set_isPaused false (removeScreen i s))) by apart s.
  assert (Hrm' : Apart (removeScreen i s)) by apart s.
  destruct h; cbn [runHandler].
  - now apply Apart_restartGame.
  - apart s.
  - apply Apart_startTimer in Hrm.
    destruct script; [assumption | now apply Apart_rearm].
  - destruct confirmed; [|assumption].
    apply Apart_restartGame in Hrm.
    destruct script; [assumption | now apply Apart_rearm].
  - destruct confirmed; [apart s | assumption].
Qed.

Lemma Apart_targetClick (script : Script) (target : ClickTarget) (confirmed : bool) (s : State) :
  Apart s → Apart (targetClick nodes choiceTime script target confirmed s).
Proof.
  intros HA. destruct target as [i|i button| | |]; cbn [targetClick].
  - destruct (choiceButtons s !! i) as [[label nextNode]|]; [|assumption].
    now apply Apart_choiceClick.
  - unfold screenClick. destruct (screens s !! i) as [sc|]; [|assumption].
    destruct (handlerOf button sc); [|assumption]. now apply Apart_runHandler.
  - destruct confirmed; [now apply Apart_restartGame | assumption].
  - destruct confirmed; [apart s | assumption].
  - assumption.
Qed.

Lemma Apart_setupVoiceRecognition (script : Script) (env : SetupEnv) (s : State) :
  Apart s → Apart (setupVoiceRecognition script env s).
Proof. intros HA. unfold setupVoiceRecognition. destruct script, env; apart s. Qed.

Lemma Apart_runBodyListener (script : Script) (env : SetupEnv) (l : BodyListener) (s : State) :
  Apart s → Apart (runBodyListener script env l s).
Proof.
  intros HA. destruct l; cbn [runBodyListener].
  - destruct script; [destruct (isListening s); [assumption|]|];
      now apply Apart_setupVoiceRecognition.
  - apply Apart_setupVoiceRecognition. apart s.
  - assert (Apart (set_startCalls (S (startCalls s)) s)) by apart s.
    destruct env; try assumption. now apply Apart_setupVoiceRecognition.
  - now apply Apart_setupVoiceRecognition.
Qed.

Lemma Apart_bodyClick (script : Script) (env : SetupEnv) (s : State) :
  Apart s → Apart (bodyClick script env s).
Proof.
  intros HA. unfold bodyClick.
  assert (H0 : Apart (set_bodyListeners [] s)) by apart s.
  revert H0. generalize (set_bodyListeners [] s).
  induction (bodyListeners s) as [|l ls IH]; intros s0 H0; [assumption|].
  cbn [foldl]. apply IH. now apply Apart_runBodyListener.
Qed.

Lemma Apart_scanResults (script : Script) (results : list string) (s : State) :
  Apart s → Apart (scanResults script results s).
Proof.
  intros HA. induction results as [|r rest IH]; [assumption|].
  cbn [scanResults]. destruct (heardStop _); [now apply Apart_showPausePopup | assumption].
Qed.

Lemma Apart_step (script : Script) (e : Event) (s : State) :
  Apart s → Apart (step nodes choiceTime script e s).
Proof.
  intros HA. unfold step. destruct (navigated s); [assumption|].
  destruct e as [|h|h startThrows|h now|target confirmed env|now| |now idx results|error].
  - unfold onload. destruct (truthy _).
    + apply Apart_updateDisplay. apart s.
    + destruct script; [apart s|]. apply Apart_updateDisplay. apart s.
  - now apply Apart_timerCallback.
  - unfold fire. destruct (timeouts s !! h) as [task|]; [|assumption].
    assert (H0 : Apart (set_timeouts (delete h (timeouts s)) s)).
    { apply (Apart_shrink s); try reflexivity; try assumption. apply delete_subseteq. }
    revert H0. generalize (set_timeouts (delete h (timeouts s)) s). intros s0 H0.
    destruct task; cbn [runTask].
    + now apply Apart_displayCallback.
    + destruct startThrows; apart s0.
    + destruct (isPaused s0); [assumption | apart s0].
    + destruct (isPaused s0); [assumption|]. destruct startThrows; apart s0.
  - unfold heartbeatCallback. destruct (bool_decide _); [|assumption].
    destruct (isPaused s); [assumption|]. destruct (_ && _); [|assumption].
    apply Apart_setTimeout. apart s.
  - now apply Apart_bodyClick, Apart_targetClick.
  - unfold onstart. destruct script; [apart s|].
    apply Apart_setupRecognitionHeartbeat. apart s.
  - unfold onend. destruct script.
    + destruct (isListening s); [apart s | assumption].
    + destruct (_ && _); [|destruct (_ <=? _); apart s].
      apply Apart_setTimeout. apart s.
  - unfold onresult. destruct script.
    + destruct (isPaused s); [assumption|].
      destruct (heardStop _); [now apply Apart_showPausePopup | assumption].
    + apply Apart_scanResults. apart s.
  - unfold onerror, handleVoiceError. destruct script; [apart s|].
    destruct (String.eqb error "not-allowed"); [apart s|].
    destruct (String.eqb error "network"); [|apart s].
    apply Apart_setTimeout. apart s.
Qed.

Lemma reachable_Apart (script : Script) (s : State) :
  reachable nodes choiceTime script s → Apart s.
Proof.
  intros [es ->]. induction es as [|e es IH] using rev_ind.
  - apply Apart_initial.
  - rewrite run_snoc. now apply Apart_step.
Qed.

(** In every state of the player the handle that [window.recognitionHeartbeat]
    holds names no countdown and no timeout, and the handle that [timer]
    holds names no timeout and no heartbeat: a [clearInterval] on either
    variable takes away a timer of its own kind or none. *)
Lemma heartbeat_handle_apart (script : Script) (s : State) (h : nat) :
  reachable nodes choiceTime script s →
  (recognitionHeartbeat s = Some h → intervals s !! h = None ∧ timeouts s !! h = None) ∧
  (timer s = Some h → timeouts s !! h = None ∧ h ∉ heartbeats s).
Proof.
  intros Hr. pose proof (reachable_Apart script s Hr) as [_ _ A3 A4].
  split; [apply A4 | apply A3].
Qed.

End HandlesApart.

(** ** The choice timer *)

Section Timer.

Context (nodes : gmap string Node) (choiceTime : Z).

(** With no interval active, firings do nothing. *)
Lemma tickAll_idle (hs : list nat) (s : State) :
  intervals s = ∅ → tickAll hs s = s.
Proof.
  intros He. induction hs as [|h hs IH]; [reflexivity|].
  cbn [tickAll foldl]. unfold timerCallback at 2.
  rewrite He, lookup_empty. exact IH.
Qed.

Lemma ticks_S (n h : nat) (s : State) :
  ticks (S n) h s = timerCallback h (ticks n h s).
Proof. reflexivity. Qed.

Lemma ticks_idle (n h : nat) (s : State) : intervals s = ∅ → ticks n h s = s.
Proof.
  intros He. induction n as [|n IH]; [reflexivity|].
  rewrite ticks_S, IH. unfold timerCallback. now rewrite He, lookup_empty.
Qed.

(** While time is left, a firing of the interval that [timer] names only
    counts down. *)
Lemma ticks_running (k : nat) (h : nat) (t : Z) (s : State) :
  timer s = Some h → intervals s = {[ h := t ]} → Z.of_nat k < t →
  ticks k h s
  = set_timerDisplay (if k is O then timerDisplay s else Some (t - Z.of_nat k))
      (set_intervals {[ h := t - Z.of_nat k ]} s).
Proof.
  intros Ht Hi. induction k as [|k IH]; intros Hk.
  - cbn. rewrite Z.sub_0_r, <- Hi. now destruct s.
  - rewrite ticks_S, IH by lia. unfold timerCallback. cbn.
    rewrite lookup_singleton_eq.
    replace (t - Z.of_nat k - 1) with (t - Z.of_nat (S k)) by lia.
    destruct (Z.leb_spec (t - Z.of_nat (S k)) 0) as [Hle|_]; [lia|].
    rewrite insert_singleton_eq. now destruct k.
Qed.

(** The firing that brings the count to zero clears the interval, takes
    the timer display away and shows the time-up screen. *)
Lemma ticks_expire (h : nat) (t : Z) (s : State) :
  timer s = Some h → intervals s = {[ h := t ]} → 0 < t →
  let expired := ticks (Z.to_nat t) h s in
  screens expired = screens s ++ [timeUpScreen] ∧
  intervals expired = ∅ ∧
  timerDisplay expired = None ∧
  timer expired = Some h.
Proof.
  intros Ht Hi Hpos expired. subst expired.
  replace (Z.to_nat t) with (S (Z.to_nat t - 1)) by lia.
  rewrite ticks_S, (ticks_running _ h t) by (assumption || lia).
  unfold timerCallback. cbn. rewrite lookup_singleton_eq.
  destruct (Z.leb_spec (t - Z.of_nat (Z.to_nat t - 1) - 1) 0) as [_|Hgt]; [|lia].
  cbn. rewrite Ht. cbn. rewrite insert_singleton_eq, delete_singleton_eq.
  repeat split; try reflexivity. now rewrite Ht.
Qed.

Lemma voiceOnly_refl (s : State) : voiceOnly s s.
Proof. repeat split. Qed.

Lemma voiceOnly_trans (s1 s2 s3 : State) :
  voiceOnly s1 s2 → voiceOnly s2 s3 → voiceOnly s1 s3.
Proof.
  unfold voiceOnly. intros H1 H2. destruct_and!. repeat split; congruence.
Qed.

Lemma voiceOnly_rearm (l : BodyListener) (s : State) :
  voiceOnly s
    (addBodyListener l
       (showAlert "Click anywhere to enable voice commands"
          (set_recognitionRestartAttempts 0 s))).
Proof. repeat split. Qed.

Lemma voiceOnly_setup (script : Script) (env : SetupEnv) (s : State) :
  voiceOnly s (setupVoiceRecognition script env s).
Proof. unfold setupVoiceRecognition. destruct script, env; repeat split. Qed.

Lemma voiceOnly_runBodyListener (script : Script) (env : SetupEnv) (l : BodyListener) (s : State) :
  voiceOnly s (runBodyListener script env l s).
Proof.
  destruct l; cbn [runBodyListener].
  - destruct script; [destruct (isListening s); [apply voiceOnly_refl|]|];
      apply voiceOnly_setup.
  - eapply voiceOnly_trans; [|apply voiceOnly_setup]. repeat split.
  - destruct env; try (repeat split; fail).
    eapply voiceOnly_trans; [|apply voiceOnly_setup]. repeat split.
  - apply voiceOnly_setup.
Qed.

(** The listeners of the body belong to the voice monitor. *)
Lemma voiceOnly_bodyClick (script : Script) (env : SetupEnv) (s : State) :
  voiceOnly s (bodyClick script env s).
Proof.
  unfold bodyClick.
  assert (H0 : voiceOnly s (set_bodyListeners [] s)) by (repeat split).
  revert H0. generalize (set_bodyListeners [] s).
  induction (bodyListeners s) as [|l ls IH]; intros s0 H0; [assumption|].
  cbn [foldl]. apply IH. eapply voiceOnly_trans; [exact H0|].
  apply voiceOnly_runBodyListener.
Qed.

(** Under the discipline no interval is active, or just the one that
    [timer] names. *)
Lemma intervals_cases (s : State) :
  Inv s →
  intervals s = ∅ ∨ ∃ h t, timer s = Some h ∧ intervals s = {[ h := t ]}.
Proof.
  intros [H1 _ _].
  destruct (timer s) as [h|] eqn:Ht; [destruct (intervals s !! h) as [t|] eqn:Hl|].
  - right. exists h, t. split; [reflexivity|].
    apply map_eq. intros h'. destruct (decide (h = h')) as [<-|Hne].
    + now rewrite lookup_singleton_eq.
    + rewrite lookup_singleton_ne by done.
      destruct (intervals s !! h') eqn:Hl'; [|done].
      pose proof (H1 _ _ Hl'). congruence.
  - left. apply map_eq. intros h'. rewrite lookup_empty.
    destruct (intervals s !! h') eqn:Hl'; [|done].
    pose proof (H1 _ _ Hl'). congruence.
  - left. apply map_eq. intros h'. rewrite lookup_empty.
    destruct (intervals s !! h') eqn:Hl'; [|done].
    pose proof (H1 _ _ Hl'). congruence.
Qed.

Lemma size_intervals (s : State) : Inv s → (size (intervals s) ≤ 1)%nat.
Proof.
  intros HI. destruct (intervals_cases s HI) as [->|(h & t & _ & ->)].
  - rewrite map_size_empty. lia.
  - rewrite map_size_singleton. lia.
Qed.

Lemma startTimer_screens (s : State) :
  screens (startTimer choiceTime s) = screens s.
Proof.
  unfold startTimer. destruct (truthy_handle (timer s)); [|reflexivity].
  cbn. now destruct (timer s).
Qed.

Lemma startTimer_isPaused (s : State) :
  isPaused (startTimer choiceTime s) = isPaused s.
Proof.
  unfold startTimer. destruct (truthy_handle (timer s)); [|reflexivity].
  cbn. now destruct (timer s).
Qed.

(** Tick events find nothing to run when no interval is active. *)
Lemma run_ticks_idle (script : Script) (hs : list nat) (s : State) :
  intervals s = ∅ → run nodes choiceTime script (Tick <$> hs) s = s.
Proof.
  intros He. induction hs as [|h hs IH]; [reflexivity|].
  cbn [fmap list_fmap run foldl]. unfold step at 2.
  destruct (navigated s); [exact IH|].
  unfold timerCallback. rewrite He, lookup_empty. exact IH.
Qed.

(** C2. A timer started with a positive duration D and left alone for D
    one-second ticks clears its interval and shows the time-up screen
    exactly once: no time-up screen appears during the first D - 1 ticks,
    the D-th tick appends one and leaves no interval active, and no
    further tick changes anything. *)
Theorem timer_expires_exactly_once (script : Script) (s : State) :
  0 < choiceTime →
  reachable nodes choiceTime script s →
  let h := nextHandle s in
  let started := startTimer choiceTime s in
  let expired := ticks (Z.to_nat choiceTime) h started in
  timer started = Some h ∧
  intervals started = {[ h := choiceTime ]} ∧
  (∀ k, (k < Z.to_nat choiceTime)%nat →
     screens (ticks k h started) = screens s ∧
     intervals (ticks k h started) = {[ h := choiceTime - Z.of_nat k ]}) ∧
  screens expired = screens s ++ [timeUpScreen] ∧
  intervals expired = ∅ ∧
  (∀ hs, tickAll hs expired = expired).
Proof.
  intros Hpos Hr h started expired.
  pose proof (reachable_Inv _ _ _ _ Hr) as HI.
  pose proof (startTimer_timer choiceTime s) as Ht.
  pose proof (startTimer_intervals choiceTime s HI) as Hi.
  fold h started in Ht, Hi.
  destruct (ticks_expire h choiceTime started Ht Hi Hpos) as (Hs & He & _ & _).
  fold expired in Hs, He.
  repeat split; try assumption.
  - rewrite (ticks_running k h choiceTime) by (assumption || lia).
    cbn. apply startTimer_screens.
  - rewrite (ticks_running k h choiceTime) by (assumption || lia). reflexivity.
  - rewrite Hs. unfold started. now rewrite startTimer_screens.
  - intros hs. now apply tickAll_idle.
Qed.

(** C6. At most one timer is active at any time: in every state of the
    player at most one interval is active and it is the one [timer] names;
    starting a countdown cancels the interval that was running and leaves
    the new one alone, at the full duration, which is also what the
    display shows. *)
Theorem one_timer_at_a_time (script : Script) (s : State) :
  reachable nodes choiceTime script s →
  let restarted := startTimer choiceTime s in
  (size (intervals s) ≤ 1)%nat ∧
  (∀ h t, intervals s !! h = Some t → timer s = Some h) ∧
  (∀ h t, intervals s !! h = Some t → intervals restarted !! h = None) ∧
  intervals restarted = {[ nextHandle s := choiceTime ]} ∧
  timerDisplay restarted = Some choiceTime.
Proof.
  intros Hr restarted. pose proof (reachable_Inv _ _ _ _ Hr) as HI.
  assert (Hi : intervals restarted = {[ nextHandle s := choiceTime ]})
    by now apply startTimer_intervals.
  split; [|split; [|split; [|split]]].
  - now apply size_intervals.
  - apply (inv_single s HI).
  - intros h t Hl. rewrite Hi. apply lookup_singleton_ne.
    pose proof (inv_handle s HI h (inv_single s HI h t Hl)). lia.
  - exact Hi.
  - apply startTimer_timerDisplay.
Qed.

Lemma showPausePopup_paused (script : Script) (s : State) :
  Inv s → isPaused s = false →
  let paused := showPausePopup script s in
  isPaused paused = true ∧ screens paused = screens s ++ [pauseScreen] ∧
  intervals paused = ∅ ∧ timerDisplay paused = timerDisplay s ∧
  nextHandle paused = nextHandle s ∧ navigated paused = navigated s ∧
  Inv paused.
Proof.
  intros HI Hp paused.
  assert (HIp : Inv paused) by now apply Inv_showPausePopup.
  assert (Hf : isPaused paused = true ∧ screens paused = screens s ++ [pauseScreen] ∧
               intervals paused = intervals (clearInterval (timer s) s) ∧
               timerDisplay paused = timerDisplay s ∧
               nextHandle paused = nextHandle s ∧ navigated paused = navigated s).
  { subst paused. unfold showPausePopup. rewrite Hp.
    destruct script;
      [|rewrite (clearHeartbeat_eq (set_isPaused true s)); cbn;
        destruct (recognition s)];
      cbn; destruct (timer s); cbn; repeat split. }
  destruct Hf as (H1 & H2 & H3 & H4 & H5 & H6).
  rewrite clearInterval_empty in H3 by assumption. tauto.
Qed.


(** C9, as the code has it. A click on a choice button clears the running
    interval at once and schedules the display of the target: no interval
    is left that could expire, so no tick after the click shows the
    time-up screen or changes anything else. *)
Theorem choice_cancels_timer
    (script : Script) (s : State) (i : nat) (label target : string)
    (confirmed : bool) (env : SetupEnv) :
  reachable nodes choiceTime script s →
  navigated s = false →
  choiceButtons s !! i = Some (label, target) →
  let chosen :=
    step nodes choiceTime script (Click (OnChoice i) confirmed env) s in
  intervals chosen = ∅ ∧
  timeouts chosen !! nextHandle s = Some (DisplayTask (js_get nodes target)) ∧
  screens chosen = screens s ∧
  (∀ hs, run nodes choiceTime script (Tick <$> hs) chosen = chosen).
Proof.
  intros Hr Hnav Hb chosen.
  pose proof (reachable_Inv _ _ _ _ Hr) as HI.
  set (clicked := choiceClick nodes target s).
  assert (Hv : voiceOnly clicked chosen).
  { subst chosen. unfold step. rewrite Hnav. cbn [targetClick]. rewrite Hb.
    apply voiceOnly_bodyClick. }
  assert (Hc : intervals clicked = ∅ ∧
               timeouts clicked !! nextHandle s = Some (DisplayTask (js_get nodes target)) ∧
               screens clicked = screens s).
  { unfold clicked, choiceClick, updateDisplay, setTimeout. cbn.
    rewrite clearInterval_empty, clearInterval_nextHandle, lookup_insert_eq by assumption.
    repeat split. now destruct (timer s). }
  destruct Hc as (C1 & C2 & C3).
  destruct Hv as (_ & _ & _ & V4 & V5 & _ & _ & _ & V9 & _).
  assert (He : intervals chosen = ∅) by now rewrite V4.
  rewrite V5, V9. repeat split; try assumption.
  intros hs. now apply run_ticks_idle.
Qed.

End Timer.

(** ** Rendering a node *)

Section Display.

Context (nodes : gmap string Node) (choiceTime : Z).

(** A choice gets a button exactly when its target reads truthy. *)
Lemma rendered_spec (cs : list (string * string)) (label target : string) :
  (label, target) ∈ rendered nodes cs
  ↔ (label, target) ∈ cs ∧ truthy (js_get nodes target) = true.
Proof. unfold rendered. rewrite list_elem_of_filter. cbn. tauto. Qed.

Lemma js_get_own (key : string) :
  key ∉ Object_prototype →
  truthy (js_get nodes key) = true ↔ is_Some (nodes !! key).
Proof.
  intros Hk. unfold js_get. destruct (nodes !! key) as [n|]; cbn.
  - split; eauto.
  - rewrite bool_decide_eq_false_2 by assumption. cbn.
    split; [discriminate | intros [? ?]; discriminate].
Qed.

Lemma startTimer_choiceButtons (s : State) :
  choiceButtons (startTimer choiceTime s) = choiceButtons s.
Proof.
  unfold startTimer. destruct (truthy_handle (timer s)); [|reflexivity].
  cbn. now destruct (timer s).
Qed.

Lemma startTimer_uncaught (s : State) :
  uncaught (startTimer choiceTime s) = uncaught s.
Proof.
  unfold startTimer. destruct (truthy_handle (timer s)); [|reflexivity].
  cbn. now destruct (timer s).
Qed.

Lemma startTimer_storyText (s : State) :
  storyText (startTimer choiceTime s) = storyText s.
Proof.
  unfold startTimer. destruct (truthy_handle (timer s)); [|reflexivity].
  cbn. now destruct (timer s).
Qed.

(** What the deferred part of [updateDisplay] leaves on the page for a
    plain node with choices. *)
Lemma displayCallback_plain (n : Node) (cs : list (string * string)) (s : State) :
  ending n = false → choices n = Some cs →
  let shown := displayCallback nodes choiceTime (Some (Own n)) s in
  storyText shown = Some (text n) ∧
  choiceButtons shown = rendered nodes cs ∧
  uncaught shown = uncaught s ∧
  screens shown = screens s.
Proof.
  intros He Hc. cbn. rewrite He, Hc.
  rewrite startTimer_storyText, startTimer_choiceButtons, startTimer_uncaught,
    startTimer_screens.
  repeat split.
Qed.

Lemma buttonsShown_eq (key : string) (s : State) :
  buttonsShown nodes choiceTime key s
  = match nodes !! key with
    | Some n =>
        if ending n then []
        else match choices n with
             | Some cs => rendered nodes cs
             | None => []
             end
    | None => []
    end.
Proof.
  unfold buttonsShown. destruct (nodes !! key) as [n|]; [|reflexivity].
  cbn. destruct (ending n); [reflexivity|].
  destruct (choices n); [|reflexivity].
  now rewrite startTimer_choiceButtons.
Qed.

(** On a well-formed node the display never throws, and a declared choice
    is on the page exactly when its target is a key of the graph. *)
Lemma displayCallback_wellFormed (n : Node) (s : State) :
  wellFormed n = true →
  let shown := displayCallback nodes choiceTime (Some (Own n)) s in
  uncaught shown = uncaught s ∧
  ∀ cs label target,
    choices n = Some cs → (label, target) ∈ cs →
    ((label, target) ∈ choiceButtons shown ↔ is_Some (nodes !! target)).
Proof.
  unfold wellFormed. intros Hw.
  destruct (choices n) as [cs|] eqn:Hc.
  - apply andb_true_iff in Hw as [He Hts]. apply negb_true_iff in He.
    destruct (displayCallback_plain n cs s He Hc) as (_ & Hb & Hu & _).
    cbn zeta. split; [exact Hu|].
    intros cs' label target [= <-] Hin. rewrite Hb, rendered_spec.
    rewrite forallb_forall in Hts.
    assert (Hp : target ∉ Object_prototype).
    { apply list_elem_of_In, Hts in Hin. cbn in Hin.
      apply negb_true_iff, bool_decide_eq_false in Hin. exact Hin. }
    rewrite (js_get_own target Hp). tauto.
  - cbn. rewrite Hw. split; [reflexivity | discriminate].
Qed.

End Display.

(** ** The shipped graph *)

(** No key is written twice in the literal, so the map holds every entry
    of it. *)
Lemma storyNodes_keys_NoDup : NoDup storyNodes_literal.*1.
Proof. apply (bool_decide_unpack _). vm_compute. exact I. Qed.

Lemma storyNodes_lookup (key : string) (N : Node) :
  storyNodes !! key = Some N ↔ (key, N) ∈ storyNodes_literal.
Proof. symmetry. apply elem_of_list_to_map, storyNodes_keys_NoDup. Qed.

Lemma storyNodes_wellFormed :
  forallb (λ kn, wellFormed kn.2) storyNodes_literal = true.
Proof. vm_compute. reflexivity. Qed.

Lemma storyNodes_node_wellFormed (key : string) (N : Node) :
  storyNodes !! key = Some N → wellFormed N = true.
Proof.
  intros Hk. apply storyNodes_lookup, list_elem_of_In in Hk.
  pose proof storyNodes_wellFormed as Hall. rewrite forallb_forall in Hall.
  exact (Hall _ Hk).
Qed.

(** C1. For every node of the story graph and every choice it declares,
    displaying the node either finds the target among the keys of the graph
    and makes the button, or leaves the choice out; no exception is thrown
    either way. *)
Theorem missing_targets_are_dropped
    (sc : Script) (key : string) (N : Node) (s : State)
    (cs : list (string * string)) (label target : string) :
  storyNodes !! key = Some N →
  choices N = Some cs →
  (label, target) ∈ cs →
  let shown := displayCallback storyNodes (CHOICE_TIME sc) (Some (Own N)) s in
  uncaught shown = uncaught s ∧
  ((is_Some (storyNodes !! target) ∧ (label, target) ∈ choiceButtons shown)
   ∨ (storyNodes !! target = None ∧ (label, target) ∉ choiceButtons shown)).
Proof.
  intros Hk Hc Hin shown.
  destruct (displayCallback_wellFormed storyNodes (CHOICE_TIME sc) N s
              (storyNodes_node_wellFormed key N Hk)) as [Hu Hb].
  fold shown in Hu, Hb. split; [exact Hu|].
  specialize (Hb cs label target Hc Hin).
  destruct (storyNodes !! target) as [n|] eqn:Ht.
  - left. split; [eauto | apply Hb; eauto].
  - right. split; [reflexivity|]. rewrite Hb. intros [? ?]. discriminate.
Qed.

(** C10. The shipped graph declares choices whose targets are no keys of
    the graph, and the nodes that declare them show fewer buttons than
    choices: morning-after shows Hit Desk alone. *)
Theorem shipped_graph_has_dangling_choices (sc : Script) (s : State) :
  let shown key := buttonsShown storyNodes (CHOICE_TIME sc) key s in
  storyNodes !! "destroy-computer" = None ∧
  storyNodes !! "flush-pills" = None ∧
  storyNodes !! "stop-info" = None ∧
  storyNodes !! "fight-em" = None ∧
  ("Destroy Computer", "destroy-computer") ∈ declared storyNodes "morning-after" ∧
  ("Flush pills", "flush-pills") ∈ declared storyNodes "bite-nails" ∧
  ("Flush pills", "flush-pills") ∈ declared storyNodes "pull-earlobe" ∧
  ("Stop", "stop-info") ∈ declared storyNodes "netflix-path" ∧
  ("FUCK 'EM", "fight-em") ∈ declared storyNodes "therapy-fight" ∧
  shown "morning-after" = [("Hit Desk", "hit-desk")] ∧
  shown "bite-nails" = [("Take pills", "take-pills"); ("Throw pills away", "throw-pills")] ∧
  shown "pull-earlobe" = [("Take pills", "take-pills"); ("Throw pills away", "throw-pills")] ∧
  shown "netflix-path" = [("Give more info", "more-info")] ∧
  shown "therapy-fight" = [("Yeah", "yeah-fight")] ∧
  Forall (λ key, (length (shown key) < length (declared storyNodes key))%nat)
    ["morning-after"; "bite-nails"; "pull-earlobe"; "netflix-path"; "therapy-fight"].
Proof.
  intros shown. subst shown. cbn beta.
  repeat rewrite buttonsShown_eq.
  repeat (split; [first [ vm_compute; reflexivity
                        | apply list_elem_of_In; vm_compute; auto ] |]).
  repeat (constructor; [cbn beta; rewrite buttonsShown_eq; vm_compute; lia|]).
  constructor.
Qed.

(** C8. From start, Sugar Puffs, then YES, then the first listed choice
    three times visits breakfast, tuckersoft-memory, therapy-session and
    talk-trauma and arrives at record-store; played through the event loop,
    the page then shows the text and the two buttons of record-store. *)
Theorem sugar_puffs_yes_reaches_record_store (sc : Script) :
  let picks := [ByLabel "Sugar Puffs"; ByLabel "YES"; FirstListed; FirstListed; FirstListed] in
  let opened := run storyNodes (CHOICE_TIME sc) sc [Load; Fire 1 false] initial in
  let arrived := foldl (λ s p, choose storyNodes (CHOICE_TIME sc) sc p s) opened picks in
  follow storyNodes "start" picks
  = ["start"; "breakfast"; "tuckersoft-memory"; "therapy-session"; "talk-trauma"; "record-store"] ∧
  storyText opened = text <$> storyNodes !! "start" ∧
  storyText arrived = text <$> storyNodes !! "record-store" ∧
  choiceButtons arrived = declared storyNodes "record-store" ∧
  choiceButtons arrived = [("Phaedra", "pour-tea"); ("The Bermuda Triangle", "bermuda-path")] ∧
  uncaught arrived = 0%nat.
Proof. destruct sc; vm_compute; repeat split. Qed.

(** ** Endings *)



Section Endings.

Context (script : Script).


End Endings.

(** ** The voice monitor *)

Section Voice.

(** A pause from an unpaused state sets the flag and appends one pause
    screen. *)
Lemma showPausePopup_once (script : Script) (s : State) :
  isPaused s = false →
  isPaused (showPausePopup script s) = true ∧
  screens (showPausePopup script s) = screens s ++ [pauseScreen].
Proof.
  intros Hp. unfold showPausePopup. rewrite Hp.
  destruct script;
    [|rewrite (clearHeartbeat_eq (set_isPaused true s)); cbn;
      destruct (recognition s)];
    cbn; destruct (timer s); cbn; split; reflexivity.
Qed.

Lemma showPausePopup_paused_noop (script : Script) (s : State) :
  isPaused s = true → showPausePopup script s = s.
Proof. intros Hp. unfold showPausePopup. now rewrite Hp. Qed.

(** The loop of the 60 s script pauses as soon as one result holds the
    keyword. *)
Lemma scanResults_heard (script : Script) (results : list string) (s : State) :
  (∃ r, r ∈ results ∧ heardStop (toLowerCase r) = true) →
  scanResults script results s = showPausePopup script s.
Proof.
  intros (r & Hin & Hr). induction results as [|x rest IH]; [inversion Hin|].
  cbn [scanResults]. rewrite heardStop_trim.
  destruct (heardStop (toLowerCase x)) eqn:Hx; [reflexivity|].
  apply IH. apply elem_of_cons in Hin as [->|Hin]; [congruence | exact Hin].
Qed.

Lemma scanResults_paused (script : Script) (results : list string) (s : State) :
  isPaused s = true → scanResults script results s = s.
Proof.
  intros Hp. induction results as [|x rest IH]; [reflexivity|].
  cbn [scanResults]. destruct (heardStop _); [|exact IH].
  now apply showPausePopup_paused_noop.
Qed.

(** C5, as the code has it. When a delivered transcript holds the keyword
    in any case: from an unpaused session exactly one pause happens, the
    flag is set and one pause screen is appended; in a paused session no
    pause happens again and nothing changes, but for the 60 s script,
    which still zeroes its restart counter and notes the time of the
    result. *)
Theorem stop_pauses_once
    (script : Script) (s : State) (now : Z) (resultIndex i : nat)
    (results : list string) (transcript : string) :
  (resultIndex ≤ i)%nat →
  results !! i = Some transcript →
  includes "stop" (toLowerCase transcript) = true →
  let after := onresult script now resultIndex results s in
  if isPaused s then
    after = match script with
            | Script20 => s
            | Script60 =>
                set_lastRecognitionTime now (set_recognitionRestartAttempts 0 s)
            end
  else
    isPaused after = true ∧ screens after = screens s ++ [pauseScreen].
Proof.
  intros Hi Hl Hstop after. subst after. unfold onresult.
  destruct (isPaused s) eqn:Hp.
  - destruct script; [reflexivity|]. now apply scanResults_paused.
  - destruct script.
    + unfold heardStop. rewrite (includes_join "stop" results i transcript Hl Hstop).
      now apply showPausePopup_once.
    + rewrite scanResults_heard.
      * apply (showPausePopup_once Script60
                 (set_lastRecognitionTime now (set_recognitionRestartAttempts 0 s))).
        exact Hp.
      * exists transcript. split; [|exact Hstop].
        apply list_elem_of_lookup. exists (i - resultIndex)%nat.
        rewrite lookup_drop. replace (resultIndex + (i - resultIndex))%nat with i by lia.
        exact Hl.
Qed.


(** The steps of [onend] in the 60 s script. While attempts are left and
    the session is not paused, an end event counts one attempt and
    schedules one restart. *)
Lemma onend_retry (s : State) :
  isPaused s = false → recognitionRestartAttempts s < MAX_RESTART_ATTEMPTS →
  onend Script60 s
  = setTimeout RestartTask
      (set_recognitionRestartAttempts (recognitionRestartAttempts s + 1)
         (set_isListening false s)).
Proof.
  intros Hp Ha. unfold onend. cbn [isPaused set_isListening recognitionRestartAttempts].
  rewrite Hp. destruct (Z.ltb_spec (recognitionRestartAttempts s) MAX_RESTART_ATTEMPTS); [|lia].
  reflexivity.
Qed.

(** Once the attempts are used up, an end event schedules nothing: it
    shows the notice and arms the reconnect listener. *)
Lemma onend_disconnect (s : State) :
  MAX_RESTART_ATTEMPTS ≤ recognitionRestartAttempts s →
  onend Script60 s = disconnect (set_isListening false s).
Proof.
  intros Ha. unfold onend. cbn [isPaused set_isListening recognitionRestartAttempts].
  destruct (Z.ltb_spec (recognitionRestartAttempts s) MAX_RESTART_ATTEMPTS); [lia|].
  rewrite andb_false_r.
  destruct (Z.leb_spec MAX_RESTART_ATTEMPTS (recognitionRestartAttempts s)); [|lia].
  reflexivity.
Qed.

(** The state after [n] end events in a row, with [r] attempts left at
    the start: the first [r] of them schedule a restart each, the others
    disconnect. *)
Lemma ends_fields (n : nat) (s : State) :
  isPaused s = false →
  0 ≤ recognitionRestartAttempts s ≤ MAX_RESTART_ATTEMPTS →
  isPaused (ends Script60 n s) = false ∧
  recognitionRestartAttempts (ends Script60 n s)
  = recognitionRestartAttempts s
    + Z.of_nat (Nat.min n (Z.to_nat (MAX_RESTART_ATTEMPTS - recognitionRestartAttempts s))) ∧
  nextHandle (ends Script60 n s)
  = (nextHandle s
     + Nat.min n (Z.to_nat (MAX_RESTART_ATTEMPTS - recognitionRestartAttempts s)))%nat ∧
  (∀ h, timeouts (ends Script60 n s) !! h
        = if bool_decide
               (nextHandle s ≤ h
                < nextHandle s
                  + Nat.min n (Z.to_nat (MAX_RESTART_ATTEMPTS - recognitionRestartAttempts s)))%nat
          then Some RestartTask else timeouts s !! h) ∧
  bodyListeners (ends Script60 n s)
  = bodyListeners s
    ++ repeat Reconnect
         (n - Z.to_nat (MAX_RESTART_ATTEMPTS - recognitionRestartAttempts s)) ∧
  alerts (ends Script60 n s)
  = alerts s
    ++ repeat disconnectedNotice
         (n - Z.to_nat (MAX_RESTART_ATTEMPTS - recognitionRestartAttempts s)) ∧
  startCalls (ends Script60 n s) = startCalls s.
Proof.
  intros Hp Ha.
  set (a := recognitionRestartAttempts s) in *.
  set (r := Z.to_nat (MAX_RESTART_ATTEMPTS - a)).
  assert (Hr : Z.of_nat r = MAX_RESTART_ATTEMPTS - a) by lia.
  induction n as [|n IH].
  - cbn. rewrite Z.add_0_r, Nat.add_0_r, !app_nil_r.
    refine (conj Hp (conj eq_refl (conj eq_refl (conj _ (conj eq_refl (conj eq_refl eq_refl)))))).
    intros h. rewrite bool_decide_eq_false_2 by lia. reflexivity.
  - destruct IH as (I1 & I2 & I3 & I4 & I5 & I6 & I7).
    change (ends Script60 (S n) s) with (onend Script60 (ends Script60 n s)).
    destruct (decide (n < r)%nat) as [Hlt|Hge].
    + rewrite onend_retry by (try assumption; rewrite I2; lia).
      rewrite (Nat.min_l n r) in * by lia. rewrite (Nat.min_l (S n) r) by lia.
      replace (S n - r)%nat with (n - r)%nat by lia.
      cbn. rewrite I2, I3, I5, I6, I7.
      refine (conj I1 (conj _ (conj _ (conj _ (conj eq_refl (conj eq_refl eq_refl)))))).
      * lia.
      * lia.
      * intros h. destruct (decide (h = nextHandle s + n)%nat) as [->|Hne].
        -- rewrite lookup_insert_eq, bool_decide_eq_true_2 by lia. reflexivity.
        -- rewrite lookup_insert_ne, I4 by lia.
           apply (f_equal (λ b : bool, if b then Some RestartTask else timeouts s !! h)).
           apply bool_decide_ext. lia.
    + rewrite onend_disconnect by (rewrite I2; lia).
      rewrite (Nat.min_r n r) in * by lia. rewrite (Nat.min_r (S n) r) by lia.
      replace (S n - r)%nat with (n - r + 1)%nat by lia.
      rewrite !repeat_app.
      cbn. rewrite I2, I3, I5, I6, I7, !app_assoc.
      refine (conj I1 (conj eq_refl (conj eq_refl (conj I4 (conj eq_refl (conj eq_refl eq_refl)))))).
Qed.

End Voice.

(** ** Restarts of the recognizer *)

Section Restarts.

Context (nodes : gmap string Node) (choiceTime : Z).

(** Counting the timeouts that call start() when timeouts come and go. *)
Lemma starters_delete (h : nat) (m : gmap nat Task) :
  (starters (delete h m) ≤ starters m)%nat.
Proof.
  unfold starters. rewrite map_filter_delete.
  apply map_subseteq_size, delete_subseteq.
Qed.

Lemma starters_delete_start (h : nat) (task : Task) (m : gmap nat Task) :
  m !! h = Some task → callsStart task = true →
  S (starters (delete h m)) = starters m.
Proof.
  intros Hl Hc. unfold starters. rewrite map_filter_delete.
  rewrite map_size_delete_Some.
  - assert (size (filter (λ kv : nat * Task, callsStart kv.2 = true) m) ≠ 0)%nat; [|lia].
    intros H0. apply map_size_empty_inv in H0.
    assert (Hf : filter (λ kv : nat * Task, callsStart kv.2 = true) m !! h = Some task)
      by (apply map_lookup_filter_Some; split; assumption).
    rewrite H0, lookup_empty in Hf. discriminate.
  - exists task. apply map_lookup_filter_Some. split; assumption.
Qed.

Lemma starters_insert (h : nat) (task : Task) (m : gmap nat Task) :
  (starters (<[h := task]> m) ≤ starters m + (if callsStart task then 1 else 0))%nat.
Proof.
  unfold starters. destruct (callsStart task) eqn:Hc.
  - rewrite map_filter_insert_True by exact Hc.
    rewrite map_size_insert. destruct (_ !! h); unfold id; lia.
  - rewrite map_filter_insert_False by (cbn; congruence).
    rewrite Nat.add_0_r, map_filter_delete. apply map_subseteq_size, delete_subseteq.
Qed.

(** The handlers of the game make no call of start(), leave the counter
    alone and schedule no restart. *)
Lemma noStart_frame (s s' : State) :
  startCalls s' = startCalls s →
  recognitionRestartAttempts s' = recognitionRestartAttempts s →
  timeouts s' = timeouts s → noStart s s'.
Proof. intros H1 H2 H3. unfold noStart, pendingStarts. rewrite H1, H2, H3. auto. Qed.

Lemma noStart_trans (s1 s2 s3 : State) : noStart s1 s2 → noStart s2 s3 → noStart s1 s3.
Proof.
  unfold noStart. intros (A1 & A2 & A3) (B1 & B2 & B3). rewrite B1, B2.
  split; [|split]; [done..|lia].
Qed.

Lemma noStart_budget (s s' : State) : noStart s s' → (startBudget s' ≤ startBudget s)%nat.
Proof. unfold noStart, startBudget, attemptsLeft. intros (-> & -> & H). lia. Qed.

Lemma clearInterval_noStart (t : option nat) (s : State) : noStart s (clearInterval t s).
Proof.
  destruct t as [h|]; [|now apply noStart_frame].
  split; [reflexivity|]. split; [reflexivity|]. apply starters_delete.
Qed.

Lemma startTimer_noStart (s : State) : noStart s (startTimer choiceTime s).
Proof.
  unfold startTimer. destruct (truthy_handle (timer s)).
  - eapply noStart_trans; [apply (clearInterval_noStart (timer s))|].
    now apply noStart_frame.
  - now apply noStart_frame.
Qed.

Lemma timerCallback_noStart (h : nat) (s : State) : noStart s (timerCallback h s).
Proof.
  unfold timerCallback. destruct (intervals s !! h) as [t|]; [|now apply noStart_frame].
  destruct (t - 1 <=? 0); [|now apply noStart_frame].
  match goal with |- noStart _ (showTimeUpScreen (set_timerDisplay _ (clearInterval ?t ?x))) =>
    apply (noStart_trans _ x); [now apply noStart_frame|];
    apply (noStart_trans _ (clearInterval t x)); [apply clearInterval_noStart|];
    now apply noStart_frame end.
Qed.

Lemma setTimeout_display_noStart (node : option JsValue) (s : State) :
  noStart s (setTimeout (DisplayTask node) s).
Proof.
  split; [reflexivity|]. split; [reflexivity|].
  pose proof (starters_insert (nextHandle s) (DisplayTask node) (timeouts s)) as H.
  cbn [callsStart] in H. rewrite Nat.add_0_r in H. exact H.
Qed.

Lemma displayCallback_noStart (node : option JsValue) (s : State) :
  noStart s (displayCallback nodes choiceTime node s).
Proof.
  unfold displayCallback.
  destruct node as [[n|name]|]; [|now apply noStart_frame..].
  destruct (ending n); [now apply noStart_frame|].
  destruct (choices n) as [cs|]; [|now apply noStart_frame].
  eapply noStart_trans; [|apply startTimer_noStart]. now apply noStart_frame.
Qed.

Lemma onload_noStart (script : Script) (s : State) : noStart s (onload nodes script s).
Proof.
  unfold onload, updateDisplay. destruct (truthy _).
  - eapply noStart_trans; [|apply setTimeout_display_noStart]. now apply noStart_frame.
  - destruct script; [now apply noStart_frame|].
    eapply noStart_trans; [|apply setTimeout_display_noStart]. now apply noStart_frame.
Qed.

(** A timeout more raises the budget by one at most. *)
Lemma setTimeout_budget (task : Task) (s : State) :
  (startBudget (setTimeout task s) ≤ startBudget s + 1)%nat.
Proof.
  pose proof (starters_insert (nextHandle s) task (timeouts s)) as H.
  change (startBudget (setTimeout task s))
    with (startCalls s + starters (<[nextHandle s := task]> (timeouts s)) + attemptsLeft s)%nat.
  change (startBudget s) with (startCalls s + starters (timeouts s) + attemptsLeft s)%nat.
  destruct (callsStart task); lia.
Qed.

(** A restart that fires turns a pending start into a call. *)
Lemma fire_budget (h : nat) (startThrows : bool) (s : State) :
  (startBudget (fire nodes choiceTime h startThrows s) ≤ startBudget s)%nat.
Proof.
  unfold fire. destruct (timeouts s !! h) as [task|] eqn:Hl; [|lia].
  pose proof (starters_delete h (timeouts s)) as Hd.
  pose proof (starters_delete_start h task (timeouts s) Hl) as Hs.
  set (s0 := set_timeouts (delete h (timeouts s)) s).
  assert (H0 : startBudget s0 = (startCalls s + starters (delete h (timeouts s)) + attemptsLeft s)%nat)
    by reflexivity.
  assert (Hstart : callsStart task = true →
                   (startBudget (set_startCalls (S (startCalls s0)) s0) ≤ startBudget s)%nat).
  { intros Hc. specialize (Hs Hc).
    change (startBudget (set_startCalls (S (startCalls s0)) s0))
      with (S (startCalls s) + starters (delete h (timeouts s)) + attemptsLeft s)%nat.
    change (startBudget s) with (startCalls s + starters (timeouts s) + attemptsLeft s)%nat.
    lia. }
  assert (Hle : (startBudget s0 ≤ startBudget s)%nat).
  { rewrite H0.
    change (startBudget s) with (startCalls s + starters (timeouts s) + attemptsLeft s)%nat.
    lia. }
  destruct task; cbn [runTask].
  - etransitivity; [apply noStart_budget, displayCallback_noStart | exact Hle].
  - destruct startThrows; [|now apply Hstart].
    etransitivity; [|exact (Hstart eq_refl)]. apply noStart_budget. now apply noStart_frame.
  - destruct (isPaused s0); [exact Hle | now apply Hstart].
  - destruct (isPaused s0); [exact Hle|].
    destruct startThrows; [|now apply Hstart].
    etransitivity; [|exact (Hstart eq_refl)]. apply noStart_budget. now apply noStart_frame.
Qed.

(** The restart that an end event schedules is paid for by one attempt. *)
Lemma onend_budget (s : State) : (startBudget (onend Script60 s) ≤ startBudget s)%nat.
Proof.
  unfold onend. cbn [isPaused set_isListening recognitionRestartAttempts].
  destruct (isPaused s); cbn [negb andb].
  - destruct (_ <=? _); apply noStart_budget; now apply noStart_frame.
  - destruct (Z.ltb_spec (recognitionRestartAttempts s) MAX_RESTART_ATTEMPTS) as [Hlt|Hge].
    + etransitivity; [apply setTimeout_budget|].
      unfold startBudget, attemptsLeft, pendingStarts. cbn. lia.
    + destruct (_ <=? _); apply noStart_budget; now apply noStart_frame.
Qed.

Lemma step_budget (e : Event) (s : State) :
  unattended e = true →
  (startBudget (step nodes choiceTime Script60 e s) ≤ startBudget s + uncounted e)%nat.
Proof.
  intros Hu. unfold step. destruct (navigated s); [lia|].
  destruct e as [|h|h startThrows|h now|target confirmed env|now| |now idx results|error];
    try discriminate; cbn [uncounted].
  - rewrite Nat.add_0_r. apply noStart_budget, onload_noStart.
  - rewrite Nat.add_0_r. apply noStart_budget, timerCallback_noStart.
  - rewrite Nat.add_0_r. apply fire_budget.
  - unfold heartbeatCallback. destruct (bool_decide _); [|lia].
    destruct (isPaused s); [lia|]. destruct (_ && _); [|lia].
    etransitivity; [apply setTimeout_budget|].
    apply Nat.add_le_mono_r, noStart_budget. now apply noStart_frame.
  - rewrite Nat.add_0_r. unfold onstart. rewrite setupRecognitionHeartbeat_eq.
    apply noStart_budget. now apply noStart_frame.
  - rewrite Nat.add_0_r. apply onend_budget.
  - unfold onerror.
    destruct (String.eqb error "not-allowed"); [apply Nat.le_trans with (startBudget s); [|lia];
      apply noStart_budget; now apply noStart_frame|].
    destruct (String.eqb error "network").
    + etransitivity; [apply setTimeout_budget|].
      apply Nat.add_le_mono_r, noStart_budget. now apply noStart_frame.
    + rewrite Nat.add_0_r. apply noStart_budget. now apply noStart_frame.
Qed.

Lemma run_budget (es : list Event) (s : State) :
  Forall (λ e, unattended e = true) es →
  (startBudget (run nodes choiceTime Script60 es s)
   ≤ startBudget s + sum_list (uncounted <$> es))%nat.
Proof.
  revert s. induction es as [|e es IH]; intros s Hf; [cbn; lia|].
  apply Forall_cons in Hf as [He Hf].
  change (run nodes choiceTime Script60 (e :: es) s)
    with (run nodes choiceTime Script60 es (step nodes choiceTime Script60 e s)).
  change (sum_list (uncounted <$> e :: es))
    with (uncounted e + sum_list (uncounted <$> es))%nat.
  pose proof (IH (step nodes choiceTime Script60 e s) Hf) as H1. pose proof (step_budget e s He) as H2.
  revert H1 H2. generalize (sum_list (uncounted <$> es)).
  generalize (startBudget (run nodes choiceTime Script60 es (step nodes choiceTime Script60 e s))).
  generalize (startBudget (step nodes choiceTime Script60 e s)).
  intros a b c. lia.
Qed.


Lemma showPausePopup_attempts (script : Script) (s : State) :
  recognitionRestartAttempts (showPausePopup script s) = recognitionRestartAttempts s.
Proof.
  unfold showPausePopup. destruct (isPaused s); [reflexivity|].
  destruct script.
  - cbn. now destruct (timer s).
  - rewrite (clearHeartbeat_eq (set_isPaused true s)). cbn.
    destruct (recognition s); cbn; now destruct (timer s).
Qed.

Lemma scanResults_attempts (script : Script) (results : list string) (s : State) :
  recognitionRestartAttempts (scanResults script results s) = recognitionRestartAttempts s.
Proof.
  induction results as [|r rest IH]; [reflexivity|].
  cbn [scanResults]. destruct (heardStop _); [apply showPausePopup_attempts | exact IH].
Qed.

Lemma fire_attempts (script : Script) (h : nat) (startThrows : bool) (s : State) :
  recognitionRestartAttempts (fire nodes choiceTime h startThrows s)
  = recognitionRestartAttempts s.
Proof.
  unfold fire. destruct (timeouts s !! h) as [task|]; [|reflexivity].
  destruct task; cbn [runTask].
  - now destruct (displayCallback_noStart node (set_timeouts (delete h (timeouts s)) s))
      as (_ & -> & _).
  - now destruct startThrows.
  - cbn. now destruct (isPaused s).
  - cbn. destruct (isPaused s); [reflexivity|]. now destruct startThrows.
Qed.

(** Among the events that are no result and no click, only the end event
    moves the counter. *)
Lemma step_attempts (e : Event) (s : State) :
  unattended e = true → e ≠ RecEnd →
  recognitionRestartAttempts (step nodes choiceTime Script60 e s)
  = recognitionRestartAttempts s.
Proof.
  intros Hu Hne. unfold step. destruct (navigated s); [reflexivity|].
  destruct e as [|h|h startThrows|h now|target confirmed env|now| |now idx results|error];
    try discriminate; try congruence.
  - now destruct (onload_noStart Script60 s) as (_ & -> & _).
  - now destruct (timerCallback_noStart h s) as (_ & -> & _).
  - apply (fire_attempts Script60).
  - unfold heartbeatCallback. destruct (bool_decide _); [|reflexivity].
    destruct (isPaused s); [reflexivity|]. now destruct (_ && _).
  - unfold onstart. now rewrite setupRecognitionHeartbeat_eq.
  - unfold onerror. destruct (String.eqb error "not-allowed"); [reflexivity|].
    now destruct (String.eqb error "network").
Qed.

(** The 20 s script: every round of end and start calls start() again. *)
Lemma rounds_Script20 (n : nat) (now : Z) (s : State) :
  navigated s = false → isListening s = true →
  startCalls (run nodes choiceTime Script20 (concat (repeat [RecEnd; RecStart now] n)) s)
  = (startCalls s + n)%nat.
Proof.
  revert s. induction n as [|n IH]; intros s Hnav Hl; [cbn; lia|].
  change (concat (repeat [RecEnd; RecStart now] (S n)))
    with (RecEnd :: RecStart now :: concat (repeat [RecEnd; RecStart now] n)).
  change (run nodes choiceTime Script20 (RecEnd :: RecStart now :: ?es) s)
    with (run nodes choiceTime Script20 es
            (step nodes choiceTime Script20 (RecStart now)
               (step nodes choiceTime Script20 RecEnd s))).
  assert (E : step nodes choiceTime Script20 (RecStart now)
                (step nodes choiceTime Script20 RecEnd s)
              = set_isListening true (set_startCalls (S (startCalls s)) s)).
  { unfold step. rewrite Hnav. unfold onend. rewrite Hl. cbn. now rewrite Hnav. }
  rewrite E, IH by (cbn; assumption || reflexivity). cbn. lia.
Qed.

(** C4, as the code has it. The 60 s script counts and bounds the restarts
    that its end handler schedules. In a run without result and click
    events every call of start() is paid for: by a restart that was
    pending, by one of the attempts the counter had left, or by a network
    error or a firing of the heartbeat in the run; with nothing pending,
    a counter that is not negative and no such event, the run makes at
    most 5 calls. No event of such a run other than the end event moves
    the counter, recognition starting again included. Below 5 and not
    paused, an end event counts one attempt and schedules one restart, and
    that restart calls start(); from 5 on an end event schedules nothing,
    shows the disconnected notice and arms the click listener. A result
    and the click listener set the counter to zero. The retry after a
    network error and the restart after a stall found by the heartbeat are
    scheduled and run whatever the counter says. The 20 s script keeps no
    count: once it listens, every round of end and start calls start()
    again. *)
Theorem auto_restart_is_bounded (es : list Event) (s : State) :
  Forall (λ e, unattended e = true) es →
  let go := step nodes choiceTime Script60 in
  let s' := run nodes choiceTime Script60 es s in
  (startCalls s' + pendingStarts s' + attemptsLeft s'
   ≤ startCalls s + pendingStarts s + attemptsLeft s + sum_list (uncounted <$> es))%nat ∧
  (0 ≤ recognitionRestartAttempts s → (attemptsLeft s ≤ 5)%nat) ∧
  (pendingStarts s = 0%nat → 0 ≤ recognitionRestartAttempts s →
   sum_list (uncounted <$> es) = 0%nat →
   (startCalls s' ≤ startCalls s + 5)%nat) ∧
  (∀ e t, unattended e = true → e ≠ RecEnd →
     recognitionRestartAttempts (go e t) = recognitionRestartAttempts t) ∧
  (∀ t, navigated t = false → isPaused t = false →
     recognitionRestartAttempts t < MAX_RESTART_ATTEMPTS →
     go RecEnd t
     = setTimeout RestartTask
         (set_recognitionRestartAttempts (recognitionRestartAttempts t + 1)
            (set_isListening false t))) ∧
  (∀ t, navigated t = false → MAX_RESTART_ATTEMPTS ≤ recognitionRestartAttempts t →
     go RecEnd t = disconnect (set_isListening false t)) ∧
  (∀ t h startThrows, navigated t = false → timeouts t !! h = Some RestartTask →
     startCalls (go (Fire h startThrows) t) = S (startCalls t)) ∧
  (∀ t now resultIndex results, navigated t = false →
     recognitionRestartAttempts (go (RecResult now resultIndex results) t) = 0) ∧
  (∀ env t,
     recognitionRestartAttempts (runBodyListener Script60 env Reconnect t) = 0 ∧
     (env ≠ EnvUnsupported →
      startCalls (runBodyListener Script60 env Reconnect t) = S (startCalls t))) ∧
  (∀ t, navigated t = false →
     timeouts (go (RecError "network") t) !! nextHandle t = Some NetworkRetryTask) ∧
  (∀ t h now, navigated t = false → h ∈ heartbeats t → isPaused t = false →
     isListening t = true → TIMEOUT_THRESHOLD < now - lastRecognitionTime t →
     timeouts (go (Beat h now) t) !! nextHandle t = Some StallRestartTask ∧
     stopCalls (go (Beat h now) t) = S (stopCalls t)) ∧
  (∀ t h startThrows, navigated t = false → isPaused t = false →
     timeouts t !! h = Some NetworkRetryTask ∨ timeouts t !! h = Some StallRestartTask →
     startCalls (go (Fire h startThrows) t) = S (startCalls t)) ∧
  (∀ n now t, navigated t = false → isListening t = true →
     startCalls
       (run nodes choiceTime Script20 (concat (repeat [RecEnd; RecStart now] n)) t)
     = (startCalls t + n)%nat).
Proof.
  intros Hf go s'.
  pose proof (run_budget es s Hf) as Hb. fold s' in Hb. unfold startBudget in Hb.
  assert (H5 : 0 ≤ recognitionRestartAttempts s → (attemptsLeft s ≤ 5)%nat)
    by (unfold attemptsLeft, MAX_RESTART_ATTEMPTS; lia).
  split; [exact Hb|]. split; [exact H5|].
  split; [intros Hp Ha Hu; specialize (H5 Ha); lia|].
  split; [exact step_attempts|].
  split.
  { intros t Hnav Hp Ha. unfold go, step. rewrite Hnav. now apply onend_retry. }
  split.
  { intros t Hnav Ha. unfold go, step. rewrite Hnav. now apply onend_disconnect. }
  split.
  { intros t h b Hnav Hl. unfold go, step, fire. rewrite Hnav, Hl. cbn [runTask].
    now destruct b. }
  split.
  { intros t now i rs Hnav. unfold go, step. rewrite Hnav. unfold onresult.
    now rewrite scanResults_attempts. }
  split; [intros env t; destruct env; split; congruence || reflexivity|].
  split.
  { intros t Hnav. unfold go, step. rewrite Hnav. cbn. apply lookup_insert_eq. }
  split.
  { intros t h now Hnav Hin Hp Hl Hst. unfold go, step, heartbeatCallback.
    rewrite Hnav, Hp, Hl, bool_decide_eq_true_2 by exact Hin.
    destruct (Z.ltb_spec TIMEOUT_THRESHOLD (now - lastRecognitionTime t)) as [_|Hge]; [|lia].
    cbn. split; [apply lookup_insert_eq | reflexivity]. }
  split.
  { intros t h b Hnav Hp [Hl|Hl]; unfold go, step, fire; rewrite Hnav, Hl; cbn [runTask];
      cbn [isPaused set_timeouts]; rewrite Hp; [reflexivity | now destruct b]. }
  intros n now t Hnav Hl. now apply rounds_Script20.
Qed.

End Restarts.

(** ** The shipped player at work *)

Lemma missing_targets_are_dropped_witness :
  storyNodes !! "morning-after" = Some (nodeAt "morning-after") ∧
  choices (nodeAt "morning-after")
  = Some [("Destroy Computer", "destroy-computer"); ("Hit Desk", "hit-desk")] ∧
  ("Destroy Computer", "destroy-computer")
    ∈ [("Destroy Computer", "destroy-computer"); ("Hit Desk", "hit-desk")] ∧
  storyNodes !! "destroy-computer" = None ∧
  ("Destroy Computer", "destroy-computer")
    ∉ choiceButtons
        (displayCallback storyNodes (CHOICE_TIME Script20)
           (Some (Own (nodeAt "morning-after"))) initial).
Proof.
  assert (H1 : storyNodes !! "morning-after" = Some (nodeAt "morning-after"))
    by (vm_compute; reflexivity).
  assert (H2 : choices (nodeAt "morning-after")
               = Some [("Destroy Computer", "destroy-computer"); ("Hit Desk", "hit-desk")])
    by (vm_compute; reflexivity).
  assert (H3 : ("Destroy Computer", "destroy-computer")
                 ∈ [("Destroy Computer", "destroy-computer"); ("Hit Desk", "hit-desk")])
    by (apply list_elem_of_here).
  destruct (missing_targets_are_dropped Script20 "morning-after" (nodeAt "morning-after")
              initial _ "Destroy Computer" "destroy-computer" H1 H2 H3)
    as [_ [[[n Hn] _]|[Hnone Hnot]]].
  - vm_compute in Hn. discriminate.
  - exact (conj H1 (conj H2 (conj H3 (conj Hnone Hnot)))).
Defined.

Lemma timer_expires_exactly_once_witness :
  0 < CHOICE_TIME Script20 ∧
  reachable storyNodes (CHOICE_TIME Script20) Script20 opened20 ∧
  screens (ticks 20 (nextHandle opened20) (startTimer (CHOICE_TIME Script20) opened20))
  = screens opened20 ++ [timeUpScreen] ∧
  intervals (ticks 20 (nextHandle opened20) (startTimer (CHOICE_TIME Script20) opened20)) = ∅.
Proof.
  assert (H1 : 0 < CHOICE_TIME Script20) by reflexivity.
  assert (H2 : reachable storyNodes (CHOICE_TIME Script20) Script20 opened20)
    by apply reachable_run, reachable_initial.
  pose proof (timer_expires_exactly_once storyNodes (CHOICE_TIME Script20) Script20
                opened20 H1 H2) as (_ & _ & _ & H4 & H5 & _).
  exact (conj H1 (conj H2 (conj H4 H5))).
Defined.

Lemma one_timer_at_a_time_witness :
  reachable storyNodes (CHOICE_TIME Script20) Script20 opened20 ∧
  intervals opened20 = {[ 2%nat := 20 ]} ∧
  intervals (startTimer (CHOICE_TIME Script20) opened20) = {[ 3%nat := 20 ]} ∧
  timerDisplay (startTimer (CHOICE_TIME Script20) opened20) = Some 20.
Proof.
  assert (H1 : reachable storyNodes (CHOICE_TIME Script20) Script20 opened20)
    by apply reachable_run, reachable_initial.
  pose proof (one_timer_at_a_time storyNodes (CHOICE_TIME Script20) Script20 opened20 H1)
    as (_ & _ & _ & H4 & H5).
  split; [exact H1|]. split; [vm_compute; reflexivity|]. exact (conj H4 H5).
Defined.



Lemma choice_cancels_timer_witness :
  reachable storyNodes (CHOICE_TIME Script20) Script20 opened20 ∧
  navigated opened20 = false ∧
  choiceButtons opened20 !! 0%nat = Some ("Sugar Puffs", "breakfast") ∧
  intervals opened20 = {[ 2%nat := 20 ]} ∧
  intervals
    (step storyNodes (CHOICE_TIME Script20) Script20 (Click (OnChoice 0) false EnvOk) opened20)
  = ∅.
Proof.
  assert (H1 : reachable storyNodes (CHOICE_TIME Script20) Script20 opened20)
    by apply reachable_run, reachable_initial.
  assert (H2 : navigated opened20 = false) by reflexivity.
  assert (H3 : choiceButtons opened20 !! 0%nat = Some ("Sugar Puffs", "breakfast"))
    by reflexivity.
  pose proof (choice_cancels_timer storyNodes (CHOICE_TIME Script20) Script20 opened20
                0 "Sugar Puffs" "breakfast" false EnvOk H1 H2 H3) as (C1 & _).
  split; [exact H1|]. split; [exact H2|]. split; [exact H3|].
  split; [vm_compute; reflexivity | exact C1].
Defined.

Lemma auto_restart_is_bounded_witness :
  Forall (λ e, unattended e = true) (fiveRounds ++ [RecEnd]) ∧
  pendingStarts listening60 = 0%nat ∧
  0 ≤ recognitionRestartAttempts listening60 ∧
  sum_list (uncounted <$> fiveRounds ++ [RecEnd]) = 0%nat ∧
  (startCalls
     (run storyNodes (CHOICE_TIME Script60) Script60 (fiveRounds ++ [RecEnd]) listening60)
   ≤ startCalls listening60 + 5)%nat.
Proof.
  assert (H1 : Forall (λ e, unattended e = true) (fiveRounds ++ [RecEnd]))
    by (apply (bool_decide_unpack _); vm_compute; exact I).
  assert (H2 : pendingStarts listening60 = 0%nat) by (vm_compute; reflexivity).
  assert (H3 : 0 ≤ recognitionRestartAttempts listening60)
    by (vm_compute; discriminate).
  assert (H4 : sum_list (uncounted <$> fiveRounds ++ [RecEnd]) = 0%nat)
    by (vm_compute; reflexivity).
  pose proof (auto_restart_is_bounded storyNodes (CHOICE_TIME Script60)
                (fiveRounds ++ [RecEnd]) listening60 H1) as (_ & _ & P & _).
  exact (conj H1 (conj H2 (conj H3 (conj H4 (P H2 H3 H4))))).
Defined.

Lemma stop_pauses_once_witness :
  (0 ≤ 0)%nat ∧
  ["Please STOP now"] !! 0%nat = Some "Please STOP now" ∧
  includes "stop" (toLowerCase "Please STOP now") = true ∧
  isPaused listening60 = false ∧
  isPaused (onresult Script60 2000 0 ["Please STOP now"] listening60) = true ∧
  screens (onresult Script60 2000 0 ["Please STOP now"] listening60) = [pauseScreen].
Proof.
  assert (H1 : (0 ≤ 0)%nat) by lia.
  assert (H2 : ["Please STOP now"] !! 0%nat = Some "Please STOP now") by reflexivity.
  assert (H3 : includes "stop" (toLowerCase "Please STOP now") = true) by reflexivity.
  assert (H4 : isPaused listening60 = false) by reflexivity.
  pose proof (stop_pauses_once Script60 listening60 2000 0 0 ["Please STOP now"]
                "Please STOP now" H1 H2 H3) as P.
  cbn zeta in P. rewrite H4 in P. destruct P as [P1 P2].
  exact (conj H1 (conj H2 (conj H3 (conj H4 (conj P1 P2))))).
Defined.

(** ** Where the claims go beyond the code *)

(** C4, as stated, fails. The 20 s script has no bound: six rounds of end
    and start call start() six more times, and nothing asks for a click.
    In the 60 s script the player is not disconnected after five end
    events: the fifth restart has been made and the recognizer listens,
    with no notice and no click listener; the notice comes with the sixth
    end event. And the notice does not end the automatic restarts: after a
    network error, and after a stall that the heartbeat finds, start() is
    called a seventh time with the notice on the page and the click
    listener still armed, no click having come. *)
Lemma auto_restart_claim_fails :
  let r20 := run storyNodes (CHOICE_TIME Script20) Script20 in
  let r60 := run storyNodes (CHOICE_TIME Script60) Script60 in
  let ended20 := r20 (concat (repeat [RecEnd; RecStart 2000] 6)) listening20 in
  let after5 := r60 fiveRounds listening60 in
  let sixth := r60 [RecEnd] after5 in
  let retried := r60 [RecError "network"; RecEnd; Fire 14 false] after5 in
  let stalled := r60 [Beat 13 30000; RecEnd; Fire 14 false] after5 in
  (startCalls listening20 = 1%nat ∧ startCalls ended20 = 7%nat ∧
   bodyListeners ended20 = []) ∧
  (startCalls listening60 = 1%nat ∧ recognitionRestartAttempts after5 = 5 ∧
   startCalls after5 = 6%nat ∧ isListening after5 = true ∧
   bodyListeners after5 = [] ∧ (disconnectedNotice ∉ alerts after5)) ∧
  (startCalls sixth = 6%nat ∧ last (alerts sixth) = Some disconnectedNotice ∧
   bodyListeners sixth = [Reconnect]) ∧
  (startCalls retried = 7%nat ∧ last (alerts retried) = Some disconnectedNotice ∧
   bodyListeners retried = [Reconnect]) ∧
  (startCalls stalled = 7%nat ∧ last (alerts stalled) = Some disconnectedNotice ∧
   bodyListeners stalled = [Reconnect]).
Proof.
  vm_compute. repeat split.
  intros H. repeat (apply elem_of_cons in H as [H|H]; [discriminate|]).
  inversion H.
Qed.


(** C5, as stated, fails in its last part. In the 60 s script a result that
    holds the keyword while the session is paused is no pause, but it is no
    no-op either: the handler notes the time of the result. *)
Lemma stop_while_paused_changes_state :
  let paused :=
    step storyNodes (CHOICE_TIME Script60) Script60 (RecResult 2000 0 ["stop"]) listening60 in
  let again :=
    step storyNodes (CHOICE_TIME Script60) Script60 (RecResult 3000 0 ["stop"]) paused in
  isPaused paused = true ∧
  isPaused again = true ∧ screens again = screens paused ∧
  again ≠ paused.
Proof.
  cbn zeta.
  split; [vm_compute; reflexivity|].
  split; [vm_compute; reflexivity|].
  split; [vm_compute; reflexivity|].
  intros H. apply (f_equal lastRecognitionTime) in H. vm_compute in H. discriminate.
Qed.

(** C9, as stated, fails in its converse. Nothing takes the choice buttons
    away when the timer expires: a click on one of them after the time-up
    screen has come still runs its handler, the next node is displayed and
    a new countdown starts under the time-up screen. *)
Lemma choice_after_expiry_still_fires :
  let expired :=
    run storyNodes (CHOICE_TIME Script20) Script20 (repeat (Tick 2) 20) opened20 in
  let later :=
    run storyNodes (CHOICE_TIME Script20) Script20
      [Click (OnChoice 0) false EnvOk; Fire 3 false] expired in
  screens expired = [timeUpScreen] ∧
  intervals expired = ∅ ∧
  choiceButtons expired = [("Sugar Puffs", "breakfast"); ("Frosties", "breakfast")] ∧
  storyText later = Some (text (nodeAt "breakfast")) ∧
  choiceButtons later = [("YES", "tuckersoft-memory"); ("NO", "therapy-session")] ∧
  screens later = [timeUpScreen] ∧
  intervals later = {[ 4%nat := 20 ]}.
Proof. vm_compute. repeat split. Qed.

(** * Further properties of the player *)

(** ** The countdown in every state *)

Section Countdown.

Context (nodes : gmap string Node) (choiceTime : Z).

Lemma inStep_idle (s : State) : intervals s = ∅ → inStep choiceTime s.
Proof. intros He h t Hl. rewrite He, lookup_empty in Hl. discriminate. Qed.

Lemma inStep_frame (s s' : State) :
  intervals s' = intervals s → timerDisplay s' = timerDisplay s →
  inStep choiceTime s → inStep choiceTime s'.
Proof. intros Hi Hd H h t. rewrite Hi, Hd. apply H. Qed.

Lemma inStep_voiceOnly (s s' : State) :
  voiceOnly s s' → inStep choiceTime s → inStep choiceTime s'.
Proof.
  intros (_ & _ & _ & Hi & _ & _ & _ & Hd & _). now apply inStep_frame.
Qed.

Lemma inStep_startTimer (s : State) :
  0 < choiceTime → Inv s → inStep choiceTime (startTimer choiceTime s).
Proof.
  intros Hpos HI h t.
  rewrite startTimer_intervals, startTimer_timerDisplay by assumption.
  intros Hl. apply lookup_singleton_Some in Hl as [_ <-]. split; [lia | reflexivity].
Qed.

Lemma inStep_timerCallback (h : nat) (s : State) :
  Inv s → inStep choiceTime s → inStep choiceTime (timerCallback h s).
Proof.
  intros HI HJ. unfold timerCallback.
  destruct (intervals s !! h) as [t|] eqn:Hl; [|assumption].
  destruct (HJ h t Hl) as [Hb _].
  pose proof (inv_single s HI h t Hl) as Ht.
  destruct (intervals_cases s HI) as [He|(h0 & t0 & Ht0 & Hi0)].
  { rewrite He, lookup_empty in Hl. discriminate. }
  assert (h0 = h) by congruence. subst h0.
  rewrite Hi0, lookup_singleton_eq in Hl. injection Hl as ->.
  destruct (Z.leb_spec (t - 1) 0) as [Hle|Hgt].
  - apply inStep_idle. cbn. rewrite Ht. cbn.
    now rewrite Hi0, insert_singleton_eq, delete_singleton_eq.
  - intros h' t'. cbn. rewrite Hi0, insert_singleton_eq.
    intros Hl'. apply lookup_singleton_Some in Hl' as [_ <-]. split; [lia | reflexivity].
Qed.

Lemma restartGame_idle (s : State) : Inv s → intervals (restartGame nodes s) = ∅.
Proof. intros HI. cbn. now apply clearInterval_empty. Qed.

Lemma choiceClick_idle (nextNode : string) (s : State) :
  Inv s → intervals (choiceClick nodes nextNode s) = ∅.
Proof. intros HI. cbn. now apply clearInterval_empty. Qed.

Lemma inStep_showPausePopup (script : Script) (s : State) :
  Inv s → inStep choiceTime s → inStep choiceTime (showPausePopup script s).
Proof.
  intros HI HJ. destruct (isPaused s) eqn:Hp.
  - now rewrite showPausePopup_paused_noop.
  - destruct (showPausePopup_paused script s HI Hp) as (_ & _ & He & _).
    now apply inStep_idle.
Qed.

Lemma inStep_scanResults (script : Script) (results : list string) (s : State) :
  Inv s → inStep choiceTime s → inStep choiceTime (scanResults script results s).
Proof.
  intros HI HJ. induction results as [|r rest IH]; [assumption|].
  cbn [scanResults]. destruct (heardStop _); [now apply inStep_showPausePopup | assumption].
Qed.

Lemma inStep_displayCallback (node : option JsValue) (s : State) :
  0 < choiceTime → Inv s → inStep choiceTime s →
  inStep choiceTime (displayCallback nodes choiceTime node s).
Proof.
  intros Hpos HI HJ. unfold displayCallback.
  destruct node as [[n|name]|]; [|exact HJ|exact HJ].
  destruct (ending n); [exact HJ|].
  destruct (choices n) as [cs|]; [|exact HJ].
  apply inStep_startTimer; [assumption|].
  apply (Inv_frame s); [reflexivity | reflexivity | cbn; lia | assumption].
Qed.

Lemma inStep_runHandler
    (script : Script) (h : Handler) (i : nat) (confirmed : bool) (s : State) :
  0 < choiceTime → Inv s → inStep choiceTime s →
  inStep choiceTime (runHandler nodes choiceTime script h i confirmed s).
Proof.
  intros Hpos HI HJ.
  assert (Hrm : Inv (set_isPaused false (removeScreen i s)))
    by (apply (Inv_frame s); [reflexivity | reflexivity | cbn; lia | assumption]).
  assert (Hrm' : Inv (removeScreen i s))
    by (apply (Inv_frame s); [reflexivity | reflexivity | cbn; lia | assumption]).
  destruct h; cbn [runHandler].
  - apply inStep_idle. now apply restartGame_idle.
  - exact HJ.
  - pose proof (inStep_startTimer _ Hpos Hrm) as Hst.
    destruct script; [exact Hst|].
    eapply inStep_voiceOnly; [apply voiceOnly_rearm | exact Hst].
  - destruct confirmed; [|exact HJ].
    pose proof (inStep_idle _ (restartGame_idle _ Hrm)) as Hst.
    destruct script; [exact Hst|].
    eapply inStep_voiceOnly; [apply voiceOnly_rearm | exact Hst].
  - destruct confirmed; exact HJ.
Qed.

Lemma inStep_step (script : Script) (e : Event) (s : State) :
  0 < choiceTime → Inv s → inStep choiceTime s →
  inStep choiceTime (step nodes choiceTime script e s).
Proof.
  intros Hpos HI HJ. unfold step. destruct (navigated s); [assumption|].
  destruct e as [|h|h startThrows|h now|target confirmed env|now| |now idx results|error].
  - unfold onload. destruct (truthy _); [exact HJ|]. destruct script; exact HJ.
  - now apply inStep_timerCallback.
  - unfold fire. destruct (timeouts s !! h) as [task|]; [|assumption].
    assert (H0 : Inv (set_timeouts (delete h (timeouts s)) s))
      by (apply (Inv_frame s); [reflexivity | reflexivity | cbn; lia | assumption]).
    assert (J0 : inStep choiceTime (set_timeouts (delete h (timeouts s)) s)) by exact HJ.
    revert H0 J0. generalize (set_timeouts (delete h (timeouts s)) s). intros s0 H0 J0.
    destruct task; cbn [runTask].
    + now apply inStep_displayCallback.
    + destruct startThrows; exact J0.
    + destruct (isPaused s0); exact J0.
    + destruct (isPaused s0); [exact J0|]. destruct startThrows; exact J0.
  - unfold heartbeatCallback. destruct (bool_decide _); [|assumption].
    destruct (isPaused s); [assumption|]. destruct (_ && _); exact HJ.
  - eapply inStep_voiceOnly; [apply voiceOnly_bodyClick|].
    destruct target as [i|i button| | |]; cbn [targetClick].
    + destruct (choiceButtons s !! i) as [[label nextNode]|]; [|assumption].
      apply inStep_idle. now apply choiceClick_idle.
    + unfold screenClick. destruct (screens s !! i) as [sc|]; [|assumption].
      destruct (handlerOf button sc); [|assumption]. now apply inStep_runHandler.
    + destruct confirmed; [|assumption]. apply inStep_idle. now apply restartGame_idle.
    + destruct confirmed; exact HJ.
    + assumption.
  - unfold onstart. destruct script; [exact HJ|].
    rewrite setupRecognitionHeartbeat_eq. exact HJ.
  - unfold onend. destruct script.
    + destruct (isListening s); exact HJ.
    + destruct (_ && _); [exact HJ|]. destruct (_ <=? _); exact HJ.
  - unfold onresult. destruct script.
    + destruct (isPaused s); [assumption|].
      destruct (heardStop _); [now apply inStep_showPausePopup | assumption].
    + apply inStep_scanResults; [|exact HJ].
      apply (Inv_frame s); [reflexivity | reflexivity | cbn; lia | assumption].
  - unfold onerror, handleVoiceError. destruct script; [exact HJ|].
    destruct (String.eqb error "not-allowed"); [exact HJ|].
    destruct (String.eqb error "network"); exact HJ.
Qed.

Lemma reachable_inStep (script : Script) (s : State) :
  0 < choiceTime → reachable nodes choiceTime script s → inStep choiceTime s.
Proof.
  intros Hpos [es ->]. induction es as [|e es IH] using rev_ind.
  - now apply inStep_idle.
  - rewrite run_snoc. apply inStep_step; [assumption | | assumption].
    apply (reachable_Inv nodes choiceTime script). now exists es.
Qed.

(** X1. In every state of a player with a positive choice time, a running
    countdown is the one the variable timer names, it has between 1 and
    CHOICE_TIME seconds left, and the display shows exactly them. *)
Theorem countdown_in_step (script : Script) (s : State) (h : nat) (timeLeft : Z) :
  0 < choiceTime →
  reachable nodes choiceTime script s →
  intervals s !! h = Some timeLeft →
  1 ≤ timeLeft ≤ choiceTime ∧ timerDisplay s = Some timeLeft ∧ timer s = Some h.
Proof.
  intros Hpos Hr Hl.
  destruct (reachable_inStep script s Hpos Hr h timeLeft Hl) as [Hb Hd].
  pose proof (inv_single s (reachable_Inv _ _ _ _ Hr) h timeLeft Hl).
  tauto.
Qed.

End Countdown.

(** ** The pause flag and the pause screen *)

Section PauseFlag.

Context (nodes : gmap string Node) (choiceTime : Z).

Lemma pauseInStep_frame (s s' : State) :
  isPaused s' = isPaused s → screens s' = screens s →
  pauseInStep s → pauseInStep s'.
Proof. unfold pauseInStep, pauseScreens. intros -> ->. tauto. Qed.

Lemma pauseInStep_voiceOnly (s s' : State) :
  voiceOnly s s' → pauseInStep s → pauseInStep s'.
Proof. intros (_ & Hp & _ & _ & _ & _ & _ & _ & Hs & _). now apply pauseInStep_frame. Qed.

(** Another screen than the pause screen comes onto the page. *)
Lemma pauseInStep_append (sc : Screen) (s s' : State) :
  scripted sc → isPauseScreen sc = false →
  isPaused s' = isPaused s → screens s' = screens s ++ [sc] →
  pauseInStep s → pauseInStep s'.
Proof.
  unfold pauseInStep, pauseScreens. intros Hsc Hk -> -> [HF HP]. split.
  - apply Forall_app. split; [assumption | now constructor].
  - rewrite filter_app, HP. cbn. rewrite decide_False by congruence.
    cbn. apply app_nil_r.
Qed.

Lemma startTimer_pauseInStep (s : State) :
  pauseInStep s → pauseInStep (startTimer choiceTime s).
Proof.
  apply pauseInStep_frame; [apply startTimer_isPaused | apply startTimer_screens].
Qed.

Lemma restartGame_pauseInStep (s : State) :
  pauseInStep s → pauseInStep (restartGame nodes s).
Proof.
  apply pauseInStep_frame; cbn;
    [apply clearInterval_isPaused | apply clearInterval_screens].
Qed.

Lemma showPausePopup_pauseInStep (script : Script) (s : State) :
  pauseInStep s → pauseInStep (showPausePopup script s).
Proof.
  intros [HF HP]. destruct (isPaused s) eqn:Hp.
  - rewrite showPausePopup_paused_noop by assumption. split; [assumption|].
    now rewrite Hp.
  - destruct (showPausePopup_once script s Hp) as [H1 H2].
    unfold pauseInStep, pauseScreens in *. rewrite H1, H2. split.
    + apply Forall_app. split; [assumption|]. constructor; [now left | constructor].
    + now rewrite filter_app, HP.
Qed.

(** Taking the [i]-th screen away: a pause screen was the only one, and
    another screen leaves the pause screens as they are. *)
Lemma pauseScreens_delete (i : nat) (sc : Screen) (l : list Screen) (b : bool) :
  l !! i = Some sc →
  filter (λ sc, isPauseScreen sc = true) l = (if b then [pauseScreen] else []) →
  filter (λ sc, isPauseScreen sc = true) (delete i l)
  = if isPauseScreen sc then [] else if b then [pauseScreen] else [].
Proof.
  intros Hl Hf.
  rewrite <- (take_drop_middle l i sc Hl) in Hf.
  rewrite delete_take_drop, filter_app. rewrite filter_app, filter_cons in Hf.
  destruct (isPauseScreen sc) eqn:Hk.
  - rewrite decide_True in Hf by reflexivity.
    destruct b.
    + destruct (filter _ (take i l)) as [|x xs]; cbn in Hf.
      * injection Hf as _ Hrest. now rewrite Hrest.
      * injection Hf as _ Hrest. now destruct xs.
    + now destruct (filter _ (take i l)).
  - rewrite decide_False in Hf by congruence. exact Hf.
Qed.

Lemma removeScreen_scripted (i : nat) (s : State) :
  Forall scripted (screens s) → Forall scripted (screens (removeScreen i s)).
Proof. cbn. apply Forall_delete. Qed.

(** The listeners of a screen the scripts make: the pause screen has the
    pause handlers, the others have Try Again and Return to Menu. *)
Lemma handlerOf_scripted (button : string) (sc : Screen) (h : Handler) :
  scripted sc → handlerOf button sc = Some h →
  match h with
  | Resume | PauseRestart | PauseMenu => sc = pauseScreen
  | TryAgain | ReturnMenu => isPauseScreen sc = false
  end.
Proof.
  unfold handlerOf.
  intros [->|[->|[->|[t ->]]]]; cbn -[String.eqb];
    repeat (destruct (String.eqb _ button); cbn -[String.eqb];
            [intros [= <-]; reflexivity|]);
    intros Hn; inversion Hn.
Qed.

Lemma runHandler_pauseInStep
    (script : Script) (button : string) (sc : Screen) (h : Handler) (i : nat)
    (confirmed : bool) (s : State) :
  screens s !! i = Some sc → handlerOf button sc = Some h →
  pauseInStep s →
  pauseInStep (runHandler nodes choiceTime script h i confirmed s).
Proof.
  intros Hl Hh [HF HP].
  assert (Hsc : scripted sc) by (rewrite Forall_lookup in HF; eauto).
  pose proof (handlerOf_scripted button sc h Hsc Hh) as Hk.
  pose proof (pauseScreens_delete i sc (screens s) (isPaused s) Hl HP) as Hd.
  assert (Hgone : sc = pauseScreen →
                  pauseInStep (set_isPaused false (removeScreen i s))).
  { intros ->. split; [now apply removeScreen_scripted | exact Hd]. }
  destruct h; cbn [runHandler].
  - apply restartGame_pauseInStep. split; [now apply removeScreen_scripted|].
    unfold pauseScreens. cbn. now rewrite Hd, Hk.
  - now split.
  - pose proof (startTimer_pauseInStep _ (Hgone Hk)) as Hst.
    destruct script; [exact Hst|].
    eapply pauseInStep_voiceOnly; [apply voiceOnly_rearm | exact Hst].
  - destruct confirmed; [|now split].
    pose proof (restartGame_pauseInStep _ (Hgone Hk)) as Hst.
    destruct script; [exact Hst|].
    eapply pauseInStep_voiceOnly; [apply voiceOnly_rearm | exact Hst].
  - destruct confirmed; now split.
Qed.

Lemma timerCallback_pauseInStep (h : nat) (s : State) :
  pauseInStep s → pauseInStep (timerCallback h s).
Proof.
  intros HP. unfold timerCallback.
  destruct (intervals s !! h) as [t|]; [|assumption].
  destruct (t - 1 <=? 0).
  - apply (pauseInStep_append timeUpScreen s); [right; now left | reflexivity | | | assumption];
      cbn; destruct (timer s); reflexivity.
  - revert HP. now apply pauseInStep_frame.
Qed.

Lemma displayCallback_pauseInStep (node : option JsValue) (s : State) :
  pauseInStep s → pauseInStep (displayCallback nodes choiceTime node s).
Proof.
  intros HP. unfold displayCallback.
  destruct node as [[n|name]|]; [|revert HP; now apply pauseInStep_frame..].
  destruct (ending n).
  - apply (pauseInStep_append (endingScreen (text n)) s);
      [do 3 right; now exists (text n) | reflexivity | reflexivity | reflexivity | assumption].
  - destruct (choices n) as [cs|]; [|revert HP; now apply pauseInStep_frame].
    apply startTimer_pauseInStep. revert HP. now apply pauseInStep_frame.
Qed.

Lemma scanResults_pauseInStep (script : Script) (results : list string) (s : State) :
  pauseInStep s → pauseInStep (scanResults script results s).
Proof.
  intros HP. induction results as [|r rest IH]; [assumption|].
  cbn [scanResults]. destruct (heardStop _); [now apply showPausePopup_pauseInStep | assumption].
Qed.

Lemma step_pauseInStep (script : Script) (e : Event) (s : State) :
  pauseInStep s → pauseInStep (step nodes choiceTime script e s).
Proof.
  intros HP. unfold step. destruct (navigated s); [assumption|].
  destruct e as [|h|h startThrows|h now|target confirmed env|now| |now idx results|error].
  - unfold onload. destruct (truthy _).
    + revert HP. now apply pauseInStep_frame.
    + assert (HE : pauseInStep (appendScreen errorScreen s)).
      { apply (pauseInStep_append errorScreen s);
          [do 2 right; now left | reflexivity | reflexivity | reflexivity | assumption]. }
      destruct script; [exact HE|]. revert HE. now apply pauseInStep_frame.
  - now apply timerCallback_pauseInStep.
  - unfold fire. destruct (timeouts s !! h) as [task|]; [|assumption].
    assert (H0 : pauseInStep (set_timeouts (delete h (timeouts s)) s))
      by (revert HP; now apply pauseInStep_frame).
    revert H0. generalize (set_timeouts (delete h (timeouts s)) s). intros s0 H0.
    destruct task; cbn [runTask].
    + now apply displayCallback_pauseInStep.
    + destruct startThrows; revert H0; now apply pauseInStep_frame.
    + destruct (isPaused s0) eqn:Hp0; [assumption|].
      revert H0. now apply pauseInStep_frame.
    + destruct (isPaused s0) eqn:Hp0; [assumption|].
      destruct startThrows; revert H0; now apply pauseInStep_frame.
  - unfold heartbeatCallback. destruct (bool_decide _); [|assumption].
    destruct (isPaused s); [assumption|].
    destruct (_ && _); [|assumption]. revert HP. now apply pauseInStep_frame.
  - eapply pauseInStep_voiceOnly; [apply voiceOnly_bodyClick|].
    destruct target as [i|i button| | |]; cbn [targetClick].
    + destruct (choiceButtons s !! i) as [[label nextNode]|]; [|assumption].
      revert HP. apply pauseInStep_frame; cbn;
        [apply clearInterval_isPaused | apply clearInterval_screens].
    + unfold screenClick. destruct (screens s !! i) as [sc|] eqn:Hl; [|assumption].
      destruct (handlerOf button sc) as [hd|] eqn:Hh; [|assumption].
      now apply (runHandler_pauseInStep script button sc).
    + destruct confirmed; [now apply restartGame_pauseInStep | assumption].
    + destruct confirmed; [|assumption]. revert HP. now apply pauseInStep_frame.
    + assumption.
  - unfold onstart. destruct script; [revert HP; now apply pauseInStep_frame|].
    rewrite setupRecognitionHeartbeat_eq. revert HP. now apply pauseInStep_frame.
  - unfold onend. destruct script.
    + destruct (isListening s); [|assumption]. revert HP. now apply pauseInStep_frame.
    + destruct (_ && _); [revert HP; now apply pauseInStep_frame|].
      destruct (_ <=? _); revert HP; now apply pauseInStep_frame.
  - unfold onresult. destruct script.
    + destruct (isPaused s) eqn:Hp; [assumption|].
      destruct (heardStop _); [now apply showPausePopup_pauseInStep | assumption].
    + apply scanResults_pauseInStep. revert HP. now apply pauseInStep_frame.
  - unfold onerror, handleVoiceError. destruct script;
      [revert HP; now apply pauseInStep_frame|].
    destruct (String.eqb error "not-allowed"); [revert HP; now apply pauseInStep_frame|].
    destruct (String.eqb error "network"); revert HP; now apply pauseInStep_frame.
Qed.

(** X2. In every state of the player the pause flag and the pause screen go
    together: while the flag is set exactly one pause screen is on the
    page, and none while it is not. *)
Theorem pause_flag_matches_overlay (script : Script) (s : State) :
  reachable nodes choiceTime script s →
  pauseScreens s = (if isPaused s then [pauseScreen] else []) ∧
  (isPaused s = true ↔ pauseScreen ∈ screens s).
Proof.
  intros [es ->].
  assert (HP : pauseInStep (run nodes choiceTime script es initial)).
  { induction es as [|e es IH] using rev_ind.
    - split; [constructor | reflexivity].
    - rewrite run_snoc. now apply step_pauseInStep. }
  destruct HP as [_ HP]. split; [exact HP|].
  unfold pauseScreens in HP.
  destruct (isPaused (run nodes choiceTime script es initial)); split; try done.
  - intros _.
    assert (Hin : pauseScreen ∈ filter (λ sc, isPauseScreen sc = true)
                    (screens (run nodes choiceTime script es initial)))
      by (rewrite HP; apply list_elem_of_here).
    now apply list_elem_of_filter in Hin as [_ Hin].
  - intros Hin.
    assert (Hf : pauseScreen ∈ filter (λ sc, isPauseScreen sc = true)
                   (screens (run nodes choiceTime script es initial)))
      by now apply list_elem_of_filter.
    rewrite HP in Hf. inversion Hf.
Qed.

End PauseFlag.

(** ** From node to node *)

Section Transitions.

Context (nodes : gmap string Node) (choiceTime : Z).

Lemma startTimer_navigated (s : State) :
  navigated (startTimer choiceTime s) = navigated s.
Proof.
  unfold startTimer. destruct (truthy_handle (timer s)); [|reflexivity].
  cbn. now destruct (timer s).
Qed.

Lemma startTimer_bodyListeners (s : State) :
  bodyListeners (startTimer choiceTime s) = bodyListeners s.
Proof.
  unfold startTimer. destruct (truthy_handle (timer s)); [|reflexivity].
  cbn. now destruct (timer s).
Qed.

Lemma startTimer_alerts (s : State) :
  alerts (startTimer choiceTime s) = alerts s.
Proof.
  unfold startTimer. destruct (truthy_handle (timer s)); [|reflexivity].
  cbn. now destruct (timer s).
Qed.

Lemma js_get_Own (key : string) (n : Node) :
  nodes !! key = Some n → js_get nodes key = Some (Own n).
Proof. intros H. unfold js_get. now rewrite H. Qed.

(** The deferred display of a plain node: its text and buttons come onto
    the page and a countdown starts at the full time; screens and pause
    flag stay. *)
Lemma fire_display_plain
    (script : Script) (s : State) (h : nat) (startThrows : bool)
    (n : Node) (cs : list (string * string)) :
  Inv s → navigated s = false →
  timeouts s !! h = Some (DisplayTask (Some (Own n))) →
  ending n = false → choices n = Some cs →
  let shown := step nodes choiceTime script (Fire h startThrows) s in
  storyText shown = Some (text n) ∧
  choiceButtons shown = rendered nodes cs ∧
  intervals shown = {[ nextHandle s := choiceTime ]} ∧
  timerDisplay shown = Some choiceTime ∧
  screens shown = screens s ∧
  isPaused shown = isPaused s ∧
  uncaught shown = uncaught s ∧
  navigated shown = false.
Proof.
  intros HI Hnav Hl He Hc. cbn zeta. unfold step, fire. rewrite Hnav, Hl.
  cbn [runTask displayCallback]. rewrite He, Hc.
  set (base := set_choiceButtons _ _).
  assert (HIb : Inv base)
    by (apply (Inv_frame s); [reflexivity | reflexivity | cbn; lia | assumption]).
  rewrite startTimer_storyText, startTimer_choiceButtons, startTimer_timerDisplay,
    startTimer_screens, startTimer_isPaused, startTimer_uncaught, startTimer_navigated,
    startTimer_intervals by assumption.
  cbn. rewrite Hnav. repeat split.
Qed.

(** The click on a choice button and the deferred display it schedules,
    for a target that is a plain node. *)
Lemma click_fire_plain
    (script : Script) (s : State) (i : nat) (label target : string)
    (confirmed startThrows : bool) (env : SetupEnv)
    (n : Node) (cs : list (string * string)) :
  reachable nodes choiceTime script s →
  navigated s = false →
  choiceButtons s !! i = Some (label, target) →
  nodes !! target = Some n → ending n = false → choices n = Some cs →
  let shown :=
    step nodes choiceTime script (Fire (nextHandle s) startThrows)
      (step nodes choiceTime script (Click (OnChoice i) confirmed env) s) in
  showing nodes target shown ∧
  intervals shown = {[ S (nextHandle s) := choiceTime ]} ∧
  timerDisplay shown = Some choiceTime ∧
  screens shown = screens s ∧
  uncaught shown = uncaught s ∧
  navigated shown = false.
Proof.
  intros Hr Hnav Hb Hn He Hc.
  set (chosen := step nodes choiceTime script (Click (OnChoice i) confirmed env) s).
  assert (HIc : Inv chosen)
    by (apply (reachable_Inv nodes choiceTime script), reachable_step, Hr).
  pose proof (reachable_Inv _ _ _ _ Hr) as HI.
  set (clicked := choiceClick nodes target s).
  assert (Hv : voiceOnly clicked chosen).
  { subst chosen. unfold step. rewrite Hnav. cbn [targetClick]. rewrite Hb.
    apply voiceOnly_bodyClick. }
  assert (Hk : timeouts clicked !! nextHandle s = Some (DisplayTask (Some (Own n))) ∧
               nextHandle clicked = S (nextHandle s) ∧ screens clicked = screens s ∧
               uncaught clicked = uncaught s ∧ navigated clicked = false).
  { unfold clicked, choiceClick, updateDisplay, setTimeout. cbn.
    rewrite clearInterval_nextHandle, lookup_insert_eq, (js_get_Own target n Hn).
    repeat split; destruct (timer s); cbn; assumption || reflexivity. }
  destruct Hk as (K1 & K2 & K3 & K4 & K5).
  destruct Hv as (_ & _ & V3 & _ & V5 & _ & _ & _ & V9 & V10 & V11).
  assert (Hl : timeouts chosen !! nextHandle s = Some (DisplayTask (Some (Own n))))
    by (rewrite V5; exact K1).
  assert (Hnc : navigated chosen = false) by congruence.
  destruct (fire_display_plain script chosen (nextHandle s) startThrows n cs
              HIc Hnc Hl He Hc) as (F1 & F2 & F3 & F4 & F5 & _ & F7 & F8).
  cbn zeta. split; [now exists n, cs|].
  rewrite F3, F4, F5, F7, V3, K2, V9, K3, V10, K4. repeat split. exact F8.
Qed.

(** The same for a target that is an ending node. *)
Lemma click_fire_ending
    (script : Script) (s : State) (i : nat) (label target : string)
    (confirmed startThrows : bool) (env : SetupEnv) (n : Node) :
  reachable nodes choiceTime script s →
  navigated s = false →
  choiceButtons s !! i = Some (label, target) →
  nodes !! target = Some n → ending n = true →
  let ended :=
    step nodes choiceTime script (Fire (nextHandle s) startThrows)
      (step nodes choiceTime script (Click (OnChoice i) confirmed env) s) in
  choiceButtons ended = [] ∧
  screens ended = screens s ++ [endingScreen (text n)] ∧
  uncaught ended = uncaught s ∧
  navigated ended = false.
Proof.
  intros Hr Hnav Hb Hn He.
  set (chosen := step nodes choiceTime script (Click (OnChoice i) confirmed env) s).
  set (clicked := choiceClick nodes target s).
  assert (Hv : voiceOnly clicked chosen).
  { subst chosen. unfold step. rewrite Hnav. cbn [targetClick]. rewrite Hb.
    apply voiceOnly_bodyClick. }
  assert (Hk : timeouts clicked !! nextHandle s = Some (DisplayTask (Some (Own n))) ∧
               screens clicked = screens s ∧
               uncaught clicked = uncaught s ∧ navigated clicked = false).
  { unfold clicked, choiceClick, updateDisplay, setTimeout. cbn.
    rewrite clearInterval_nextHandle, lookup_insert_eq, (js_get_Own target n Hn).
    repeat split; destruct (timer s); cbn; assumption || reflexivity. }
  destruct Hk as (K1 & K3 & K4 & K5).
  destruct Hv as (_ & _ & _ & _ & V5 & _ & _ & _ & V9 & V10 & V11).
  assert (Hl : timeouts chosen !! nextHandle s = Some (DisplayTask (Some (Own n))))
    by (rewrite V5; exact K1).
  assert (Hnc : navigated chosen = false) by congruence.
  cbn zeta. clearbody chosen. unfold step, fire. rewrite Hnc, Hl.
  cbn [runTask displayCallback]. rewrite He. cbn.
  rewrite V9, K3, V10, K4, Hnc. repeat split.
Qed.

(** X3. A click on a choice button whose target is a plain node of
    the graph, followed by the deferred display, shows that node: its text,
    the buttons of its choices whose targets exist, and a fresh countdown at
    the full time. *)
Theorem choice_shows_target
    (script : Script) (s : State) (i : nat) (label target : string)
    (confirmed startThrows : bool) (env : SetupEnv)
    (n : Node) (cs : list (string * string)) :
  reachable nodes choiceTime script s →
  navigated s = false →
  choiceButtons s !! i = Some (label, target) →
  nodes !! target = Some n → ending n = false → choices n = Some cs →
  let shown :=
    step nodes choiceTime script (Fire (nextHandle s) startThrows)
      (step nodes choiceTime script (Click (OnChoice i) confirmed env) s) in
  showing nodes target shown ∧
  intervals shown = {[ S (nextHandle s) := choiceTime ]} ∧
  timerDisplay shown = Some choiceTime ∧
  screens shown = screens s ∧
  uncaught shown = uncaught s.
Proof.
  intros Hr Hnav Hb Hn He Hc.
  destruct (click_fire_plain script s i label target confirmed startThrows env n cs
              Hr Hnav Hb Hn He Hc) as (H1 & H2 & H3 & H4 & H5 & _).
  cbn zeta. tauto.
Qed.

(** X4. On a time-up or ending screen, Try Again takes that
    screen away and, after the deferred display, the start node is on the
    page with a fresh countdown at the full time; the other screens and the
    pause flag stay as they are. *)
Theorem try_again_shows_start
    (script : Script) (s : State) (i : nat) (sc : Screen)
    (confirmed startThrows : bool) (env : SetupEnv)
    (n : Node) (cs : list (string * string)) :
  reachable nodes choiceTime script s →
  navigated s = false →
  screens s !! i = Some sc →
  (sc = timeUpScreen ∨ ∃ shown, sc = endingScreen shown) →
  nodes !! "start" = Some n → ending n = false → choices n = Some cs →
  let again :=
    step nodes choiceTime script (Fire (nextHandle s) startThrows)
      (step nodes choiceTime script (Click (OnScreen i "tryAgainBtn") confirmed env) s) in
  showing nodes "start" again ∧
  screens again = delete i (screens s) ∧
  intervals again = {[ S (nextHandle s) := choiceTime ]} ∧
  timerDisplay again = Some choiceTime ∧
  isPaused again = isPaused s.
Proof.
  intros Hr Hnav Hl Hsc Hn He Hc.
  set (clicked := step nodes choiceTime script (Click (OnScreen i "tryAgainBtn") confirmed env) s).
  assert (HIc : Inv clicked)
    by (apply (reachable_Inv nodes choiceTime script), reachable_step, Hr).
  set (restarted := restartGame nodes (removeScreen i s)).
  assert (Hv : voiceOnly restarted clicked).
  { subst clicked. unfold step. rewrite Hnav. cbn [targetClick]. unfold screenClick.
    rewrite Hl.
    assert (Hh : handlerOf "tryAgainBtn" sc = Some TryAgain)
      by (destruct Hsc as [->|[t ->]]; reflexivity).
    rewrite Hh. apply voiceOnly_bodyClick. }
  assert (Hk : timeouts restarted !! nextHandle s = Some (DisplayTask (Some (Own n))) ∧
               nextHandle restarted = S (nextHandle s) ∧
               screens restarted = delete i (screens s) ∧
               isPaused restarted = isPaused s ∧ navigated restarted = false).
  { unfold restarted, restartGame, updateDisplay, setTimeout, removeScreen. cbn.
    rewrite clearInterval_nextHandle. cbn.
    rewrite lookup_insert_eq, (js_get_Own "start" n Hn).
    repeat split; destruct (timer s); cbn; assumption || reflexivity. }
  destruct Hk as (K1 & K2 & K3 & K4 & K5).
  destruct Hv as (_ & V2 & V3 & _ & V5 & _ & _ & _ & V9 & _ & V11).
  assert (Hlc : timeouts clicked !! nextHandle s = Some (DisplayTask (Some (Own n))))
    by (rewrite V5; exact K1).
  assert (Hnc : navigated clicked = false) by congruence.
  destruct (fire_display_plain script clicked (nextHandle s) startThrows n cs
              HIc Hnc Hlc He Hc) as (F1 & F2 & F3 & F4 & F5 & F6 & _).
  cbn zeta. split; [now exists n, cs|].
  rewrite F3, F4, F5, F6, V3, K2, V9, K3, V2, K4. repeat split.
Qed.

(** X5. With a plain start node in the graph, the load handler
    shows one notice, arms one click listener for the voice set-up and,
    after the deferred display, the start node is on the page with the
    first countdown at the full time. *)
Theorem load_shows_start
    (script : Script) (startThrows : bool) (n : Node) (cs : list (string * string)) :
  nodes !! "start" = Some n → ending n = false → choices n = Some cs →
  let opened :=
    run nodes choiceTime script [Load; Fire 1 startThrows] initial in
  showing nodes "start" opened ∧
  intervals opened = {[ 2%nat := choiceTime ]} ∧
  timerDisplay opened = Some choiceTime ∧
  screens opened = [] ∧
  bodyListeners opened = [FirstSetup] ∧
  length (alerts opened) = 1%nat ∧
  uncaught opened = 0%nat.
Proof.
  intros Hn He Hc.
  set (loaded := step nodes choiceTime script Load initial).
  assert (HIl : Inv loaded) by (apply Inv_step, Inv_initial).
  assert (Hk : timeouts loaded !! 1%nat = Some (DisplayTask (Some (Own n))) ∧
               nextHandle loaded = 2%nat ∧ navigated loaded = false ∧
               screens loaded = [] ∧ bodyListeners loaded = [FirstSetup] ∧
               length (alerts loaded) = 1%nat ∧ uncaught loaded = 0%nat).
  { unfold loaded, step, onload. cbn [navigated initial].
    rewrite (js_get_Own "start" n Hn). cbn. rewrite lookup_insert_eq.
    repeat split. }
  destruct Hk as (K1 & K2 & K3 & K4 & K5 & K6 & K7).
  pose proof (fire_display_plain script loaded 1 startThrows n cs HIl K3 K1 He Hc)
    as (F1 & F2 & F3 & F4 & F5 & _ & F7 & _).
  change (run nodes choiceTime script [Load; Fire 1 startThrows] initial)
    with (step nodes choiceTime script (Fire 1 startThrows) loaded).
  cbn zeta. split; [now exists n, cs|].
  rewrite F3, F4, F5, F7, K2, K4, K7.
  assert (Hvo : bodyListeners (step nodes choiceTime script (Fire 1 startThrows) loaded)
                = bodyListeners loaded ∧
                alerts (step nodes choiceTime script (Fire 1 startThrows) loaded)
                = alerts loaded).
  { unfold step, fire. rewrite K3, K1. cbn [runTask displayCallback]. rewrite He, Hc.
    rewrite startTimer_bodyListeners, startTimer_alerts. split; reflexivity. }
  destruct Hvo as [-> ->]. repeat split; assumption.
Qed.

(** X6. Loading without a start node: the load handler shows the error
    screen, whose one button returns to the menu, and arms no voice set-up.
    The 20 s script stops there. The 60 s script goes on to display the
    missing node: the deferred display throws and leaves the page without
    text, buttons and countdown. *)
Theorem load_without_start (script : Script) (startThrows : bool) :
  nodes !! "start" = None →
  let loaded := step nodes choiceTime script Load initial in
  let fired := step nodes choiceTime script (Fire 1 startThrows) loaded in
  screens loaded = [errorScreen] ∧
  listeners errorScreen = [("returnMenuBtn", ReturnMenu)] ∧
  bodyListeners loaded = [] ∧
  alerts loaded = [] ∧
  match script with
  | Script20 => timeouts loaded = ∅ ∧ fired = loaded
  | Script60 =>
      timeouts loaded = {[ 1%nat := DisplayTask None ]} ∧
      uncaught fired = 1%nat ∧ storyText fired = None ∧
      choiceButtons fired = [] ∧ intervals fired = ∅ ∧ timeouts fired = ∅
  end.
Proof.
  intros Hn.
  assert (Hg : js_get nodes "start" = None) by (unfold js_get; now rewrite Hn).
  intros loaded fired.
  assert (Hl : loaded
               = match script with
                 | Script20 => appendScreen errorScreen initial
                 | Script60 => updateDisplay None (appendScreen errorScreen initial)
                 end).
  { unfold loaded, step, onload. rewrite Hg. cbn [navigated initial truthy].
    now destruct script. }
  subst fired. rewrite Hl. clear Hl loaded.
  destruct script.
  - repeat split.
  - unfold step, fire. cbn. rewrite lookup_insert_eq. cbn.
    rewrite delete_insert_eq, insert_empty. repeat split.
Qed.

(** X7. The test of a target is a
    truthiness test of [storyNodes[nextNode]], so a choice whose target is no
    key of the graph but the name of a member of Object.prototype does get
    its button. A click on it, followed by the deferred display, throws:
    the page is left without text, buttons and countdown. *)
Theorem inherited_target_throws
    (script : Script) (s : State) (i : nat) (label target : string)
    (confirmed startThrows : bool) (env : SetupEnv) :
  target ∈ Object_prototype →
  nodes !! target = None →
  reachable nodes choiceTime script s →
  navigated s = false →
  choiceButtons s !! i = Some (label, target) →
  let thrown :=
    step nodes choiceTime script (Fire (nextHandle s) startThrows)
      (step nodes choiceTime script (Click (OnChoice i) confirmed env) s) in
  (∀ cs, (label, target) ∈ cs → (label, target) ∈ rendered nodes cs) ∧
  uncaught thrown = S (uncaught s) ∧
  storyText thrown = None ∧
  choiceButtons thrown = [] ∧
  intervals thrown = ∅ ∧
  screens thrown = screens s.
Proof.
  intros Hp Hn Hr Hnav Hb.
  assert (Hg : js_get nodes target = Some (Inherited target)).
  { unfold js_get. rewrite Hn. now rewrite bool_decide_eq_true_2. }
  pose proof (reachable_Inv _ _ _ _ Hr) as HI.
  set (chosen := step nodes choiceTime script (Click (OnChoice i) confirmed env) s).
  set (clicked := choiceClick nodes target s).
  assert (Hv : voiceOnly clicked chosen).
  { subst chosen. unfold step. rewrite Hnav. cbn [targetClick]. rewrite Hb.
    apply voiceOnly_bodyClick. }
  assert (Hk : timeouts clicked !! nextHandle s = Some (DisplayTask (Some (Inherited target))) ∧
               intervals clicked = ∅ ∧ screens clicked = screens s ∧
               uncaught clicked = uncaught s ∧ navigated clicked = false).
  { unfold clicked, choiceClick, updateDisplay, setTimeout. cbn.
    rewrite clearInterval_nextHandle, lookup_insert_eq, Hg, clearInterval_empty by assumption.
    repeat split; destruct (timer s); cbn; assumption || reflexivity. }
  destruct Hk as (K1 & K2 & K3 & K4 & K5).
  destruct Hv as (_ & _ & _ & V4 & V5 & _ & _ & _ & V9 & V10 & V11).
  cbn zeta. split.
  { intros cs Hin. apply rendered_spec. split; [exact Hin | now rewrite Hg]. }
  fold chosen.
  assert (Hnc : navigated chosen = false) by congruence.
  assert (Hlc : timeouts chosen !! nextHandle s = Some (DisplayTask (Some (Inherited target))))
    by (rewrite V5; exact K1).
  clearbody chosen. unfold step, fire. rewrite Hnc, Hlc.
  cbn. rewrite V4, K2, V9, K3, V10, K4. repeat split.
Qed.

(** X8. The deferred display does not look at
    the pause flag: when it fires in a paused session it starts the
    countdown all the same, and the countdown runs out under the pause
    screen. *)
Theorem display_ignores_pause
    (script : Script) (s : State) (h : nat) (startThrows : bool)
    (n : Node) (cs : list (string * string)) :
  0 < choiceTime →
  reachable nodes choiceTime script s →
  navigated s = false →
  isPaused s = true →
  timeouts s !! h = Some (DisplayTask (Some (Own n))) →
  ending n = false → choices n = Some cs →
  let shown := step nodes choiceTime script (Fire h startThrows) s in
  let expired := ticks (Z.to_nat choiceTime) (nextHandle s) shown in
  isPaused shown = true ∧
  intervals shown = {[ nextHandle s := choiceTime ]} ∧
  screens expired = screens s ++ [timeUpScreen].
Proof.
  intros Hpos Hr Hnav Hp Hl He Hc shown expired.
  pose proof (reachable_Inv _ _ _ _ Hr) as HI.
  destruct (fire_display_plain script s h startThrows n cs HI Hnav Hl He Hc)
    as (_ & _ & F3 & _ & F5 & F6 & _).
  fold shown in F3, F5, F6.
  assert (Ht : timer shown = Some (nextHandle s)).
  { assert (HIs : Inv shown)
      by (apply (reachable_Inv nodes choiceTime script), reachable_step, Hr).
    apply (inv_single shown HIs _ choiceTime). rewrite F3. apply lookup_singleton_eq. }
  destruct (ticks_expire (nextHandle s) choiceTime shown Ht F3 Hpos) as (E1 & _).
  fold expired in E1. rewrite E1, F5, F6. auto.
Qed.

End Transitions.

(** ** The voice monitor beside the game *)

Section VoiceBeside.

Context (nodes : gmap string Node) (choiceTime : Z).

Lemma scanResults_unheard (script : Script) (results : list string) (s : State) :
  (∀ r, r ∈ results → includes "stop" (toLowerCase r) = false) →
  scanResults script results s = s.
Proof.
  intros Hno. induction results as [|x rest IH]; [reflexivity|].
  cbn [scanResults]. rewrite heardStop_trim. unfold heardStop.
  rewrite (Hno x) by apply list_elem_of_here.
  apply IH. intros r Hr. apply Hno. now apply list_elem_of_further.
Qed.

(** X9. A result event without the keyword changes
    nothing in the 20 s script, where the keyword is looked for in the
    joined transcripts of all results; in the 60 s script, where it is
    looked for in each result from [resultIndex] on, it only zeroes the
    restart counter and notes the time. *)
Theorem no_keyword_no_pause
    (script : Script) (s : State) (now : Z) (resultIndex : nat) (results : list string) :
  match script with
  | Script20 => includes "stop" (toLowerCase (join results)) = false
  | Script60 =>
      ∀ r, r ∈ drop resultIndex results → includes "stop" (toLowerCase r) = false
  end →
  onresult script now resultIndex results s
  = match script with
    | Script20 => s
    | Script60 => set_lastRecognitionTime now (set_recognitionRestartAttempts 0 s)
    end.
Proof.
  destruct script; intros Hno; unfold onresult.
  - unfold heardStop. rewrite Hno. now destruct (isPaused s).
  - now apply scanResults_unheard.
Qed.

Lemma gameUntouched_refl (s : State) : gameUntouched s s.
Proof. repeat split. Qed.

(** X10. The start, end and error events
    of the recognizer and the restarts they schedule never touch the game:
    script timer, countdown, page, screens, pause flag and uncaught
    exceptions stay as they are, in both scripts and in every state. *)
Theorem voice_events_leave_the_game
    (script : Script) (s : State) (now : Z) (error : string)
    (h : nat) (startThrows : bool) :
  gameUntouched s (step nodes choiceTime script (RecStart now) s) ∧
  gameUntouched s (step nodes choiceTime script RecEnd s) ∧
  gameUntouched s (step nodes choiceTime script (RecError error) s) ∧
  ((timeouts s !! h = Some RestartTask ∨ timeouts s !! h = Some NetworkRetryTask) →
   gameUntouched s (step nodes choiceTime script (Fire h startThrows) s)).
Proof.
  unfold step. destruct (navigated s) eqn:Hnav.
  { repeat split. }
  split; [|split; [|split]].
  - unfold onstart. destruct script; [repeat split; assumption|].
    rewrite setupRecognitionHeartbeat_eq. repeat split; assumption.
  - unfold onend. destruct script.
    + destruct (isListening s); repeat split; assumption.
    + destruct (_ && _); [repeat split; assumption|].
      destruct (_ <=? _); repeat split; assumption.
  - unfold onerror, handleVoiceError. destruct script; [repeat split; assumption|].
    destruct (String.eqb error "not-allowed"); [repeat split; assumption|].
    destruct (String.eqb error "network"); repeat split; assumption.
  - unfold fire. intros [Hl|Hl]; rewrite Hl; cbn [runTask].
    + destruct startThrows; repeat split; assumption.
    + cbn. destruct (isPaused s); repeat split; assumption.
Qed.

Lemma startTimer_startCalls (s : State) :
  startCalls (startTimer choiceTime s) = startCalls s.
Proof.
  unfold startTimer. destruct (truthy_handle (timer s)); [|reflexivity].
  cbn. now destruct (timer s).
Qed.

(** With a working recognizer every armed listener of the 60 s script
    starts recognition once, and none is armed again. *)
Lemma foldl_listeners_ok (ls : list BodyListener) (s : State) :
  bodyListeners s = [] →
  startCalls (foldl (λ s l, runBodyListener Script60 EnvOk l s) s ls)
  = (startCalls s + length ls)%nat ∧
  bodyListeners (foldl (λ s l, runBodyListener Script60 EnvOk l s) s ls) = [].
Proof.
  revert s. induction ls as [|l ls IH]; intros s Hb.
  - cbn. rewrite Nat.add_0_r. now split.
  - cbn [foldl].
    set (s1 := runBodyListener Script60 EnvOk l s).
    assert (H1 : startCalls s1 = S (startCalls s) ∧ bodyListeners s1 = []).
    { subst s1. destruct l; cbn; rewrite ?Hb; now split. }
    destruct H1 as (A1 & A2).
    destruct (IH s1 A2) as (I1 & I2).
    rewrite I1, A1. cbn [length]. split; [lia | assumption].
Qed.

Lemma foldl_reconnect_ok (k : nat) (s : State) :
  recognitionRestartAttempts
    (foldl (λ s l, runBodyListener Script60 EnvOk l s) s (repeat Reconnect k))
  = match k with O => recognitionRestartAttempts s | S _ => 0 end.
Proof.
  revert s. induction k as [|k IH]; intros s; [reflexivity|].
  cbn [repeat foldl]. rewrite IH. now destruct k.
Qed.

Lemma bodyClick_ok (s : State) :
  startCalls (bodyClick Script60 EnvOk s)
  = (startCalls s + length (bodyListeners s))%nat ∧
  bodyListeners (bodyClick Script60 EnvOk s) = [].
Proof.
  unfold bodyClick.
  exact (foldl_listeners_ok (bodyListeners s) (set_bodyListeners [] s) eq_refl).
Qed.

(** X11. In the 60 s script a click with a working
    recognizer runs every click listener armed on the body once: each of
    them starts recognition once, none is left armed, and the game is not
    touched. *)
Theorem click_runs_every_listener (s : State) :
  startCalls (bodyClick Script60 EnvOk s)
  = (startCalls s + length (bodyListeners s))%nat ∧
  bodyListeners (bodyClick Script60 EnvOk s) = [] ∧
  voiceOnly s (bodyClick Script60 EnvOk s).
Proof.
  destruct (bodyClick_ok s) as [H1 H2].
  split; [exact H1|]. split; [exact H2|]. apply voiceOnly_bodyClick.
Qed.

(** X12. Every end event past the fifth arms one more
    reconnect listener, so after [n] end events in a row from a zero counter
    one click sets recognition up [n - 5] times, and the counter is back at
    zero when it did so at least once. *)
Theorem reconnect_after_ends (s : State) (n : nat) :
  isPaused s = false →
  recognitionRestartAttempts s = 0 →
  bodyListeners s = [] →
  let clicked := bodyClick Script60 EnvOk (ends Script60 n s) in
  startCalls clicked = (startCalls s + (n - 5))%nat ∧
  bodyListeners clicked = [] ∧
  recognitionRestartAttempts clicked = (if decide (n ≤ 5)%nat then Z.of_nat n else 0).
Proof.
  intros Hp Ha Hb.
  assert (Hbd : 0 ≤ recognitionRestartAttempts s ≤ MAX_RESTART_ATTEMPTS)
    by (rewrite Ha; unfold MAX_RESTART_ATTEMPTS; lia).
  destruct (ends_fields n s Hp Hbd) as (_ & I2 & _ & _ & I5 & _ & I7).
  rewrite Ha in I2, I5. change (Z.to_nat (MAX_RESTART_ATTEMPTS - 0)) with 5%nat in *.
  rewrite Hb in I5. cbn [app] in I5.
  set (ended := ends Script60 n s) in *. cbn zeta.
  unfold bodyClick. rewrite I5.
  destruct (foldl_listeners_ok (repeat Reconnect (n - 5)) (set_bodyListeners [] ended) eq_refl)
    as [H1 H2].
  rewrite H1, H2, foldl_reconnect_ok, repeat_length. cbn. rewrite I7, I2.
  split; [reflexivity|]. split; [reflexivity|].
  destruct (decide (n ≤ 5)%nat) as [Hle|Hgt].
  - replace (n - 5)%nat with 0%nat by lia. rewrite Nat.min_l by lia. lia.
  - destruct (n - 5)%nat eqn:E; [lia | reflexivity].
Qed.

(** X13. In the 60 s script the click on
    Resume arms a listener on the body that is meant to wait for the next
    click; the same click reaches the body after the button, so with a
    working recognizer recognition is started by that very click, once for
    the new listener and once for every listener that was armed before,
    and none is left. *)
Theorem resume_restarts_recognition_at_once
    (s : State) (i : nat) (confirmed : bool) :
  navigated s = false →
  screens s !! i = Some pauseScreen →
  let resumed :=
    step nodes choiceTime Script60 (Click (OnScreen i "resumeBtn") confirmed EnvOk) s in
  startCalls resumed = (startCalls s + length (bodyListeners s) + 1)%nat ∧
  bodyListeners resumed = [] ∧
  isPaused resumed = false.
Proof.
  intros Hnav Hl. cbn zeta. unfold step. rewrite Hnav. cbn [targetClick].
  unfold screenClick. rewrite Hl.
  change (handlerOf "resumeBtn" pauseScreen) with (Some Resume).
  cbn [runHandler].
  set (timed := startTimer choiceTime (set_isPaused false (removeScreen i s))).
  assert (Ht : startCalls timed = startCalls s ∧ bodyListeners timed = bodyListeners s ∧
               isPaused timed = false).
  { unfold timed. rewrite startTimer_startCalls, startTimer_bodyListeners, startTimer_isPaused.
    repeat split. }
  destruct Ht as (T1 & T2 & T3). clearbody timed.
  set (armed := addBodyListener StartOrSetup _).
  destruct (bodyClick_ok armed) as (C1 & C2).
  destruct (voiceOnly_bodyClick Script60 EnvOk armed) as (_ & C3 & _).
  rewrite C1, C2, C3. unfold armed. cbn. rewrite T1, T2, T3, length_app. cbn.
  repeat split. lia.
Qed.

(** X14. Restart and Return to Menu of the pause screen both ask first. A
    declined question leaves the game paused as it was. Restart, when
    confirmed, takes the pause screen away, clears the pause flag, leaves no
    countdown running and schedules the display of the start node; Return
    to Menu, when confirmed, leaves the page. *)
Theorem pause_restart_and_menu
    (script : Script) (s : State) (i : nat) (env : SetupEnv) :
  reachable nodes choiceTime script s →
  navigated s = false →
  screens s !! i = Some pauseScreen →
  let click button confirmed :=
    step nodes choiceTime script (Click (OnScreen i button) confirmed env) s in
  voiceOnly s (click "restartBtn" false) ∧
  voiceOnly s (click "menuBtn" false) ∧
  navigated (click "menuBtn" true) = true ∧
  isPaused (click "restartBtn" true) = false ∧
  screens (click "restartBtn" true) = delete i (screens s) ∧
  intervals (click "restartBtn" true) = ∅ ∧
  timeouts (click "restartBtn" true) !! nextHandle s
  = Some (DisplayTask (js_get nodes "start")).
Proof.
  intros Hr Hnav Hl. cbn zeta. unfold step. rewrite Hnav. cbn [targetClick].
  unfold screenClick. rewrite Hl.
  change (handlerOf "restartBtn" pauseScreen) with (Some PauseRestart).
  change (handlerOf "menuBtn" pauseScreen) with (Some PauseMenu).
  cbn [runHandler].
  pose proof (reachable_Inv _ _ _ _ Hr) as HI.
  split; [apply voiceOnly_bodyClick|]. split; [apply voiceOnly_bodyClick|].
  split.
  { destruct (voiceOnly_bodyClick script env (navigate s)) as (_ & _ & _ & _ & _ & _ & _ & _ & _ & _ & V).
    now rewrite V. }
  set (base := set_isPaused false (removeScreen i s)).
  assert (HIb : Inv base)
    by (apply (Inv_frame s); [reflexivity | reflexivity | cbn; lia | assumption]).
  set (restarted := restartGame nodes base).
  assert (Hk : isPaused restarted = false ∧ screens restarted = delete i (screens s) ∧
               intervals restarted = ∅ ∧
               timeouts restarted !! nextHandle s = Some (DisplayTask (js_get nodes "start"))).
  { unfold restarted, restartGame, updateDisplay, setTimeout. cbn.
    rewrite clearInterval_nextHandle, lookup_insert_eq.
    pose proof (clearInterval_empty base HIb) as He. cbn in He. 
    repeat split; try exact He; destruct (timer s); reflexivity. }
  destruct Hk as (K1 & K2 & K3 & K4).
  clearbody restarted.
  assert (Hv : voiceOnly restarted
                 (bodyClick script env
                    match script with
                    | Script20 => restarted
                    | Script60 =>
                        addBodyListener SetupAgain
                          (showAlert "Click anywhere to enable voice commands"
                             (set_recognitionRestartAttempts 0 restarted))
                    end)).
  { eapply voiceOnly_trans; [|apply voiceOnly_bodyClick].
    destruct script; [apply voiceOnly_refl | apply voiceOnly_rearm]. }
  destruct Hv as (_ & V2 & _ & V4 & V5 & _ & _ & _ & V9 & _).
  rewrite V2, V4, V5, V9. tauto.
Qed.

End VoiceBeside.

(** ** Every play of the shipped graph *)

Lemma playable_closed : closedUnderPicks storyNodes playable = true.
Proof. vm_compute. reflexivity. Qed.

(** A pick from a playable key leads to a playable key. *)
Lemma playable_successor (key next : string) :
  key ∈ playable → next ∈ successors storyNodes key → next ∈ playable.
Proof.
  intros Hk Hn. pose proof playable_closed as Hc.
  unfold closedUnderPicks in Hc. rewrite forallb_forall in Hc.
  specialize (Hc key (proj1 (list_elem_of_In _ _) Hk)).
  rewrite forallb_forall in Hc.
  specialize (Hc next (proj1 (list_elem_of_In _ _) Hn)).
  now apply bool_decide_eq_true in Hc.
Qed.

(** The playable keys are keys of the graph; their nodes are written as
    the literal writes nodes, and a plain one shows at least one button. *)
Lemma playable_checked :
  forallb (λ key,
             match storyNodes !! key with
             | Some n =>
                 wellFormed n &&
                 (ending n ||
                  negb (Nat.eqb (length (rendered storyNodes (default [] (choices n)))) 0))
             | None => false
             end) playable = true.
Proof. vm_compute. reflexivity. Qed.

Lemma playable_node (key : string) :
  key ∈ playable →
  storyNodes !! key = Some (nodeAt key) ∧
  wellFormed (nodeAt key) = true ∧
  (ending (nodeAt key) = false →
   rendered storyNodes (default [] (choices (nodeAt key))) ≠ []).
Proof.
  intros Hk. pose proof playable_checked as Hc. rewrite forallb_forall in Hc.
  specialize (Hc key (proj1 (list_elem_of_In _ _) Hk)).
  unfold nodeAt. destruct (storyNodes !! key) as [n|]; [|discriminate].
  apply andb_true_iff in Hc as [Hw Hd]. cbn [from_option id].
  split; [reflexivity|]. split; [exact Hw|].
  intros He. rewrite He in Hd. cbn [orb] in Hd.
  intros Hnil. rewrite Hnil in Hd. discriminate.
Qed.

Lemma start_playable : "start" ∈ playable.
Proof. apply list_elem_of_In. vm_compute. auto. Qed.

(** The two endings no choice leads to have texts of their own. *)
Lemma unplayable_texts :
  forallb (λ key,
             negb (String.eqb (text (nodeAt key)) (text (nodeAt "ending-2"))) &&
             negb (String.eqb (text (nodeAt key)) (text (nodeAt "ending-10"))))
    playable = true.
Proof. vm_compute. reflexivity. Qed.

Lemma endingScreen_inj (a b : string) : endingScreen a = endingScreen b → a = b.
Proof. now intros [= ->]. Qed.

Lemma buttonIndex_Some (p : Pick) (bs : list (string * string)) (i : nat) :
  buttonIndex p bs = Some i → ∃ b, bs !! i = Some b.
Proof.
  destruct p as [label|]; cbn.
  - destruct (list_find _ bs) as [[j b]|] eqn:Hf; [|discriminate].
    intros [= <-]. apply list_find_Some in Hf as (Hl & _). eauto.
  - destruct bs as [|b bs]; [discriminate|]. intros [= <-]. eauto.
Qed.

Lemma buttonIndex_nil (p : Pick) : buttonIndex p [] = None.
Proof. now destruct p. Qed.

Lemma inPlay_opened (sc : Script) :
  inPlay sc (run storyNodes (CHOICE_TIME sc) sc [Load; Fire 1 false] initial).
Proof.
  split; [apply reachable_run, reachable_initial|].
  split; [now destruct sc|]. split; [now destruct sc|].
  split; [destruct sc; vm_compute; constructor|].
  left. exists "start". split; [apply start_playable|].
  split.
  - exists (nodeAt "start"), (default [] (choices (nodeAt "start"))).
    destruct sc; vm_compute; repeat split.
  - destruct sc; vm_compute; discriminate.
Qed.

Lemma inPlay_choose (sc : Script) (p : Pick) (s : State) :
  inPlay sc s → inPlay sc (choose storyNodes (CHOICE_TIME sc) sc p s).
Proof.
  intros (Hr & Hnav & Hu & Hsc & Hpage). unfold choose.
  destruct (buttonIndex p (choiceButtons s)) as [i|] eqn:Hi.
  2: { exact (conj Hr (conj Hnav (conj Hu (conj Hsc Hpage)))). }
  destruct Hpage as [(key & Hk & (n & cs & Hn & He & Hc & Ht & Hb) & Hne)|[Hnil _]].
  2: { rewrite Hnil, buttonIndex_nil in Hi. discriminate. }
  destruct (buttonIndex_Some _ _ _ Hi) as [[label target] Hl].
  assert (Htp : target ∈ playable).
  { apply (playable_successor key); [exact Hk|].
    unfold successors. rewrite Hn, Hc. cbn [from_option id]. rewrite <- Hb.
    apply list_elem_of_fmap. exists (label, target). split; [reflexivity|].
    apply list_elem_of_lookup. eauto. }
  destruct (playable_node target Htp) as (Hnt & Hw & Hdead).
  set (next := step storyNodes (CHOICE_TIME sc) sc (Fire (nextHandle s) false)
                 (step storyNodes (CHOICE_TIME sc) sc (Click (OnChoice i) false EnvOk) s)).
  assert (Hrn : reachable storyNodes (CHOICE_TIME sc) sc next)
    by (do 2 apply reachable_step; exact Hr).
  destruct (ending (nodeAt target)) eqn:Het.
  - destruct (click_fire_ending storyNodes (CHOICE_TIME sc) sc s i label target
                false false EnvOk (nodeAt target) Hr Hnav Hl Hnt Het)
      as (E1 & E2 & E3 & E4).
    fold next in E1, E2, E3, E4.
    split; [exact Hrn|]. split; [exact E4|]. split; [congruence|].
    split.
    + rewrite E2. apply Forall_app. split; [exact Hsc|].
      constructor; [|constructor].
      exists target. split; [exact Htp|]. split; [exact Het | reflexivity].
    + right. split; [exact E1|]. rewrite E2.
      intros Hnil. symmetry in Hnil. exact (app_cons_not_nil _ _ _ Hnil).
  - assert (Hcs : choices (nodeAt target) = Some (default [] (choices (nodeAt target)))).
    { unfold wellFormed in Hw. destruct (choices (nodeAt target)); [reflexivity|].
      congruence. }
    destruct (click_fire_plain storyNodes (CHOICE_TIME sc) sc s i label target
                false false EnvOk (nodeAt target) _ Hr Hnav Hl Hnt Het Hcs)
      as (P1 & _ & _ & P4 & P5 & P6).
    fold next in P1, P4, P5, P6.
    split; [exact Hrn|]. split; [exact P6|]. split; [congruence|].
    split; [now rewrite P4|].
    left. exists target. split; [exact Htp|]. split; [exact P1|].
    destruct P1 as (n' & cs' & Hn' & _ & Hc' & _ & Hb').
    assert (En : n' = nodeAt target) by congruence. subst n'.
    assert (Ec : cs' = default [] (choices (nodeAt target))) by congruence. subst cs'.
    rewrite Hb'. apply Hdead. reflexivity.
Qed.

(** X15. Whatever buttons the player picks, by label or the first
    one, from the start node of the shipped graph: nothing is ever thrown;
    the page shows a node of the graph with at least one button, until an
    ending takes the buttons away and shows its screen; and the endings 2
    and 10, which no choice leads to, are never shown. *)
Theorem every_play_stays_in_the_graph (sc : Script) (picks : list Pick) :
  let opened := run storyNodes (CHOICE_TIME sc) sc [Load; Fire 1 false] initial in
  let final := foldl (λ s p, choose storyNodes (CHOICE_TIME sc) sc p s) opened picks in
  uncaught final = 0%nat ∧
  ((∃ key, is_Some (storyNodes !! key) ∧ showing storyNodes key final ∧
           choiceButtons final ≠ []) ∨
   (choiceButtons final = [] ∧
    ∃ key, ending (nodeAt key) = true ∧
           last (screens final) = Some (endingScreen (text (nodeAt key))))) ∧
  (endingScreen (text (nodeAt "ending-2")) ∉ screens final) ∧
  (endingScreen (text (nodeAt "ending-10")) ∉ screens final).
Proof.
  intros opened final.
  assert (HP : inPlay sc final).
  { subst final. induction picks as [|p picks IH] using rev_ind.
    - apply inPlay_opened.
    - rewrite foldl_app. cbn [foldl]. now apply inPlay_choose. }
  destruct HP as (_ & _ & Hu & Hsc & Hpage).
  split; [exact Hu|]. split.
  - destruct Hpage as [(key & Hk & Hsh & Hne)|[Hnil Hscr]].
    + left. exists key. destruct (playable_node key Hk) as (Hn & _).
      split; [rewrite Hn; exists (nodeAt key); reflexivity|]. split; assumption.
    + right. split; [exact Hnil|].
      destruct (screens final) as [|x l] eqn:Hs using rev_ind; [done|].
      apply Forall_app in Hsc as [_ Hx]. apply Forall_singleton in Hx as (key & _ & He & ->).
      exists key. split; [exact He|]. apply last_snoc.
  - assert (Hno : ∀ key, key ∈ playable →
                    text (nodeAt key) ≠ text (nodeAt "ending-2") ∧
                    text (nodeAt key) ≠ text (nodeAt "ending-10")).
    { intros key Hk. pose proof unplayable_texts as Hc. rewrite forallb_forall in Hc.
      specialize (Hc key (proj1 (list_elem_of_In _ _) Hk)).
      apply andb_true_iff in Hc as [H2 H10].
      apply negb_true_iff, String.eqb_neq in H2, H10. now split. }
    rewrite Forall_forall in Hsc.
    split; intros Hin; destruct (Hsc _ Hin) as (key & Hk & _ & Heq);
      destruct (Hno key Hk) as [H2 H10]; apply endingScreen_inj in Heq; congruence.
Qed.

(** ** The further properties at work *)

Lemma countdown_in_step_witness :
  0 < CHOICE_TIME Script20 ∧
  reachable storyNodes (CHOICE_TIME Script20) Script20 ticking20 ∧
  intervals ticking20 !! 2%nat = Some 17 ∧
  1 ≤ 17 ≤ CHOICE_TIME Script20 ∧
  timerDisplay ticking20 = Some 17 ∧
  timer ticking20 = Some 2%nat.
Proof.
  assert (H1 : 0 < CHOICE_TIME Script20) by reflexivity.
  assert (H2 : reachable storyNodes (CHOICE_TIME Script20) Script20 ticking20)
    by apply reachable_run, reachable_run, reachable_initial.
  assert (H3 : intervals ticking20 !! 2%nat = Some 17) by (vm_compute; reflexivity).
  exact (conj H1 (conj H2 (conj H3
           (countdown_in_step storyNodes (CHOICE_TIME Script20) Script20 ticking20 2 17
              H1 H2 H3)))).
Defined.

Lemma pause_flag_matches_overlay_witness :
  reachable storyNodes (CHOICE_TIME Script60) Script60 paused60 ∧
  isPaused paused60 = true ∧
  pauseScreens paused60 = [pauseScreen].
Proof.
  assert (H1 : reachable storyNodes (CHOICE_TIME Script60) Script60 paused60)
    by apply reachable_step, reachable_run, reachable_initial.
  assert (H2 : isPaused paused60 = true) by (vm_compute; reflexivity).
  pose proof (pause_flag_matches_overlay storyNodes (CHOICE_TIME Script60) Script60
                paused60 H1) as [P _].
  rewrite H2 in P.
  exact (conj H1 (conj H2 P)).
Defined.

Lemma choice_shows_target_witness :
  reachable storyNodes (CHOICE_TIME Script20) Script20 opened20 ∧
  navigated opened20 = false ∧
  choiceButtons opened20 !! 1%nat = Some ("Frosties", "breakfast") ∧
  storyNodes !! "breakfast" = Some (nodeAt "breakfast") ∧
  ending (nodeAt "breakfast") = false ∧
  choices (nodeAt "breakfast")
  = Some [("YES", "tuckersoft-memory"); ("NO", "therapy-session")] ∧
  showing storyNodes "breakfast"
    (step storyNodes (CHOICE_TIME Script20) Script20 (Fire (nextHandle opened20) false)
       (step storyNodes (CHOICE_TIME Script20) Script20
          (Click (OnChoice 1) false EnvOk) opened20)).
Proof.
  assert (H1 : reachable storyNodes (CHOICE_TIME Script20) Script20 opened20)
    by apply reachable_run, reachable_initial.
  assert (H2 : navigated opened20 = false) by (vm_compute; reflexivity).
  assert (H3 : choiceButtons opened20 !! 1%nat = Some ("Frosties", "breakfast"))
    by (vm_compute; reflexivity).
  assert (H4 : storyNodes !! "breakfast" = Some (nodeAt "breakfast"))
    by (vm_compute; reflexivity).
  assert (H5 : ending (nodeAt "breakfast") = false) by (vm_compute; reflexivity).
  assert (H6 : choices (nodeAt "breakfast")
               = Some [("YES", "tuckersoft-memory"); ("NO", "therapy-session")])
    by (vm_compute; reflexivity).
  pose proof (choice_shows_target storyNodes (CHOICE_TIME Script20) Script20 opened20
                1 "Frosties" "breakfast" false false EnvOk (nodeAt "breakfast") _
                H1 H2 H3 H4 H5 H6) as [P _].
  exact (conj H1 (conj H2 (conj H3 (conj H4 (conj H5 (conj H6 P)))))).
Defined.

Lemma try_again_shows_start_witness :
  reachable storyNodes (CHOICE_TIME Script20) Script20 expired20 ∧
  navigated expired20 = false ∧
  screens expired20 !! 0%nat = Some timeUpScreen ∧
  storyNodes !! "start" = Some (nodeAt "start") ∧
  ending (nodeAt "start") = false ∧
  choices (nodeAt "start") = Some [("Sugar Puffs", "breakfast"); ("Frosties", "breakfast")] ∧
  screens
    (step storyNodes (CHOICE_TIME Script20) Script20 (Fire (nextHandle expired20) false)
       (step storyNodes (CHOICE_TIME Script20) Script20
          (Click (OnScreen 0 "tryAgainBtn") false EnvOk) expired20))
  = delete 0%nat (screens expired20) ∧
  timerDisplay
    (step storyNodes (CHOICE_TIME Script20) Script20 (Fire (nextHandle expired20) false)
       (step storyNodes (CHOICE_TIME Script20) Script20
          (Click (OnScreen 0 "tryAgainBtn") false EnvOk) expired20))
  = Some (CHOICE_TIME Script20).
Proof.
  assert (H1 : reachable storyNodes (CHOICE_TIME Script20) Script20 expired20)
    by apply reachable_run, reachable_run, reachable_initial.
  assert (H2 : navigated expired20 = false) by (vm_compute; reflexivity).
  assert (H3 : screens expired20 !! 0%nat = Some timeUpScreen) by (vm_compute; reflexivity).
  assert (H4 : storyNodes !! "start" = Some (nodeAt "start")) by (vm_compute; reflexivity).
  assert (H5 : ending (nodeAt "start") = false) by (vm_compute; reflexivity).
  assert (H6 : choices (nodeAt "start")
               = Some [("Sugar Puffs", "breakfast"); ("Frosties", "breakfast")])
    by (vm_compute; reflexivity).
  pose proof (try_again_shows_start storyNodes (CHOICE_TIME Script20) Script20 expired20
                0 timeUpScreen false false EnvOk (nodeAt "start") _
                H1 H2 H3 (or_introl eq_refl) H4 H5 H6) as (_ & P2 & _ & P4 & _).
  exact (conj H1 (conj H2 (conj H3 (conj H4 (conj H5 (conj H6 (conj P2 P4))))))).
Defined.

Lemma load_shows_start_witness :
  storyNodes !! "start" = Some (nodeAt "start") ∧
  ending (nodeAt "start") = false ∧
  choices (nodeAt "start") = Some [("Sugar Puffs", "breakfast"); ("Frosties", "breakfast")] ∧
  showing storyNodes "start"
    (run storyNodes (CHOICE_TIME Script60) Script60 [Load; Fire 1 false] initial) ∧
  intervals (run storyNodes (CHOICE_TIME Script60) Script60 [Load; Fire 1 false] initial)
  = {[ 2%nat := CHOICE_TIME Script60 ]}.
Proof.
  assert (H4 : storyNodes !! "start" = Some (nodeAt "start")) by (vm_compute; reflexivity).
  assert (H5 : ending (nodeAt "start") = false) by (vm_compute; reflexivity).
  assert (H6 : choices (nodeAt "start")
               = Some [("Sugar Puffs", "breakfast"); ("Frosties", "breakfast")])
    by (vm_compute; reflexivity).
  pose proof (load_shows_start storyNodes (CHOICE_TIME Script60) Script60 false
                (nodeAt "start") _ H4 H5 H6) as (P1 & P2 & _).
  exact (conj H4 (conj H5 (conj H6 (conj P1 P2)))).
Defined.

Lemma load_without_start_witness :
  (∅ : gmap string Node) !! "start" = None ∧
  screens (step ∅ 60 Script60 Load initial) = [errorScreen] ∧
  uncaught (step ∅ 60 Script60 (Fire 1 false) (step ∅ 60 Script60 Load initial)) = 1%nat.
Proof.
  assert (H1 : (∅ : gmap string Node) !! "start" = None) by reflexivity.
  pose proof (load_without_start ∅ 60 Script60 false H1) as (P1 & _ & _ & _ & _ & P6 & _).
  exact (conj H1 (conj P1 P6)).
Defined.

Lemma inherited_target_throws_witness :
  "constructor" ∈ Object_prototype ∧
  inheritedGraph !! "constructor" = None ∧
  reachable inheritedGraph 20 Script20 openedInherited ∧
  navigated openedInherited = false ∧
  choiceButtons openedInherited !! 0%nat = Some ("Open", "constructor") ∧
  uncaught
    (step inheritedGraph 20 Script20 (Fire (nextHandle openedInherited) false)
       (step inheritedGraph 20 Script20 (Click (OnChoice 0) false EnvOk) openedInherited))
  = S (uncaught openedInherited) ∧
  choiceButtons
    (step inheritedGraph 20 Script20 (Fire (nextHandle openedInherited) false)
       (step inheritedGraph 20 Script20 (Click (OnChoice 0) false EnvOk) openedInherited))
  = [].
Proof.
  assert (H1 : "constructor" ∈ Object_prototype) by apply list_elem_of_here.
  assert (H2 : inheritedGraph !! "constructor" = None) by (vm_compute; reflexivity).
  assert (H3 : reachable inheritedGraph 20 Script20 openedInherited)
    by apply reachable_run, reachable_initial.
  assert (H4 : navigated openedInherited = false) by (vm_compute; reflexivity).
  assert (H5 : choiceButtons openedInherited !! 0%nat = Some ("Open", "constructor"))
    by (vm_compute; reflexivity).
  pose proof (inherited_target_throws inheritedGraph 20 Script20 openedInherited 0
                "Open" "constructor" false false EnvOk H1 H2 H3 H4 H5)
    as (_ & P2 & _ & P4 & _).
  exact (conj H1 (conj H2 (conj H3 (conj H4 (conj H5 (conj P2 P4)))))).
Defined.

Lemma display_ignores_pause_witness :
  0 < CHOICE_TIME Script20 ∧
  reachable storyNodes (CHOICE_TIME Script20) Script20 pausedInTransition20 ∧
  navigated pausedInTransition20 = false ∧
  isPaused pausedInTransition20 = true ∧
  timeouts pausedInTransition20 !! 3%nat
  = Some (DisplayTask (Some (Own (nodeAt "breakfast")))) ∧
  ending (nodeAt "breakfast") = false ∧
  choices (nodeAt "breakfast")
  = Some [("YES", "tuckersoft-memory"); ("NO", "therapy-session")] ∧
  isPaused
    (step storyNodes (CHOICE_TIME Script20) Script20 (Fire 3 false) pausedInTransition20)
  = true ∧
  intervals
    (step storyNodes (CHOICE_TIME Script20) Script20 (Fire 3 false) pausedInTransition20)
  = {[ nextHandle pausedInTransition20 := CHOICE_TIME Script20 ]}.
Proof.
  assert (H0 : 0 < CHOICE_TIME Script20) by reflexivity.
  assert (H1 : reachable storyNodes (CHOICE_TIME Script20) Script20 pausedInTransition20)
    by apply reachable_run, reachable_run, reachable_initial.
  assert (H2 : navigated pausedInTransition20 = false) by (vm_compute; reflexivity).
  assert (H3 : isPaused pausedInTransition20 = true) by (vm_compute; reflexivity).
  assert (H4 : timeouts pausedInTransition20 !! 3%nat
               = Some (DisplayTask (Some (Own (nodeAt "breakfast")))))
    by (vm_compute; reflexivity).
  assert (H5 : ending (nodeAt "breakfast") = false) by (vm_compute; reflexivity).
  assert (H6 : choices (nodeAt "breakfast")
               = Some [("YES", "tuckersoft-memory"); ("NO", "therapy-session")])
    by (vm_compute; reflexivity).
  pose proof (display_ignores_pause storyNodes (CHOICE_TIME Script20) Script20
                pausedInTransition20 3 false (nodeAt "breakfast") _
                H0 H1 H2 H3 H4 H5 H6) as (P1 & P2 & _).
  exact (conj H0 (conj H1 (conj H2 (conj H3 (conj H4 (conj H5 (conj H6 (conj P1 P2)))))))).
Defined.

Lemma no_keyword_no_pause_witness :
  (∀ r, r ∈ drop 1 ["stop it"; "go on"] → includes "stop" (toLowerCase r) = false) ∧
  onresult Script60 2000 1 ["stop it"; "go on"] listening60
  = set_lastRecognitionTime 2000 (set_recognitionRestartAttempts 0 listening60).
Proof.
  assert (H1 : ∀ r, r ∈ drop 1 ["stop it"; "go on"] →
                    includes "stop" (toLowerCase r) = false).
  { intros r Hr. cbn in Hr. apply list_elem_of_singleton in Hr as ->. reflexivity. }
  exact (conj H1 (no_keyword_no_pause Script60 listening60 2000 1 ["stop it"; "go on"] H1)).
Defined.

Lemma voice_events_leave_the_game_witness :
  timeouts (onend Script60 listening60) !! 4%nat = Some RestartTask ∧
  gameUntouched (onend Script60 listening60)
    (step storyNodes (CHOICE_TIME Script60) Script60 (Fire 4 true)
       (onend Script60 listening60)).
Proof.
  assert (H1 : timeouts (onend Script60 listening60) !! 4%nat = Some RestartTask)
    by (vm_compute; reflexivity).
  pose proof (voice_events_leave_the_game storyNodes (CHOICE_TIME Script60) Script60
                (onend Script60 listening60) 0 "network" 4 true) as (_ & _ & _ & P).
  exact (conj H1 (P (or_introl H1))).
Defined.

Lemma reconnect_after_ends_witness :
  isPaused listening60 = false ∧
  recognitionRestartAttempts listening60 = 0 ∧
  bodyListeners listening60 = [] ∧
  startCalls (bodyClick Script60 EnvOk (ends Script60 8 listening60))
  = (startCalls listening60 + 3)%nat ∧
  recognitionRestartAttempts (bodyClick Script60 EnvOk (ends Script60 8 listening60)) = 0.
Proof.
  assert (H1 : isPaused listening60 = false) by (vm_compute; reflexivity).
  assert (H2 : recognitionRestartAttempts listening60 = 0) by (vm_compute; reflexivity).
  assert (H3 : bodyListeners listening60 = []) by (vm_compute; reflexivity).
  pose proof (reconnect_after_ends listening60 8 H1 H2 H3) as (P1 & _ & P3).
  exact (conj H1 (conj H2 (conj H3 (conj P1 P3)))).
Defined.

Lemma resume_restarts_recognition_at_once_witness :
  navigated paused60 = false ∧
  screens paused60 !! 0%nat = Some pauseScreen ∧
  startCalls
    (step storyNodes (CHOICE_TIME Script60) Script60
       (Click (OnScreen 0 "resumeBtn") false EnvOk) paused60)
  = (startCalls paused60 + length (bodyListeners paused60) + 1)%nat ∧
  bodyListeners
    (step storyNodes (CHOICE_TIME Script60) Script60
       (Click (OnScreen 0 "resumeBtn") false EnvOk) paused60)
  = [].
Proof.
  assert (H1 : navigated paused60 = false) by (vm_compute; reflexivity).
  assert (H2 : screens paused60 !! 0%nat = Some pauseScreen) by (vm_compute; reflexivity).
  pose proof (resume_restarts_recognition_at_once storyNodes (CHOICE_TIME Script60)
                paused60 0 false H1 H2) as (P1 & P2 & _).
  exact (conj H1 (conj H2 (conj P1 P2))).
Defined.

Lemma pause_restart_and_menu_witness :
  reachable storyNodes (CHOICE_TIME Script60) Script60 paused60 ∧
  navigated paused60 = false ∧
  screens paused60 !! 0%nat = Some pauseScreen ∧
  voiceOnly paused60
    (step storyNodes (CHOICE_TIME Script60) Script60
       (Click (OnScreen 0 "restartBtn") false EnvOk) paused60) ∧
  isPaused
    (step storyNodes (CHOICE_TIME Script60) Script60
       (Click (OnScreen 0 "restartBtn") true EnvOk) paused60)
  = false.
Proof.
  assert (H0 : reachable storyNodes (CHOICE_TIME Script60) Script60 paused60)
    by apply reachable_step, reachable_run, reachable_initial.
  assert (H1 : navigated paused60 = false) by (vm_compute; reflexivity).
  assert (H2 : screens paused60 !! 0%nat = Some pauseScreen) by (vm_compute; reflexivity).
  pose proof (pause_restart_and_menu storyNodes (CHOICE_TIME Script60) Script60
                paused60 0 EnvOk H0 H1 H2) as (P1 & _ & _ & P4 & _).
  exact (conj H0 (conj H1 (conj H2 (conj P1 P4)))).
Defined.
